(* ===== verification/_CoqProject ===== *)
-Q . S2P
Prelude.v
GoStrings.v
Calendar.v
GoTime.v
TimeWf.v
Timestamp.v
Types.v
Differ.v
Schema.v
JsonDecode.v
