(* ===== verification/Prelude.v ===== *)
(** * Trusty SDK types: a verification development

    The repository (Go package [types], src/pkg/types) has two source files:
    - types.go: the [Ecosystem] enumeration with [AsString], the
      [Ecosystems] name table, the [Dependency] struct and the two
      dependency-set helpers [ConvertDepsToMap] and [DiffDependencies];
    - response.go: the timestamp type [Time] with its JSON hooks
      [UnmarshalJSON], [MarshalJSON] and [String], and the response schema
      ([Reply] and its nested structs), which encoding/json fills in and
      which calls the timestamp hooks for every [*Time] field.

    ** Files, in dependency order
    - Prelude.v (this file): the [result] type of fallible Go calls with its
      bind notation in [go_scope], the hint databases [trusty] and [go_rw],
      the tactics [invc] and [divmod_lia], Go's 64-bit wrap-around
      [wrap_int64], and shared lemmas on strings and integer division.
    - GoStrings.v, Module [GoStrings]: the Go library routines the codec
      calls on strings: [strings.Trim] ([Trim]), [strings.Contains]
      ([Contains]), [strconv.Quote] ([Quote], the [%q] verb of
      [fmt.Sprintf]) and the decimal helpers of package [time]
      ([appendInt], [leadingInt], [atoi], the latter with its [int]
      conversion wrapping at 64 bits), with their bounds ([atoi_bound]).
    - Calendar.v, Module [Calendar]: the proleptic Gregorian arithmetic of
      package [time]: [days_of_civil] (the day count of [time.Date]) and its
      inverse [year_yday]/[month_day] (Go's [absDate]), with both round
      trips.
    - GoTime.v, Module [GoTime]: [time.Time] (seconds from 1 January of
      year 1, nanoseconds, a [Location]), [Date], [Format], Go's general
      [parse] loop and [Parse] with its [ParseError]s, for the layout
      elements the codec's layouts use.
    - TimeWf.v, Module [TimeWf]: the invariant [pstate_ok] of the
      variables of [parse], preserved by every arm of [parse_std] and so by
      the loop, and [time_wf] (nanoseconds in [0, 10^9), year 0..9999),
      which every time [parse] returns satisfies ([parse_wf]).
    - Timestamp.v, Module [Timestamp]: response.go lines 17-47: [Time],
      [timeLayout], [UnmarshalJSON] (receiver in, new receiver and error
      out), [String_] (Go's [String]) and [MarshalJSON].
    - Types.v, Module [Types]: types.go lines 19-71: [Ecosystem] as [Z],
      the five constants, [Ecosystems] as a [gmap string Z], [AsString].
    - Differ.v, Module [Differ]: types.go lines 73-91: [ConvertDepsToMap] as
      a fold of map inserts; [DiffDependencies] as its [range] loop over an
      arbitrary enumeration order of [newDeps] ([DiffDependencies_loop]),
      since Go's map iteration order is unspecified. The typeclass
      [DependencyDiffer] with its laws [DependencyDifferLaws] is the
      contract the helpers give their callers; the section [Clients] proves
      the client theorems from the contract and [go_differ_laws] shows the
      Go code meets it.
    - Schema.v, Module [Schema]: response.go lines 49-256: every struct as
      a record in field order ([float64] as [spec_float], [*T] as
      [option T], [map[string]any] as an association list of JSON values),
      the named constants, and each struct's JSON keys read from its tags.
    - JsonDecode.v, Module [JsonDecode]: encoding/json filling and
      printing [MaliciousData] (response.go lines 216-223), the place where
      the codec meets the schema: JSON values ([json]), the
      [json.Unmarshaler] interface as a class ([Unmarshaler]) with the
      codec's [UnmarshalJSON] as its [Time] instance, a [*Time] field
      ([decode_ptr]: null sets nil, any other value goes to the method), a
      string field ([decode_string]), the key lookup with case folding
      ([lookup_field]), json's member loop ([decode_members]) with its
      saved and aborting errors, [Unmarshal_MaliciousData] and
      [Marshal_MaliciousData], and the member loop's abstract contract
      [MaliciousData_spec].

    ** Theorems
    - Timestamp codec: decoding an encoding yields the wall clock truncated
      to the microsecond in UTC ([UnmarshalJSON_MarshalJSON]), exactly the
      time for a UTC time with whole microseconds; an RFC 3339 UTC text
      with whole seconds (the service's form) or a fraction of one to
      nine digits decodes to its instant ([UnmarshalJSON_RFC3339_utc],
      [UnmarshalJSON_RFC3339_frac]); the fixed layout followed by a numeric
      offset is rejected ([UnmarshalJSON_offset_rejected]); every value the
      decoder stores is well formed ([UnmarshalJSON_wf]), so for every input
      re-encoding is stable after one decode
      ([UnmarshalJSON_reencode_stable]) and the encoding is 28 bytes
      ([MarshalJSON_decoded_length]); encoding is idempotent through a
      decode for years 0..9999 ([MarshalJSON_idempotent]; a later year
      prints five digits, which do not parse back); a failed decode resets
      the receiver to the zero time, and its error names the text and the
      layout tried. These rest
      on the calendar round trips and on [parse] reading back what [Format]
      prints, digit by digit.
    - Differ: the loop's result does not depend on the iteration order
      (refinement of the contract's [added_entries]); the lookup
      characterisations of both helpers and of their composition on two
      dependency snapshots; [ConvertDepsToMap] is last-write-wins and
      ignores the ecosystem.
    - Ecosystems: [AsString] is empty exactly off the [Ecosystems] table
      and injective on it.
    - JsonDecode (the codec inside encoding/json): a timestamp, of either
      [*Time] field, that fails to parse aborts the whole decode with the
      codec's error, ignoring the members after it and leaving its field
      at the zero time ([Unmarshal_timestamp_error_aborts], spec
      section 7); a null member decodes as an absent one
      ([Unmarshal_null_is_absent], spec section 6); [json.Marshal] then
      [json.Unmarshal] of the struct succeeds and gives back the strings
      coerced to valid UTF-8 and the timestamps as the codec reads back
      its own text ([Unmarshal_Marshal_MaliciousData]); the member loop refines the
      contract "the last member naming a field decides it", which settles
      duplicate and case-variant keys ([decode_members_refines]); a
      mistyped value for any string field is a saved error naming the
      field, the first one wins and decoding goes on
      ([Unmarshal_type_error_continues]); JSON null and the string "null"
      differ for either [*Time] field ([member_null_vs_quoted_null]).

    ** Bounds and fuel
    Integers are unbounded [Z]: Go's [int64] seconds overflow only billions
    of years away, so the codec theorems assume a year in 0..9999, the
    range the four-digit layout prints and the only one [parse] produces.
    Where a 64-bit result can wrap within reach of an input, as [atoi]'s
    [int(q)] for [q = 2^63], the wrap is written out ([wrap_int64]). [skip]
    runs on fuel equal to the layout literal's length plus one; each step
    consumes a byte of the literal, so any bound at least its length gives
    the same result ([skip_fuel_stable]). The fraction-digit scan of
    [parse] runs on the value's length, and stops at the first non-digit
    having passed only digits ([digits_from_terminates]). [ndigits] runs on
    a fuel of the number's bit length plus one, enough for its decimal
    digits; [parse_loop] recurses on the list of layout elements, and
    json's member loop on the list of members; the UTF-8 coercion of
    [json.Marshal] runs on the string's length, and each step consumes a
    byte or more ([utf8_coerce_fuel_stable]). The loops of the repository
    itself are [range] loops over a slice or a map, folds here.

    ** Not modelled
    Go's [Local] location (offsets get fixed zones), the RFC 3339 fast path
    of [time.Parse] (the general loop gives the same results), multi-byte
    UTF-8 in [strconv.Quote] (bytes are escaped one by one; the codec only
    quotes ASCII), and the reflection-driven decoding of encoding/json
    beyond [MaliciousData]: the other structs need strconv.ParseFloat for
    their [float64] scores, nested structs and [map[string]any], which are
    library code the sources only call; in JsonDecode.v string escapes,
    Unicode key folding and aliasing between the receiver's pointers are
    left out (see its header). *)

From stdpp Require Export base gmap strings list fin_maps.
From Stdlib Require Export ZArith Lia String Ascii.

(** ** Go-style results

    Fallible Go functions return a value and an [error]; the models return
    [Ok v] or [Err e]. *)
Inductive result (E A : Type) : Type :=
| Ok (a : A)
| Err (e : E).
Arguments Ok {E A} a.
Arguments Err {E A} e.

Declare Scope go_scope.
Delimit Scope go_scope with go.

Notation "x <- c1 ;; c2" :=
  (match c1 with Ok x => c2 | Err e => Err e end)
  (at level 100, c1 at next level, right associativity) : go_scope.

Create HintDb trusty discriminated.
Create Rewrite HintDb go_rw.

Ltac invc H := inversion H; subst; clear H.

(** Arithmetic with division and remainder by constants. *)
Ltac divmod_lia := Z.div_mod_to_equations; lia.

Open Scope Z_scope.

(** Bounded quantification over an integer range, decided by computation. *)
Definition Z_range (lo : Z) (n : nat) : list Z :=
  List.map (fun i => lo + Z.of_nat i) (List.seq 0 n).

(** Go's [int] (64 bits): the two's-complement wrap-around of a
    conversion or negation. *)
Definition wrap_int64 (z : Z) : Z := (z + 2 ^ 63) mod 2 ^ 64 - 2 ^ 63.

(** ** Shared lemmas on strings

    stdpp declares [String.append] [simpl never]; its two equations are
    stated here and used by rewriting. *)

Lemma str_app_cons (x : ascii) (a b : string) :
  (String x a ++ b = String x (a ++ b))%string.
Proof. reflexivity. Qed.

Lemma str_app_nil_l (b : string) : ("" ++ b = b)%string.
Proof. reflexivity. Qed.

Lemma str_app_assoc (a b c : string) : ((a ++ b) ++ c = a ++ (b ++ c))%string.
Proof. induction a as [|x a IH]; [done|]. rewrite !str_app_cons. simpl. congruence. Qed.

Lemma str_app_nil_r (a : string) : (a ++ "" = a)%string.
Proof. induction a as [|x a IH]; [done|]. rewrite !str_app_cons. simpl. congruence. Qed.

Lemma str_length_app (a b : string) :
  String.length (a ++ b) = (String.length a + String.length b)%nat.
Proof. induction a as [|x a IH]; [done|]. rewrite !str_app_cons. simpl. congruence. Qed.

#[export] Hint Rewrite str_app_cons str_app_nil_l str_app_assoc str_app_nil_r str_length_app : go_rw.

(** ** Shared lemmas on integers *)

Lemma Z_div_mul_add (k a r : Z) : 0 <= r < k -> (k * a + r) / k = a.
Proof. intros Hr. symmetry. apply (Z.div_unique _ _ _ r); lia. Qed.

Lemma Z_mod_mul_add (k a r : Z) : 0 <= r < k -> (k * a + r) mod k = r.
Proof. intros Hr. symmetry. apply (Z.mod_unique _ _ a r); lia. Qed.


Lemma wrap_int64_small (z : Z) : - 2 ^ 63 <= z < 2 ^ 63 -> wrap_int64 z = z.
Proof.
  intros Hz. unfold wrap_int64. rewrite Z.mod_small; [lia|].
  replace (2 ^ 64) with (2 ^ 63 * 2) by reflexivity. lia.
Qed.

Lemma Z_range_forallb (f : Z -> bool) (lo : Z) (n : nat) :
  forallb f (Z_range lo n) = true ->
  forall x, lo <= x < lo + Z.of_nat n -> f x = true.
Proof.
  intros Hall x Hx. rewrite forallb_forall in Hall. apply Hall.
  unfold Z_range. apply in_map_iff. exists (Z.to_nat (x - lo)).
  split; [lia|]. apply in_seq. lia.
Qed.
