(* ===== verification/GoStrings.v ===== *)
(** * Go string routines called by the timestamp codec

    Models of the Go standard-library functions that src/pkg/types/response.go
    calls on strings, written from their documented behaviour:
    - [strings.Trim(s, cutset)] for an ASCII cutset ([UnmarshalJSON] trims
      the quote byte);
    - [strings.Contains(s, substr)] ([UnmarshalJSON] looks for ["Z"]);
    - [strconv.Quote], which [fmt.Sprintf("%q", s)] applies to a string
      ([Time.String]); bytes are modelled one by one, so a byte at or above
      0x80 is escaped as [\xhh] as Go does for invalid UTF-8 (a valid
      multi-byte UTF-8 sequence is not modelled);
    - the decimal helpers of package [time]: [appendInt] (zero-padded
      printing), [isDigit], [leadingInt] and [atoi].
    Go strings are byte strings; [ascii] is a byte. *)
From S2P Require Import Prelude.

Open Scope string_scope.

Module GoStrings.

(** ** Bytes *)

Definition dquote : ascii := ascii_of_nat 34.
Definition backslash : ascii := ascii_of_nat 92.

Definition is_digit_char (c : ascii) : bool :=
  (48 <=? nat_of_ascii c)%nat && (nat_of_ascii c <=? 57)%nat.

Definition digit_val (c : ascii) : Z := Z.of_nat (nat_of_ascii c) - 48.

Definition digit_char (d : Z) : ascii := ascii_of_nat (48 + Z.to_nat d).

(** [isDigit(s, i)]: false past the end of [s]. *)
Definition isDigit (s : string) (i : nat) : bool :=
  match String.get i s with
  | Some c => is_digit_char c
  | None => false
  end.

(** Go slices [s[:n]] and [s[n:]], used where the code has checked the
    length first. *)
Fixpoint str_take (n : nat) (s : string) : string :=
  match n, s with
  | O, _ | _, EmptyString => EmptyString
  | S n', String c r => String c (str_take n' r)
  end.

Fixpoint str_drop (n : nat) (s : string) : string :=
  match n, s with
  | O, _ => s
  | _, EmptyString => EmptyString
  | S n', String _ r => str_drop n' r
  end.

(** ** strings.Trim *)

Definition in_cutset (c : ascii) (cutset : string) : bool :=
  existsb (Ascii.eqb c) (list_ascii_of_string cutset).

Fixpoint trim_left (s cutset : string) : string :=
  match s with
  | EmptyString => EmptyString
  | String x r => if in_cutset x cutset then trim_left r cutset else s
  end.

Fixpoint trim_right (s cutset : string) : string :=
  match s with
  | EmptyString => EmptyString
  | String x r =>
      match trim_right r cutset with
      | EmptyString => if in_cutset x cutset then EmptyString else String x EmptyString
      | r' => String x r'
      end
  end.

(** [strings.Trim]: returns [s] unchanged when either argument is empty,
    otherwise drops the trailing and then the leading bytes of [cutset]. *)
Definition Trim (s cutset : string) : string :=
  match s, cutset with
  | EmptyString, _ | _, EmptyString => s
  | _, _ => trim_left (trim_right s cutset) cutset
  end.

(** ** strings.Contains *)

Fixpoint Contains (s substr : string) : bool :=
  String.prefix substr s ||
  match s with
  | EmptyString => false
  | String _ r => Contains r substr
  end.

(** ** strconv.Quote *)

Definition lowerhex (n : nat) : ascii :=
  match String.get n "0123456789abcdef" with Some c => c | None => "0"%char end.

Definition hex_escape (c : ascii) : string :=
  String backslash (String "x" (String (lowerhex (nat_of_ascii c / 16))
    (String (lowerhex (nat_of_ascii c mod 16)) EmptyString))).

Definition escape_byte (c : ascii) : string :=
  let n := nat_of_ascii c in
  if Ascii.eqb c dquote || Ascii.eqb c backslash then String backslash (String c EmptyString)
  else if (32 <=? n)%nat && (n <? 127)%nat then String c EmptyString
  else match n with
       | 7 => String backslash "a"
       | 8 => String backslash "b"
       | 12 => String backslash "f"
       | 10 => String backslash "n"
       | 13 => String backslash "r"
       | 9 => String backslash "t"
       | 11 => String backslash "v"
       | _ => hex_escape c
       end%nat.

Fixpoint quote_body (s : string) : string :=
  match s with
  | EmptyString => EmptyString
  | String c r => escape_byte c ++ quote_body r
  end.

Definition Quote (s : string) : string :=
  String dquote (quote_body s ++ String dquote EmptyString).

(** ** Decimal printing (package time, appendInt) *)

(** The low [w] decimal digits of [u], most significant first. *)
Fixpoint digits_fixed (w : nat) (u : Z) : string :=
  match w with
  | O => EmptyString
  | S w' => String (digit_char ((u / 10 ^ Z.of_nat w') mod 10)) (digits_fixed w' u)
  end.

(** Number of decimal digits of [u >= 0] (1 for 0); [fuel] bounds the loop. *)
Fixpoint ndigits_fuel (fuel : nat) (u : Z) : nat :=
  match fuel with
  | O => 1
  | S f => if (u <? 10)%Z then 1 else S (ndigits_fuel f (u / 10))
  end.

Definition ndigits (u : Z) : nat := ndigits_fuel (S (Z.to_nat (Z.log2 u))) u.

(** [appendInt(b, x, width)]: the sign, then [|x|] zero-padded to [width]. *)
Definition appendInt (x : Z) (width : nat) : string :=
  let u := Z.abs x in
  (if (x <? 0)%Z then "-" else "") ++ digits_fixed (Nat.max width (ndigits u)) u.

(** ** Decimal reading (package time, leadingInt and atoi) *)

(** [leadingInt]: the leading digits of [s] and the rest; fails when the
    value exceeds 2^63. *)
Fixpoint leadingInt_acc (x : Z) (s : string) : result unit (Z * string) :=
  match s with
  | EmptyString => Ok (x, EmptyString)
  | String c r =>
      if is_digit_char c then
        if (2 ^ 63 / 10 <? x)%Z then Err tt
        else let x' := x * 10 + digit_val c in
             if (2 ^ 63 <? x')%Z then Err tt else leadingInt_acc x' r
      else Ok (x, s)
  end.

Definition leadingInt (s : string) : result unit (Z * string) := leadingInt_acc 0 s.

(** [atoi]: an optional sign, then digits up to the end of [s]; [int(q)]
    and [-x] wrap around at 64 bits ([q] can reach [2^63]). *)
Definition atoi (s : string) : result unit Z :=
  let '(neg, body) :=
    match s with
    | String c r =>
        if Ascii.eqb c "-" then (true, r)
        else if Ascii.eqb c "+" then (false, r) else (false, s)
    | EmptyString => (false, s)
    end in
  match leadingInt body with
  | Ok (q, EmptyString) =>
      let x := wrap_int64 q in Ok (if neg then wrap_int64 (- x) else x)
  | _ => Err tt
  end.

Definition no_byte (c : ascii) (s : string) : Prop :=
  forallb (fun x => negb (Ascii.eqb x c)) (list_ascii_of_string s) = true.

Definition safe_byte (c : ascii) : bool :=
  (32 <=? nat_of_ascii c)%nat && (nat_of_ascii c <? 127)%nat
  && negb (Ascii.eqb c dquote) && negb (Ascii.eqb c backslash).

(** ** Digits *)

Lemma digit_char_spec (d : Z) :
  0 <= d < 10 -> is_digit_char (digit_char d) = true /\ digit_val (digit_char d) = d.
Proof.
  intros Hd.
  assert (Hall : forallb (fun d => is_digit_char (digit_char d) && (Z.eqb (digit_val (digit_char d)) d))
                   (Z_range 0 10) = true) by (vm_compute; reflexivity).
  pose proof (Z_range_forallb _ _ _ Hall d ltac:(simpl; lia)) as H.
  apply andb_prop in H as [H1 H2]. split; [done|lia].
Qed.

Lemma digit_char_not_sign (d : Z) :
  0 <= d < 10 -> Ascii.eqb (digit_char d) "-" = false /\ Ascii.eqb (digit_char d) "+" = false.
Proof.
  intros Hd. destruct (digit_char_spec d Hd) as [Hdig _].
  unfold is_digit_char in Hdig.
  split; apply Ascii.eqb_neq; intros Heq; rewrite Heq in Hdig; discriminate.
Qed.

Lemma digits_fixed_length (w : nat) (u : Z) : String.length (digits_fixed w u) = w.
Proof. induction w; simpl; congruence. Qed.

Lemma mod_pow10_succ (u : Z) (w : nat) :
  u mod 10 ^ Z.of_nat (S w) = u mod 10 ^ Z.of_nat w + 10 ^ Z.of_nat w * ((u / 10 ^ Z.of_nat w) mod 10).
Proof.
  rewrite Nat2Z.inj_succ, Z.pow_succ_r, Z.mul_comm by lia.
  apply Z.rem_mul_r; [|lia]. pose proof (Z.pow_pos_nonneg 10 (Z.of_nat w)). lia.
Qed.

Lemma pow10_pos (w : nat) : 0 < 10 ^ Z.of_nat w.
Proof. apply Z.pow_pos_nonneg; lia. Qed.

#[export] Hint Resolve pow10_pos : trusty.

(** Reading the digits that [digits_fixed] prints gives back the value, as
    long as no overflow check can fire. *)
Lemma leadingInt_acc_digits_fixed (w : nat) (u acc : Z) (rest : string) :
  0 <= acc -> (acc + 1) * 10 ^ Z.of_nat w <= 2 ^ 62 ->
  leadingInt_acc acc (digits_fixed w u ++ rest) =
  leadingInt_acc (acc * 10 ^ Z.of_nat w + u mod 10 ^ Z.of_nat w) rest.
Proof.
  revert acc. induction w as [|w IH]; intros acc Hacc Hb.
  - simpl. rewrite Z.mod_1_r. f_equal. lia.
  - pose proof (pow10_pos w) as Hp.
    rewrite Nat2Z.inj_succ, Z.pow_succ_r in Hb by lia.
    simpl digits_fixed.
    remember ((u / 10 ^ Z.of_nat w) mod 10) as d eqn:Ed.
    assert (Hd : 0 <= d < 10) by (subst d; apply Z.mod_pos_bound; lia).
    destruct (digit_char_spec d Hd) as [Hdig Hval].
    rewrite str_app_cons. cbn [leadingInt_acc]. rewrite Hdig, Hval.
    assert (E1 : 2 ^ 63 / 10 = 922337203685477580) by reflexivity.
    assert (E2 : 2 ^ 63 = 9223372036854775808) by reflexivity.
    assert (E3 : 2 ^ 62 = 4611686018427387904) by reflexivity.
    rewrite E1, E2. rewrite E3 in Hb.
    assert (Hw1 : 1 <= 10 ^ Z.of_nat w) by lia.
    rewrite (proj2 (Z.ltb_ge _ _)) by nia.
    rewrite (proj2 (Z.ltb_ge _ _)) by nia.
    rewrite IH by (rewrite ?E3; nia). f_equal.
    rewrite mod_pow10_succ, Nat2Z.inj_succ, Z.pow_succ_r by lia. rewrite <- Ed. lia.
Qed.

Lemma atoi_digits_fixed (w : nat) (u : Z) :
  (1 <= w <= 18)%nat -> atoi (digits_fixed w u) = Ok (u mod 10 ^ Z.of_nat w).
Proof.
  intros Hw. destruct w as [|w']; [lia|].
  assert (Hd : 0 <= (u / 10 ^ Z.of_nat w') mod 10 < 10)
    by (apply Z.mod_pos_bound; lia).
  destruct (digit_char_not_sign _ Hd) as [Hm Hp].
  unfold atoi. set (s := digits_fixed (S w') u).
  assert (Hs : s = String (digit_char ((u / 10 ^ Z.of_nat w') mod 10)) (digits_fixed w' u))
    by reflexivity.
  rewrite Hs at 1. cbv beta iota. rewrite Hm, Hp. cbv beta iota.
  unfold leadingInt. rewrite <- (str_app_nil_r s). subst s.
  rewrite leadingInt_acc_digits_fixed.
  - cbn [leadingInt_acc]. rewrite Z.mul_0_l, Z.add_0_l. cbv zeta.
    rewrite wrap_int64_small; [done|].
    pose proof (Z.mod_pos_bound u (10 ^ Z.of_nat (S w')) ltac:(lia)).
    assert (10 ^ Z.of_nat (S w') <= 10 ^ 18) by (apply Z.pow_le_mono_r; lia).
    assert (E : 2 ^ 63 = 9223372036854775808) by reflexivity. rewrite E.
    assert (E' : 10 ^ 18 = 1000000000000000000) by reflexivity. lia.
  - lia.
  - assert (10 ^ Z.of_nat (S w') <= 10 ^ 18) by (apply Z.pow_le_mono_r; lia).
    assert (E : 2 ^ 62 = 4611686018427387904) by reflexivity. rewrite E.
    assert (E' : 10 ^ 18 = 1000000000000000000) by reflexivity. lia.
Qed.

Lemma ndigits_fuel_le (f w : nat) (u : Z) :
  (1 <= w)%nat -> 0 <= u < 10 ^ Z.of_nat w -> (ndigits_fuel f u <= w)%nat.
Proof.
  revert w u. induction f as [|f IH]; intros w u Hw Hu; simpl; [lia|].
  destruct (Z.ltb_spec u 10); [lia|].
  destruct w as [|w']; [lia|].
  destruct w' as [|w'']; [simpl in Hu; lia|].
  enough (ndigits_fuel f (u / 10) <= S w'')%nat by lia.
  apply IH; [lia|]. split; [apply Z.div_pos; lia|].
  apply Z.div_lt_upper_bound; [lia|].
  rewrite <- Z.pow_succ_r, <- Nat2Z.inj_succ by lia. exact (proj2 Hu).
Qed.

(** [appendInt] of a value that fits the width is its zero-padded digits. *)
Lemma appendInt_fits (x : Z) (w : nat) :
  (1 <= w)%nat -> 0 <= x < 10 ^ Z.of_nat w -> appendInt x w = digits_fixed w x.
Proof.
  intros Hw Hx. unfold appendInt, ndigits.
  rewrite (proj2 (Z.ltb_ge _ _)) by lia. rewrite Z.abs_eq by lia.
  rewrite Nat.max_l; [done|]. by apply ndigits_fuel_le.
Qed.

(** ** Trim of a quoted string *)


Lemma in_cutset_single (x c : ascii) : in_cutset x (String c EmptyString) = Ascii.eqb x c.
Proof. unfold in_cutset. simpl. by rewrite orb_false_r. Qed.

Lemma trim_right_no_byte (c : ascii) (s : string) :
  no_byte c s -> trim_right s (String c EmptyString) = s.
Proof.
  unfold no_byte. induction s as [|x r IH]; simpl; [done|].
  intros [Hx Hr]%andb_prop. rewrite (IH Hr), in_cutset_single.
  apply negb_true_iff in Hx. rewrite Hx. by destruct r.
Qed.

Lemma trim_right_snoc (c : ascii) (s : string) :
  no_byte c s -> trim_right (s ++ String c EmptyString) (String c EmptyString) = s.
Proof.
  unfold no_byte. induction s as [|x r IH]; intros H.
  - simpl. by rewrite in_cutset_single, Ascii.eqb_refl.
  - simpl in H. apply andb_prop in H as [Hx Hr].
    rewrite str_app_cons. simpl. rewrite (IH Hr), in_cutset_single.
    apply negb_true_iff in Hx. rewrite Hx. by destruct r.
Qed.

Lemma trim_left_no_byte (c : ascii) (s : string) :
  no_byte c s -> trim_left s (String c EmptyString) = s.
Proof.
  unfold no_byte. destruct s as [|x r]; simpl; [done|].
  intros [Hx _]%andb_prop. rewrite in_cutset_single.
  apply negb_true_iff in Hx. by rewrite Hx.
Qed.

Lemma trim_left_cons_in (x : ascii) (t k : string) :
  in_cutset x k = true -> trim_left (String x t) k = trim_left t k.
Proof. intros H. cbn [trim_left]. by rewrite H. Qed.

(** Trimming the quote byte off a quoted string with no quote inside gives
    the string back. *)
Lemma Trim_quoted (c : ascii) (s : string) :
  no_byte c s ->
  Trim (String c (s ++ String c EmptyString)) (String c EmptyString) = s.
Proof.
  intros H. unfold Trim. cbn [trim_right].
  rewrite trim_right_snoc by done. rewrite in_cutset_single, Ascii.eqb_refl.
  destruct s as [|x r]; [done|].
  rewrite trim_left_cons_in by (by rewrite in_cutset_single, Ascii.eqb_refl).
  by apply trim_left_no_byte.
Qed.

(** ** Contains with a one-byte needle *)

Lemma Contains_byte (s : string) (c : ascii) :
  Contains s (String c EmptyString) = existsb (Ascii.eqb c) (list_ascii_of_string s).
Proof.
  induction s as [|x r IH]; [done|]. cbn [Contains]. rewrite IH. simpl.
  destruct (ascii_dec c x) as [->|Hne].
  - rewrite Ascii.eqb_refl. by destruct r.
  - rewrite (proj2 (Ascii.eqb_neq c x) Hne). by destruct r.
Qed.

(** ** Quote of printable text *)


Lemma quote_body_safe (s : string) :
  forallb safe_byte (list_ascii_of_string s) = true -> quote_body s = s.
Proof.
  induction s as [|x r IH]; simpl; [done|].
  intros [Hx Hr]%andb_prop. rewrite (IH Hr).
  unfold safe_byte in Hx. apply andb_prop in Hx as [Hx Hb].
  apply andb_prop in Hx as [Hx Hq]. apply negb_true_iff in Hq, Hb.
  unfold escape_byte. rewrite Hq, Hb, Hx. done.
Qed.

(** [strconv.Quote] of printable text without quote or backslash only adds
    the surrounding quotes. *)
Lemma Quote_safe (s : string) :
  forallb safe_byte (list_ascii_of_string s) = true ->
  Quote s = String dquote (s ++ String dquote EmptyString).
Proof. intros H. unfold Quote. by rewrite quote_body_safe. Qed.

(** ** Byte predicates over printed digits *)

Lemma forallb_str_app (P : ascii -> bool) (a b : string) :
  forallb P (list_ascii_of_string (a ++ b)) =
  forallb P (list_ascii_of_string a) && forallb P (list_ascii_of_string b).
Proof.
  induction a as [|c a IH]; [done|]. rewrite str_app_cons. simpl. rewrite IH.
  by rewrite andb_assoc.
Qed.

Lemma forallb_digits_fixed (P : ascii -> bool) (w : nat) (u : Z) :
  forallb (fun d => P (digit_char d)) (Z_range 0 10) = true ->
  forallb P (list_ascii_of_string (digits_fixed w u)) = true.
Proof.
  intros Hall. induction w as [|w IH]; [done|]. simpl. rewrite IH, andb_true_r.
  apply (Z_range_forallb _ _ _ Hall). simpl. apply Z.mod_pos_bound. lia.
Qed.

Lemma Contains_byte_absent (s : string) (c : ascii) :
  forallb (fun x => negb (Ascii.eqb c x)) (list_ascii_of_string s) = true ->
  Contains s (String c EmptyString) = false.
Proof.
  rewrite Contains_byte. induction (list_ascii_of_string s) as [|x l IH]; [done|].
  simpl. intros [Hx Hl]%andb_prop. apply negb_true_iff in Hx. rewrite Hx. by apply IH.
Qed.

Lemma Contains_app_r (l r sub : string) :
  Contains r sub = true -> Contains (l ++ r) sub = true.
Proof.
  intros H. induction l as [|c l IH]; [done|].
  rewrite str_app_cons. cbn [Contains]. rewrite IH. apply orb_true_r.
Qed.

Lemma get_app_lt (i : nat) (s r : string) :
  (i < String.length s)%nat -> String.get i (s ++ r) = String.get i s.
Proof.
  revert i. induction s as [|c s IH]; intros i Hi; [simpl in Hi; lia|].
  rewrite str_app_cons. destruct i; [done|]. simpl. apply IH. simpl in Hi. lia.
Qed.

Lemma get_app_ge (k : nat) (s r : string) :
  String.get (String.length s + k) (s ++ r) = String.get k r.
Proof. induction s as [|c s IH]; [done|]. rewrite str_app_cons. exact IH. Qed.

Lemma isDigit_digits_fixed (w i : nat) (u : Z) (r : string) :
  (i < w)%nat -> isDigit (digits_fixed w u ++ r) i = true.
Proof.
  intros Hi. unfold isDigit. rewrite get_app_lt by (rewrite digits_fixed_length; lia).
  revert i Hi. induction w as [|w IH]; intros i Hi; [lia|].
  destruct i as [|i]; simpl.
  - apply digit_char_spec, Z.mod_pos_bound. lia.
  - apply IH. lia.
Qed.

Lemma isDigit_after_digits (w : nat) (u : Z) (c : ascii) (r : string) :
  is_digit_char c = false -> isDigit (digits_fixed w u ++ String c r) w = false.
Proof.
  intros Hc. unfold isDigit.
  pose proof (get_app_ge 0 (digits_fixed w u) (String c r)) as G.
  rewrite digits_fixed_length, Nat.add_0_r in G. rewrite G. exact Hc.
Qed.

(** ** Bounds of the decimal readers *)

Lemma digit_val_bound (c : ascii) : is_digit_char c = true -> 0 <= digit_val c < 10.
Proof.
  unfold is_digit_char, digit_val. intros [H1 H2]%andb_prop.
  apply Nat.leb_le in H1, H2. lia.
Qed.

Lemma is_digit_not_sign (c : ascii) :
  is_digit_char c = true -> Ascii.eqb c "-" = false /\ Ascii.eqb c "+" = false.
Proof.
  intros Hc. split; apply Ascii.eqb_neq; intros ->; discriminate.
Qed.

Lemma leadingInt_acc_bound (s : string) (acc q : Z) (rem : string) :
  0 <= acc -> leadingInt_acc acc s = Ok (q, rem) ->
  acc <= q < (acc + 1) * 10 ^ Z.of_nat (String.length s).
Proof.
  revert acc. induction s as [|c r IH]; intros acc Hacc; cbn [leadingInt_acc].
  - intros H. invc H. simpl. lia.
  - destruct (is_digit_char c) eqn:Hc; [|intros H; invc H; simpl String.length; pose proof (pow10_pos (S (String.length r))); nia].
    destruct (_ <? acc)%Z; [discriminate|].
    destruct (_ <? _)%Z; [discriminate|].
    pose proof (digit_val_bound c Hc) as Hd. intros H.
    apply IH in H; [|lia].
    cbn [String.length]. rewrite Nat2Z.inj_succ, Z.pow_succ_r by lia.
    pose proof (pow10_pos (String.length r)). nia.
Qed.

Lemma atoi_bound (s : string) (x : Z) :
  (String.length s <= 18)%nat -> atoi s = Ok x ->
  Z.abs x < 10 ^ Z.of_nat (String.length s) /\
  (forall c r, s = String c r -> is_digit_char c = true -> 0 <= x).
Proof.
  intros Hlen. unfold atoi.
  assert (Hsmall : forall q, 0 <= q < 10 ^ Z.of_nat (String.length s) -> - 2 ^ 63 <= q < 2 ^ 63).
  { intros q Hq. assert (10 ^ Z.of_nat (String.length s) <= 10 ^ 18) by (apply Z.pow_le_mono_r; lia).
    assert (E : 2 ^ 63 = 9223372036854775808) by reflexivity. rewrite E.
    assert (E' : 10 ^ 18 = 1000000000000000000) by reflexivity. lia. }
  assert (Hq : forall body q, (String.length body <= String.length s)%nat ->
                 leadingInt body = Ok (q, EmptyString) -> 0 <= q < 10 ^ Z.of_nat (String.length s)).
  { intros body q Hb H. apply leadingInt_acc_bound in H; [|lia].
    assert (10 ^ Z.of_nat (String.length body) <= 10 ^ Z.of_nat (String.length s))
      by (apply Z.pow_le_mono_r; lia). lia. }
  destruct s as [|c r].
  - cbv beta iota. destruct (leadingInt "") as [[q [|? ?]]|] eqn:E; try discriminate.
    intros H. invc H. apply Hq in E; [|done]. rewrite wrap_int64_small by (apply Hsmall; lia).
    split; [lia|done].
  - destruct (Ascii.eqb c "-") eqn:Em; [|destruct (Ascii.eqb c "+") eqn:Ep]; cbv beta iota;
      destruct (leadingInt _) as [[q [|? ?]]|] eqn:E; try discriminate; intros H; invc H;
      (apply Hq in E; [|simpl; lia]);
      rewrite (wrap_int64_small q) by (apply Hsmall; lia);
      try rewrite (wrap_int64_small (- q)) by (pose proof (Hsmall q E); lia).
    + split; [lia|]. intros c' r' Heq Hd. invc Heq. by rewrite (proj1 (is_digit_not_sign _ Hd)) in Em.
    + split; [lia|]. intros c' r' Heq Hd. invc Heq. by rewrite (proj2 (is_digit_not_sign _ Hd)) in Ep.
    + split; [lia|]. intros. lia.
Qed.

End GoStrings.
