(* ===== verification/Calendar.v ===== *)
(** * Calendar arithmetic of Go's package time

    The proleptic Gregorian calendar as package [time] computes it:
    [isLeap], the [daysBefore] table, [daysIn], the day count of [Date]
    ([days_of_civil]) and its inverse [absDate] ([year_yday] with the
    400/100/4/1-year cycle decomposition, then [month_day]). Days are
    counted from 1 January of year 1, the zero [time.Time]; Go counts from
    an earlier epoch aligned on the same 400-year cycle, so the functions
    agree. Integers are unbounded: Go's 64-bit overflow, reached only
    hundreds of billions of years away, is not modelled.

    The two round trips proved here, [year_yday_days] and
    [month_day_yday_of], are what makes [Time.Format] and [time.Parse]
    inverse to each other (GoTime.v). *)
From S2P Require Import Prelude.

Module Calendar.

(** [func isLeap(year int) bool] *)
Definition isLeap (year : Z) : bool :=
  (year mod 4 =? 0) && (negb (year mod 100 =? 0) || (year mod 400 =? 0)).

Definition year_len (year : Z) : Z := if isLeap year then 366 else 365.

(** [daysBefore[m]]: days in the months before month [m + 1], for
    [0 <= m <= 12]. *)
Definition daysBefore (m : Z) : Z :=
  nth (Z.to_nat m) [0; 31; 59; 90; 120; 151; 181; 212; 243; 273; 304; 334; 365] 365.

(** [func daysIn(m Month, year int) int] *)
Definition daysIn (m year : Z) : Z :=
  if (m =? 2) && isLeap year then 29 else daysBefore m - daysBefore (m - 1).

(** [daysIn] with the leap-year test already made. *)
Definition days_in_month (leap : bool) (m : Z) : Z :=
  if (m =? 2) && leap then 29 else daysBefore m - daysBefore (m - 1).

(** Days from 1 January of year 1 to 1 January of [year]. *)
Definition days_before_year (year : Z) : Z :=
  let y := year - 1 in 365 * y + y / 4 - y / 100 + y / 400.

(** Day of the year (from 0) of a month and day, as [Date] adds it. *)
Definition yday_of (leap : bool) (month day : Z) : Z :=
  daysBefore (month - 1) + (if leap && (3 <=? month) then 1 else 0) + day - 1.

(** The day count of [Date(year, month, day, ...)]. *)
Definition days_of_civil (year month day : Z) : Z :=
  days_before_year year + yday_of (isLeap year) month day.

(** First half of [absDate]: the year and the day of the year, by
    400-, 100-, 4- and 1-year cycles; [n - n / 4] is Go's [n -= n >> 2],
    which cuts off the last day of a 400-year (4-year) cycle. *)
Definition year_yday (d : Z) : Z * Z :=
  let n400 := d / 146097 in
  let d1 := d - 146097 * n400 in
  let n100 := d1 / 36524 in
  let n100 := n100 - n100 / 4 in
  let d2 := d1 - 36524 * n100 in
  let n4 := d2 / 1461 in
  let d3 := d2 - 1461 * n4 in
  let n1 := d3 / 365 in
  let n1 := n1 - n1 / 4 in
  let d4 := d3 - 365 * n1 in
  (1 + 400 * n400 + 100 * n100 + 4 * n4 + n1, d4).

(** Second half of [absDate]: month and day of a day of the year. Leap
    day is handled first; after it, the day is shifted down by one. The
    month is estimated assuming 31-day months and corrected by one. *)
Definition month_day (leap : bool) (yday : Z) : Z * Z :=
  if leap && (yday =? 31 + 29 - 1) then (2, 29)
  else
    let day := if leap && (31 + 29 - 1 <? yday) then yday - 1 else yday in
    let month := day / 31 in
    let end_ := daysBefore (month + 1) in
    if end_ <=? day then (month + 2, day - end_ + 1)
    else (month + 1, day - daysBefore month + 1).

(** [absDate]: year, month and day of a day count. *)
Definition civil_of_days (d : Z) : Z * Z * Z :=
  let '(year, yday) := year_yday d in
  let '(month, day) := month_day (isLeap year) yday in
  (year, month, day).

Definition valid_date (year month day : Z) : Prop :=
  1 <= month <= 12 /\ 1 <= day <= daysIn month year.

Definition month_day_ok (leap : bool) (yday : Z) : bool :=
  let '(m, d) := month_day leap yday in
  (1 <=? m) && (m <=? 12) && (1 <=? d) && (d <=? days_in_month leap m)
  && (yday_of leap m d =? yday).

Definition yday_of_ok (leap : bool) (m d : Z) : bool :=
  negb (d <=? days_in_month leap m) ||
  ((0 <=? yday_of leap m d) && (yday_of leap m d <? if leap then 366 else 365)
   && bool_decide (month_day leap (yday_of leap m d) = (m, d))).

(** ** Round trips *)

Lemma days_before_year_decomp (a b c e : Z) :
  0 <= b < 4 -> 0 <= c < 25 -> 0 <= e < 4 ->
  days_before_year (1 + 400 * a + 100 * b + 4 * c + e) = 146097 * a + 36524 * b + 1461 * c + 365 * e.
Proof.
  intros Hb Hc He. unfold days_before_year.
  replace (1 + 400 * a + 100 * b + 4 * c + e - 1) with (400 * a + 100 * b + 4 * c + e) by lia.
  rewrite <- (Z.div_unique _ 4 (100 * a + 25 * b + c) e) by lia.
  rewrite <- (Z.div_unique _ 100 (4 * a + b) (4 * c + e)) by lia.
  rewrite <- (Z.div_unique _ 400 a (100 * b + 4 * c + e)) by lia.
  lia.
Qed.

Lemma isLeap_decomp (a b c e : Z) :
  0 <= b < 4 -> 0 <= c < 25 -> 0 <= e < 4 ->
  isLeap (1 + 400 * a + 100 * b + 4 * c + e) = (e =? 3) && (negb (c =? 24) || (b =? 3)).
Proof.
  intros Hb Hc He. unfold isLeap.
  destruct (Z.eqb_spec e 3), (Z.eqb_spec c 24), (Z.eqb_spec b 3); simpl;
  repeat match goal with |- context [(?x mod ?k =? 0)] => destruct (Z.eqb_spec (x mod k) 0) end;
  simpl; try reflexivity; exfalso; Z.div_mod_to_equations; lia.
Qed.

Lemma year_yday_spec (d : Z) :
  d = days_before_year (year_yday d).1 + (year_yday d).2 /\
  0 <= (year_yday d).2 < year_len (year_yday d).1.
Proof.
  unfold year_yday. cbv zeta.
  remember (d / 146097) as a eqn:Ea.
  remember ((d - 146097 * a) / 36524) as b0 eqn:Eb0.
  remember (b0 / 4) as b1 eqn:Eb1.
  remember ((d - 146097 * a - 36524 * (b0 - b1)) / 1461) as c eqn:Ec.
  remember ((d - 146097 * a - 36524 * (b0 - b1) - 1461 * c) / 365) as e0 eqn:Ee0.
  remember (e0 / 4) as e1 eqn:Ee1.
  cbn [fst snd].
  assert (Hb : 0 <= b0 - b1 < 4 /\ 0 <= c < 25 /\ 0 <= e0 - e1 < 4)
    by (subst; Z.div_mod_to_equations; lia).
  rewrite days_before_year_decomp by lia. unfold year_len.
  rewrite isLeap_decomp by lia.
  destruct (Z.eqb_spec (e0 - e1) 3), (Z.eqb_spec c 24), (Z.eqb_spec (b0 - b1) 3); simpl;
  subst; Z.div_mod_to_equations; lia.
Qed.

Lemma days_before_year_succ (y : Z) :
  days_before_year (y + 1) = days_before_year y + year_len y.
Proof.
  unfold days_before_year, year_len, isLeap.
  replace (y + 1 - 1) with y by lia.
  repeat match goal with |- context [(?x mod ?k =? 0)] => destruct (Z.eqb_spec (x mod k) 0) end;
  simpl; Z.div_mod_to_equations; lia.
Qed.

Lemma year_len_bounds (y : Z) : 365 <= year_len y <= 366.
Proof. unfold year_len. destruct (isLeap y); lia. Qed.

Lemma days_before_year_lt (y1 y2 : Z) :
  y1 < y2 -> days_before_year y1 + year_len y1 <= days_before_year y2.
Proof.
  intros Hlt. rewrite <- days_before_year_succ.
  replace y2 with (y1 + 1 + Z.of_nat (Z.to_nat (y2 - y1 - 1))) by lia.
  induction (Z.to_nat (y2 - y1 - 1)) as [|n IH]; [rewrite Z.add_0_r; lia|].
  rewrite Nat2Z.inj_succ, <- Z.add_1_r, Z.add_assoc, (days_before_year_succ (y1 + 1 + Z.of_nat n)).
  pose proof (year_len_bounds (y1 + 1 + Z.of_nat n)). lia.
Qed.

Lemma days_before_year_inj (y1 r1 y2 r2 : Z) :
  0 <= r1 < year_len y1 -> 0 <= r2 < year_len y2 ->
  days_before_year y1 + r1 = days_before_year y2 + r2 -> y1 = y2 /\ r1 = r2.
Proof.
  intros H1 H2 Heq.
  destruct (Z.lt_trichotomy y1 y2) as [Hlt|[->|Hgt]].
  - pose proof (days_before_year_lt _ _ Hlt). lia.
  - lia.
  - pose proof (days_before_year_lt _ _ Hgt). lia.
Qed.

Lemma year_yday_days (y r : Z) :
  0 <= r < year_len y -> year_yday (days_before_year y + r) = (y, r).
Proof.
  intros Hr. destruct (year_yday_spec (days_before_year y + r)) as [Heq Hr'].
  destruct (days_before_year_inj y r _ _ Hr Hr' Heq) as [Hy Hr2].
  destruct (year_yday _). simpl in *. by subst.
Qed.




Lemma month_day_spec (leap : bool) (yday : Z) :
  0 <= yday < (if leap then 366 else 365) ->
  1 <= (month_day leap yday).1 <= 12 /\
  1 <= (month_day leap yday).2 <= days_in_month leap (month_day leap yday).1 /\
  yday_of leap (month_day leap yday).1 (month_day leap yday).2 = yday.
Proof.
  intros Hy.
  assert (Hok : month_day_ok leap yday = true).
  { destruct leap.
    - apply (Z_range_forallb _ 0 366); [vm_compute; reflexivity|simpl; lia].
    - apply (Z_range_forallb _ 0 365); [vm_compute; reflexivity|simpl; lia]. }
  unfold month_day_ok in Hok. destruct (month_day leap yday) as [m d]. simpl.
  repeat (apply andb_prop in Hok as [Hok ?]). lia.
Qed.

Lemma month_day_yday_of (leap : bool) (m d : Z) :
  1 <= m <= 12 -> 1 <= d <= days_in_month leap m ->
  month_day leap (yday_of leap m d) = (m, d) /\
  0 <= yday_of leap m d < (if leap then 366 else 365).
Proof.
  intros Hm Hd.
  assert (Hdm : d <= 31).
  { assert (Hall : forallb (fun m => days_in_month leap m <=? 31) (Z_range 1 12) = true)
      by (destruct leap; vm_compute; reflexivity).
    pose proof (Z_range_forallb _ _ _ Hall m ltac:(simpl; lia)) as H. cbv beta in H. apply Z.leb_le in H. lia. }
  assert (Hok : yday_of_ok leap m d = true).
  { assert (Hall : forallb (fun m => forallb (yday_of_ok leap m) (Z_range 1 31)) (Z_range 1 12) = true)
      by (destruct leap; vm_compute; reflexivity).
    pose proof (Z_range_forallb _ _ _ Hall m ltac:(simpl; lia)) as Hm'.
    apply (Z_range_forallb _ _ _ Hm' d). simpl. lia. }
  unfold yday_of_ok in Hok. apply orb_prop in Hok as [Hno|Hyes]; [lia|].
  apply andb_prop in Hyes as [Hyes Hmd]. apply andb_prop in Hyes as [H0 H1].
  apply bool_decide_eq_true in Hmd. split; [done|lia].
Qed.

Lemma daysIn_month (m y : Z) : daysIn m y = days_in_month (isLeap y) m.
Proof. reflexivity. Qed.

Lemma daysIn_bounds (m y : Z) : 1 <= m <= 12 -> 28 <= daysIn m y <= 31.
Proof.
  intros Hm. rewrite daysIn_month.
  assert (Hall : forall leap, forallb (fun m => (28 <=? days_in_month leap m) && (days_in_month leap m <=? 31))
                                (Z_range 1 12) = true) by (intros []; vm_compute; reflexivity).
  pose proof (Z_range_forallb _ _ _ (Hall (isLeap y)) m ltac:(simpl; lia)) as H.
  cbv beta in H. apply andb_prop in H as [H1 H2]. apply Z.leb_le in H1, H2. lia.
Qed.

(** Decoding the day count of a valid date gives the date back. *)
Lemma civil_of_days_of_civil (y m d : Z) :
  valid_date y m d -> civil_of_days (days_of_civil y m d) = (y, m, d).
Proof.
  intros [Hm Hd]. rewrite daysIn_month in Hd.
  destruct (month_day_yday_of (isLeap y) m d Hm Hd) as [Hmd Hr].
  unfold civil_of_days, days_of_civil.
  rewrite year_yday_days by (unfold year_len; exact Hr).
  by rewrite Hmd.
Qed.

(** Every day count is the day count of the valid date it decodes to. *)
Lemma days_of_civil_of_days (n : Z) :
  let '(y, m, d) := civil_of_days n in valid_date y m d /\ days_of_civil y m d = n.
Proof.
  unfold civil_of_days. destruct (year_yday_spec n) as [Heq Hr].
  destruct (year_yday n) as [y r]. simpl in *.
  destruct (month_day_spec (isLeap y) r Hr) as (Hm & Hd & Hy).
  destruct (month_day (isLeap y) r) as [m d]. simpl in *.
  split; [split; [done|by rewrite daysIn_month]|].
  unfold days_of_civil. lia.
Qed.

End Calendar.
