(* ===== verification/GoTime.v ===== *)
(** * Go's time.Time, Date, Format and Parse

    A model of the parts of Go's package [time] that the timestamp codec
    calls, written from the package's documented behaviour:
    - [Time]: an instant, as seconds since 1 January of year 1 UTC plus
      nanoseconds in [0, 10^9), and a [Location] (UTC or a fixed zone); the
      zero [Time] is year 1, UTC;
    - [Date]: normalisation of out-of-range fields ([norm]) and conversion
      of civil fields in a location to an instant;
    - layouts as the sequence of (literal prefix, layout element) pairs that
      Go's [nextStdChunk] splits them into, for the elements the codec's two
      layouts use: ["2006"], ["01"], ["02"], ["15"], ["04"], ["05"],
      [".000000"] and ["Z07:00"];
    - [Format]: [AppendFormat] for those elements;
    - [parse]: Go's general [parse] loop for those elements, with its
      accepted variations (a one-digit hour, a comma before the fraction,
      a signed fraction, any number of fraction digits after ["05"] when the
      layout has none), its range checks and its [ParseError]s;
    - the termination of the two loops that run on fuel: [skip]
      ([skip_fuel_stable]) and the fraction-digit scan
      ([digits_from_terminates]).

    Not modelled: the [Local] location (an offset that matches the local
    zone is given a fixed zone instead; only the zone's name differs), and
    the RFC 3339 fast path of [time.Parse], which accepts a subset of what
    the general loop accepts, with the same results. *)
From S2P Require Import Prelude GoStrings Calendar.

Open Scope string_scope.
Open Scope Z_scope.

Module GoTime.
Import GoStrings Calendar.

(** ** Instants *)

Inductive Location :=
| UTC
| FixedZone (name : string) (offset : Z).

Definition zone_offset (l : Location) : Z :=
  match l with UTC => 0 | FixedZone _ o => o end.

Record Time := mkTime {
  t_sec : Z;        (** seconds since 1 January of year 1, 00:00:00 UTC *)
  t_nsec : Z;       (** nanoseconds within the second *)
  t_loc : Location
}.

(** [time.Time{}] *)
Definition Time_zero : Time := mkTime 0 0 UTC.

(** [func norm(hi, lo, base int) (nhi, nlo int)] *)
Definition norm (hi lo base : Z) : Z * Z :=
  let '(hi, lo) :=
    if lo <? 0 then let n := (- lo - 1) / base + 1 in (hi - n, lo + n * base)
    else (hi, lo) in
  if base <=? lo then let n := lo / base in (hi + n, lo - n * base) else (hi, lo).

(** [func Date(year int, month Month, day, hour, min, sec, nsec int, loc *Location) Time] *)
Definition Date (year month day hour min sec nsec : Z) (loc : Location) : Time :=
  let '(year, m) := norm year (month - 1) 12 in
  let month := m + 1 in
  let '(sec, nsec) := norm sec nsec 1000000000 in
  let '(min, sec) := norm min sec 60 in
  let '(hour, min) := norm hour min 60 in
  let '(day, hour) := norm day hour 24 in
  let d := days_of_civil year month day in
  let abs := d * 86400 + (hour * 3600 + min * 60 + sec) in
  mkTime (abs - zone_offset loc) nsec loc.

(** Seconds since year 1 in the time's own zone ([locabs]). *)
Definition abs_local (t : Time) : Z := t_sec t + zone_offset (t_loc t).

(** [absClock]: hour, minute and second of the day. *)
Definition clock (abs : Z) : Z * Z * Z :=
  let sec := abs mod 86400 in
  let hour := sec / 3600 in
  let sec := sec - hour * 3600 in
  let min := sec / 60 in
  (hour, min, sec - min * 60).

(** ** Layouts *)

Inductive std :=
| stdLongYear                          (** "2006" *)
| stdZeroMonth                         (** "01" *)
| stdZeroDay                           (** "02" *)
| stdHour                              (** "15" *)
| stdZeroMinute                        (** "04" *)
| stdZeroSecond                        (** "05" *)
| stdFracSecond0 (sep : ascii) (n : nat)   (** ".000", n zeros *)
| stdISO8601ColonTZ.                   (** "Z07:00" *)

Record layout := mkLayout {
  chunks : list (string * std);   (** literal prefix, then an element *)
  trailer : string                (** the literal text after the last element *)
}.

Definition std_string (s : std) : string :=
  match s with
  | stdLongYear => "2006"
  | stdZeroMonth => "01"
  | stdZeroDay => "02"
  | stdHour => "15"
  | stdZeroMinute => "04"
  | stdZeroSecond => "05"
  | stdFracSecond0 sep n => String sep (String.concat "" (repeat "0" n))
  | stdISO8601ColonTZ => "Z07:00"
  end.

Definition layout_string (l : layout) : string :=
  foldr (fun '(p, s) acc => p ++ std_string s ++ acc) (trailer l) (chunks l).

(** [time.RFC3339 = "2006-01-02T15:04:05Z07:00"] *)
Definition RFC3339 : layout :=
  mkLayout [("", stdLongYear); ("-", stdZeroMonth); ("-", stdZeroDay);
            ("T", stdHour); (":", stdZeroMinute); (":", stdZeroSecond);
            ("", stdISO8601ColonTZ)] "".

(** ** Format *)

(** [appendNano] for [stdFracSecond0]: the separator and the first [n] of
    the nine zero-padded nanosecond digits (truncated, not rounded). *)
Definition formatNano (nanosec : Z) (sep : ascii) (n : nat) : string :=
  String sep (str_take n (appendInt nanosec 9)).

Definition format_std (year month day hour min sec nsec offset : Z) (s : std) : string :=
  match s with
  | stdLongYear => appendInt year 4
  | stdZeroMonth => appendInt month 2
  | stdZeroDay => appendInt day 2
  | stdHour => appendInt hour 2
  | stdZeroMinute => appendInt min 2
  | stdZeroSecond => appendInt sec 2
  | stdFracSecond0 sep n => formatNano nsec sep n
  | stdISO8601ColonTZ =>
      if offset =? 0 then "Z"
      else
        let zone := Z.quot offset 60 in
        (if zone <? 0 then "-" else "+") ++ appendInt (Z.quot (Z.abs zone) 60) 2
        ++ ":" ++ appendInt (Z.rem (Z.abs zone) 60) 2
  end.

(** [func (t Time) Format(layout string) string] *)
Definition Format (t : Time) (l : layout) : string :=
  let abs := abs_local t in
  let '(year, month, day) := civil_of_days (abs / 86400) in
  let '(hour, min, sec) := clock abs in
  foldr (fun '(p, s) acc =>
           p ++ format_std year month day hour min sec (t_nsec t) (zone_offset (t_loc t)) s ++ acc)
        (trailer l) (chunks l).

(** ** Parse *)

(** [time.ParseError] *)
Record ParseError := mkParseError {
  pe_Layout : string;
  pe_Value : string;
  pe_LayoutElem : string;
  pe_ValueElem : string;
  pe_Message : string
}.

(** The [time] package's [quote], used in error messages: bytes below
    0x20 or from 0x80 become [\xhh]; quote and backslash are escaped. *)
Definition time_quote_byte (c : ascii) : string :=
  let n := nat_of_ascii c in
  if (n <? 32)%nat || (128 <=? n)%nat then hex_escape c
  else if Ascii.eqb c dquote || Ascii.eqb c backslash then String backslash (String c EmptyString)
  else String c EmptyString.

Fixpoint time_quote_body (s : string) : string :=
  match s with
  | EmptyString => EmptyString
  | String c r => time_quote_byte c ++ time_quote_body r
  end.

Definition time_quote (s : string) : string :=
  String dquote (time_quote_body s ++ String dquote EmptyString).

Fixpoint cutspace (s : string) : string :=
  match s with
  | String " " r => cutspace r
  | _ => s
  end.

(** [func skip(value, prefix string) (string, error)]: consumes the literal
    [prefix]; a space in it matches any run of spaces. [fuel] bounds the
    loop by the length of [prefix]. *)
Fixpoint skip_fuel (fuel : nat) (value prefix : string) : result string string :=
  match fuel with
  | O => Ok value
  | S f =>
      match prefix with
      | EmptyString => Ok value
      | String p prest =>
          if Ascii.eqb p " " then
            match value with
            | String v _ => if Ascii.eqb v " " then skip_fuel f (cutspace value) (cutspace prefix)
                            else Err value
            | EmptyString => skip_fuel f (cutspace value) (cutspace prefix)
            end
          else
            match value with
            | String v vrest => if Ascii.eqb v p then skip_fuel f vrest prest else Err value
            | EmptyString => Err value
            end
      end
  end.

Definition skip (value prefix : string) : result string string :=
  skip_fuel (S (String.length prefix)) value prefix.

(** [func getnum(s string, fixed bool) (int, string, error)] *)
Definition getnum (s : string) (fixed : bool) : result unit (Z * string) :=
  match s with
  | String c0 r =>
      if is_digit_char c0 then
        match r with
        | String c1 r' =>
            if is_digit_char c1 then Ok (digit_val c0 * 10 + digit_val c1, r')
            else if fixed then Err tt else Ok (digit_val c0, r)
        | EmptyString => if fixed then Err tt else Ok (digit_val c0, r)
        end
      else Err tt
  | EmptyString => Err tt
  end.

Definition commaOrPeriod (c : ascii) : bool := Ascii.eqb c "." || Ascii.eqb c ",".

Inductive nano_result := NanoOk (ns : Z) | NanoRange | NanoBad.

(** [func parseNanoseconds(value string, nbytes int) (ns int, rangeErrString string, err error)] *)
Definition parseNanoseconds (value : string) (nbytes : nat) : nano_result :=
  match value with
  | String c _ =>
      if negb (commaOrPeriod c) then NanoBad
      else
        let value := if (10 <? nbytes)%nat then str_take 10 value else value in
        let nbytes := Nat.min nbytes 10 in
        match atoi (str_take (nbytes - 1) (str_drop 1 value)) with
        | Err _ => NanoBad
        | Ok ns => if ns <? 0 then NanoRange else NanoOk (ns * 10 ^ Z.of_nat (10 - nbytes))
        end
  | EmptyString => NanoBad
  end.

(** The number of leading digits of [s] from index [i] on, plus [i]. *)
Fixpoint digits_from (s : string) (i fuel : nat) : nat :=
  match fuel with
  | O => i
  | S f => if isDigit s i then digits_from s (S i) f else i
  end.

(** The variables of Go's [parse] loop. *)
Record pstate := mkPstate {
  p_year : Z; p_month : Z; p_day : Z; p_hour : Z; p_min : Z; p_sec : Z; p_nsec : Z;
  p_z : option Location; p_zoneOffset : Z
}.

(** [year int; month int = -1; day int = -1; ...; zoneOffset int = -1] *)
Definition pstate0 : pstate := mkPstate 0 (-1) (-1) 0 0 0 0 None (-1).

Definition set_year (st : pstate) (v : Z) : pstate :=
  mkPstate v (p_month st) (p_day st) (p_hour st) (p_min st) (p_sec st) (p_nsec st) (p_z st) (p_zoneOffset st).
Definition set_month (st : pstate) (v : Z) : pstate :=
  mkPstate (p_year st) v (p_day st) (p_hour st) (p_min st) (p_sec st) (p_nsec st) (p_z st) (p_zoneOffset st).
Definition set_day (st : pstate) (v : Z) : pstate :=
  mkPstate (p_year st) (p_month st) v (p_hour st) (p_min st) (p_sec st) (p_nsec st) (p_z st) (p_zoneOffset st).
Definition set_hour (st : pstate) (v : Z) : pstate :=
  mkPstate (p_year st) (p_month st) (p_day st) v (p_min st) (p_sec st) (p_nsec st) (p_z st) (p_zoneOffset st).
Definition set_min (st : pstate) (v : Z) : pstate :=
  mkPstate (p_year st) (p_month st) (p_day st) (p_hour st) v (p_sec st) (p_nsec st) (p_z st) (p_zoneOffset st).
Definition set_sec (st : pstate) (v : Z) : pstate :=
  mkPstate (p_year st) (p_month st) (p_day st) (p_hour st) (p_min st) v (p_nsec st) (p_z st) (p_zoneOffset st).
Definition set_nsec (st : pstate) (v : Z) : pstate :=
  mkPstate (p_year st) (p_month st) (p_day st) (p_hour st) (p_min st) (p_sec st) v (p_z st) (p_zoneOffset st).
Definition set_z (st : pstate) (v : Location) : pstate :=
  mkPstate (p_year st) (p_month st) (p_day st) (p_hour st) (p_min st) (p_sec st) (p_nsec st) (Some v) (p_zoneOffset st).
Definition set_zoneOffset (st : pstate) (v : Z) : pstate :=
  mkPstate (p_year st) (p_month st) (p_day st) (p_hour st) (p_min st) (p_sec st) (p_nsec st) (p_z st) v.

(** Outcome of one [switch] arm: the rest of the value and the new
    variables, [errBad], or a range error with the value after the field. *)
Inductive step_result :=
| StepOk (value : string) (st : pstate)
| StepBad
| StepRange (what : string) (value : string).

Definition nano_step (st : pstate) (rest : string) (r : nano_result) : step_result :=
  match r with
  | NanoOk ns => StepOk rest (set_nsec st ns)
  | NanoRange => StepRange "fractional second" rest
  | NanoBad => StepBad
  end.

Definition getnum_value (r : result unit (Z * string)) : Z :=
  match r with Ok (v, _) => v | Err _ => 0 end.

(** The ["Z07:00"] arm: ["Z"] is UTC, otherwise [+hh:mm] or [-hh:mm]. *)
Definition parse_tz (value : string) (st : pstate) : step_result :=
  match value with
  | String "Z" r => StepOk r (set_z st UTC)
  | _ =>
      if (String.length value <? 6)%nat then StepBad
      else if negb (bool_decide (String.get 3 value = Some ":"%char)) then StepBad
      else
        let sign := String.get 0 value in
        let rest := str_drop 6 value in
        let rh := getnum (str_take 2 (str_drop 1 value)) true in
        let rm := match rh with Ok _ => getnum (str_take 2 (str_drop 4 value)) true | Err _ => Err tt end in
        let rs := match rm with Ok _ => getnum "00" true | Err _ => Err tt end in
        let hr := getnum_value rh in
        let mm := getnum_value rm in
        let ss := getnum_value rs in
        let range :=
          if 60 <? ss then Some "time zone offset second"
          else if 60 <? mm then Some "time zone offset minute"
          else if 24 <? hr then Some "time zone offset hour" else None in
        let off := (hr * 60 + mm) * 60 + ss in
        let signed :=
          match sign with
          | Some "+"%char => Some off
          | Some "-"%char => Some (- off)
          | _ => None
          end in
        match range, rs, signed with
        | Some what, _, _ => StepRange what rest
        | None, Ok _, Some o => StepOk rest (set_zoneOffset st o)
        | None, _, _ => StepBad
        end
  end.

(** One arm of the [switch std & stdMask] of Go's [parse]; [next] is the
    next element of the layout, which the ["05"] arm looks at. *)
Definition parse_std (s : std) (next : option std) (value : string) (st : pstate) : step_result :=
  match s with
  | stdLongYear =>
      if (String.length value <? 4)%nat || negb (isDigit value 0) then StepBad
      else match atoi (str_take 4 value) with
           | Ok y => StepOk (str_drop 4 value) (set_year st y)
           | Err _ => StepBad
           end
  | stdZeroMonth =>
      match getnum value true with
      | Err _ => StepBad
      | Ok (m, v) => if (m <=? 0) || (12 <? m) then StepRange "month" v else StepOk v (set_month st m)
      end
  | stdZeroDay =>
      match getnum value true with
      | Err _ => StepBad
      | Ok (d, v) => StepOk v (set_day st d)
      end
  | stdHour =>
      match getnum value false with
      | Err _ => StepBad
      | Ok (h, v) => if (h <? 0) || (24 <=? h) then StepRange "hour" v else StepOk v (set_hour st h)
      end
  | stdZeroMinute =>
      match getnum value true with
      | Err _ => StepBad
      | Ok (m, v) => if (m <? 0) || (60 <=? m) then StepRange "minute" v else StepOk v (set_min st m)
      end
  | stdZeroSecond =>
      match getnum value true with
      | Err _ => StepBad
      | Ok (sc, v) =>
          if (sc <? 0) || (60 <=? sc) then StepRange "second" v
          else
            let st := set_sec st sc in
            let frac :=
              (2 <=? String.length v)%nat &&
              match String.get 0 v with Some c => commaOrPeriod c | None => false end &&
              isDigit v 1 in
            if negb frac then StepOk v st
            else match next with
                 | Some (stdFracSecond0 _ _) => StepOk v st
                 | _ =>
                     let n := digits_from v 2 (String.length v) in
                     nano_step st (str_drop n v) (parseNanoseconds v n)
                 end
      end
  | stdFracSecond0 _ n =>
      let ndigit := S n in
      if (String.length value <? ndigit)%nat then StepBad
      else nano_step st (str_drop ndigit value) (parseNanoseconds value ndigit)
  | stdISO8601ColonTZ => parse_tz value st
  end.

Definition next_std (rest : list (string * std)) : option std :=
  match rest with
  | (_, s) :: _ => Some s
  | [] => None
  end.

(** The [for] loop of [parse]: skip each literal prefix, parse each
    element, and at the end require the whole value consumed. *)
Fixpoint parse_loop (alayout avalue : string) (cs : list (string * std)) (trail : string)
    (value : string) (st : pstate) : result ParseError (string * pstate) :=
  match cs with
  | [] =>
      match skip value trail with
      | Err v => Err (mkParseError alayout avalue trail v "")
      | Ok EmptyString => Ok (EmptyString, st)
      | Ok v => Err (mkParseError alayout avalue "" v (": extra text: " ++ time_quote v))
      end
  | (prefix, s) :: rest =>
      match skip value prefix with
      | Err v => Err (mkParseError alayout avalue prefix v "")
      | Ok v =>
          match parse_std s (next_std rest) v st with
          | StepOk v' st' => parse_loop alayout avalue rest trail v' st'
          | StepBad => Err (mkParseError alayout avalue (std_string s) v "")
          | StepRange what v' =>
              Err (mkParseError alayout avalue (std_string s) v' (": " ++ what ++ " out of range"))
          end
      end
  end.

(** [func parse(layout, value string, defaultLocation, local *Location) (Time, error)]
    with [defaultLocation = UTC]. *)
Definition parse (l : layout) (value : string) : result ParseError Time :=
  let alayout := layout_string l in
  match parse_loop alayout value (chunks l) (trailer l) value pstate0 with
  | Err e => Err e
  | Ok (v, st) =>
      let month := if p_month st <? 0 then 1 else p_month st in
      let day := if p_day st <? 0 then 1 else p_day st in
      if (day <? 1) || (daysIn month (p_year st) <? day) then
        Err (mkParseError alayout value "" v ": day out of range")
      else
        let mk loc := Date (p_year st) month day (p_hour st) (p_min st) (p_sec st) (p_nsec st) loc in
        match p_z st with
        | Some z => Ok (mk z)
        | None =>
            if p_zoneOffset st =? -1 then Ok (mk UTC)
            else
              let t := mk UTC in
              Ok (mkTime (t_sec t - p_zoneOffset st) (t_nsec t) (FixedZone "" (p_zoneOffset st)))
        end
  end.

(** [func Parse(layout, value string) (Time, error)]: on error the time is
    the zero [Time]. *)
Definition Parse (l : layout) (value : string) : Time * option ParseError :=
  match parse l value with
  | Ok t => (t, None)
  | Err e => (Time_zero, Some e)
  end.

(** A literal with no space, which [skip] matches byte by byte. *)
Definition no_space (p : string) : bool :=
  forallb (fun c => negb (Ascii.eqb c " ")) (list_ascii_of_string p).

(** [func (t Time) Year() int] *)
Definition Year (t : Time) : Z := (civil_of_days (abs_local t / 86400)).1.1.

(** ** Parsing what Format prints *)

Lemma str_take_app (n : nat) (s r : string) : String.length s = n -> str_take n (s ++ r) = s.
Proof.
  intros <-. induction s as [|c s IH]; [by destruct r|]. rewrite str_app_cons. simpl. by rewrite IH.
Qed.

Lemma str_drop_app (n : nat) (s r : string) : String.length s = n -> str_drop n (s ++ r) = r.
Proof. intros <-. induction s as [|c s IH]; [done|]. rewrite str_app_cons. simpl. by rewrite IH. Qed.

Lemma digits_fixed_S (w : nat) (u : Z) :
  digits_fixed (S w) u = String (digit_char ((u / 10 ^ Z.of_nat w) mod 10)) (digits_fixed w u).
Proof. reflexivity. Qed.

Lemma getnum_digits2 (v : Z) (rest : string) (fixed : bool) :
  0 <= v < 100 -> getnum (digits_fixed 2 v ++ rest) fixed = Ok (v, rest).
Proof.
  intros Hv. rewrite !digits_fixed_S. simpl digits_fixed. rewrite !str_app_cons.
  assert (H1 : 0 <= (v / 10 ^ Z.of_nat 1) mod 10 < 10) by (apply Z.mod_pos_bound; lia).
  assert (H0 : 0 <= (v / 10 ^ Z.of_nat 0) mod 10 < 10) by (apply Z.mod_pos_bound; lia).
  destruct (digit_char_spec _ H1) as [D1 V1]. destruct (digit_char_spec _ H0) as [D0 V0].
  cbn [getnum]. rewrite D1, D0, V1, V0. f_equal. f_equal.
  simpl. rewrite Z.div_1_r. Z.div_mod_to_equations. lia.
Qed.


Lemma skip_fuel_literal (f : nat) (p r : string) :
  no_space p = true -> (String.length p < f)%nat -> skip_fuel f (p ++ r) p = Ok r.
Proof.
  revert f. induction p as [|c p IH]; intros f Hp Hf; destruct f as [|f]; simpl in *; try lia.
  - done.
  - apply andb_prop in Hp as [Hc Hp]. apply negb_true_iff in Hc.
    rewrite Hc, Ascii.eqb_refl. apply IH; [done|lia].
Qed.

Lemma skip_literal (p r : string) : no_space p = true -> skip (p ++ r) p = Ok r.
Proof. intros Hp. apply skip_fuel_literal; [done|lia]. Qed.

Lemma parse_year (y : Z) (next : option std) (rest : string) (st : pstate) :
  0 <= y < 10000 ->
  parse_std stdLongYear next (digits_fixed 4 y ++ rest) st = StepOk rest (set_year st y).
Proof.
  intros Hy. cbn [parse_std].
  rewrite str_length_app, digits_fixed_length.
  assert (Hd : 0 <= (y / 10 ^ Z.of_nat 3) mod 10 < 10) by (apply Z.mod_pos_bound; lia).
  replace (isDigit (digits_fixed 4 y ++ rest) 0) with true
    by (rewrite digits_fixed_S, str_app_cons; symmetry; apply (digit_char_spec _ Hd)).
  rewrite str_take_app, str_drop_app by apply digits_fixed_length.
  rewrite atoi_digits_fixed by lia.
  rewrite Z.mod_small by (simpl; lia). done.
Qed.

Lemma parse_month (m : Z) (next : option std) (rest : string) (st : pstate) :
  1 <= m <= 12 ->
  parse_std stdZeroMonth next (digits_fixed 2 m ++ rest) st = StepOk rest (set_month st m).
Proof.
  intros Hm. cbn [parse_std]. rewrite getnum_digits2 by lia.
  rewrite (proj2 (Z.leb_gt _ _)), (proj2 (Z.ltb_ge _ _)) by lia. done.
Qed.

Lemma parse_day (d : Z) (next : option std) (rest : string) (st : pstate) :
  0 <= d < 100 ->
  parse_std stdZeroDay next (digits_fixed 2 d ++ rest) st = StepOk rest (set_day st d).
Proof. intros Hd. cbn [parse_std]. by rewrite getnum_digits2 by lia. Qed.

Lemma parse_hour (h : Z) (next : option std) (rest : string) (st : pstate) :
  0 <= h < 24 ->
  parse_std stdHour next (digits_fixed 2 h ++ rest) st = StepOk rest (set_hour st h).
Proof.
  intros Hh. cbn [parse_std]. rewrite getnum_digits2 by lia.
  rewrite (proj2 (Z.ltb_ge _ _)), (proj2 (Z.leb_gt _ _)) by lia. done.
Qed.

Lemma parse_minute (m : Z) (next : option std) (rest : string) (st : pstate) :
  0 <= m < 60 ->
  parse_std stdZeroMinute next (digits_fixed 2 m ++ rest) st = StepOk rest (set_min st m).
Proof.
  intros Hm. cbn [parse_std]. rewrite getnum_digits2 by lia.
  rewrite (proj2 (Z.ltb_ge _ _)), (proj2 (Z.leb_gt _ _)) by lia. done.
Qed.

(** Before a fraction element, ["05"] leaves the fraction to it. *)
Lemma parse_second_before_frac (s : Z) (sep : ascii) (n : nat) (rest : string) (st : pstate) :
  0 <= s < 60 ->
  parse_std stdZeroSecond (Some (stdFracSecond0 sep n)) (digits_fixed 2 s ++ rest) st =
  StepOk rest (set_sec st s).
Proof.
  intros Hs. cbn [parse_std]. rewrite getnum_digits2 by lia.
  rewrite (proj2 (Z.ltb_ge _ _)), (proj2 (Z.leb_gt _ _)) by lia. simpl.
  by destruct (_ && _ && _).
Qed.

Lemma parse_second_plain (s : Z) (next : option std) (c : ascii) (rest : string) (st : pstate) :
  0 <= s < 60 -> commaOrPeriod c = false ->
  parse_std stdZeroSecond next (digits_fixed 2 s ++ String c rest) st =
  StepOk (String c rest) (set_sec st s).
Proof.
  intros Hs Hc. cbn [parse_std]. rewrite getnum_digits2 by lia.
  rewrite (proj2 (Z.ltb_ge _ _)), (proj2 (Z.leb_gt _ _)) by lia. simpl.
  rewrite Hc, andb_false_r. done.
Qed.

Lemma parse_tz_Z (next : option std) (rest : string) (st : pstate) :
  parse_std stdISO8601ColonTZ next (String "Z" rest) st = StepOk rest (set_z st UTC).
Proof. reflexivity. Qed.

Lemma parse_frac (u : Z) (sep : ascii) (n : nat) (next : option std) (rest : string) (st : pstate) :
  commaOrPeriod sep = true -> (1 <= n <= 9)%nat -> 0 <= u < 10 ^ Z.of_nat n ->
  parse_std (stdFracSecond0 sep n) next (String sep (digits_fixed n u ++ rest)) st =
  StepOk rest (set_nsec st (u * 10 ^ Z.of_nat (9 - n))).
Proof.
  intros Hsep Hn Hu. cbn [parse_std]. simpl String.length.
  rewrite str_length_app, digits_fixed_length.
  rewrite (proj2 (Nat.ltb_ge _ _)) by lia.
  unfold parseNanoseconds. rewrite Hsep. simpl negb. cbv iota.
  rewrite (proj2 (Nat.ltb_ge 10 (S n))) by lia. rewrite Nat.min_l by lia.
  simpl str_drop. rewrite str_take_app by (rewrite digits_fixed_length; lia).
  rewrite atoi_digits_fixed by lia. rewrite Z.mod_small by lia.
  rewrite (proj2 (Z.ltb_ge _ _)) by lia.
  unfold nano_step. simpl str_drop.
  rewrite str_drop_app by apply digits_fixed_length.
  reflexivity.
Qed.

Lemma digits_from_fixed (w i fuel : nat) (u : Z) (c : ascii) (r : string) :
  is_digit_char c = false -> (i <= w)%nat -> (w - i <= fuel)%nat ->
  digits_from (digits_fixed w u ++ String c r) i fuel = w.
Proof.
  intros Hc. revert i. induction fuel as [|f IH]; intros i Hi Hf; simpl.
  - lia.
  - destruct (decide (i = w)) as [->|Hne].
    + by rewrite isDigit_after_digits.
    + rewrite isDigit_digits_fixed by lia. apply IH; lia.
Qed.

Lemma digits_from_cons (c : ascii) (s : string) (i fuel : nat) :
  digits_from (String c s) (S i) fuel = S (digits_from s i fuel).
Proof.
  revert i. induction fuel as [|f IH]; intros i; [done|]. simpl.
  change (isDigit (String c s) (S i)) with (isDigit s i).
  destruct (isDigit s i); [apply IH|done].
Qed.

(** The ["05"] element followed by a fraction of [n] digits and a zone: Go
    reads the fraction with the seconds, as many digits as there are. *)
Lemma parse_second_frac_tz (s : Z) (n : nat) (u : Z) (c : ascii) (rest : string) (st : pstate) :
  0 <= s < 60 -> (1 <= n <= 9)%nat -> 0 <= u < 10 ^ Z.of_nat n -> is_digit_char c = false ->
  parse_std stdZeroSecond (Some stdISO8601ColonTZ)
    (digits_fixed 2 s ++ String "." (digits_fixed n u ++ String c rest)) st =
  StepOk (String c rest) (set_nsec (set_sec st s) (u * 10 ^ Z.of_nat (9 - n))).
Proof.
  intros Hs Hn Hu Hc. cbn [parse_std]. rewrite getnum_digits2 by lia.
  rewrite (proj2 (Z.ltb_ge _ _)), (proj2 (Z.leb_gt _ _)) by lia. cbv zeta.
  set (X := digits_fixed n u ++ String c rest).
  assert (Hlen : String.length X = (n + S (String.length rest))%nat)
    by (unfold X; rewrite str_length_app, digits_fixed_length; done).
  assert (Hd1 : isDigit (String "." X) 1 = true) by (apply (isDigit_digits_fixed n 0); lia).
  assert (H2 : (2 <=? String.length (String "." X))%nat = true)
    by (apply Nat.leb_le; simpl; lia).
  rewrite H2, Hd1. cbn -[X digits_from parseNanoseconds str_drop].
  rewrite digits_from_cons. simpl String.length. rewrite Hlen. unfold X.
  rewrite digits_from_fixed by (done || lia).
  unfold parseNanoseconds. simpl commaOrPeriod. cbv iota beta zeta.
  rewrite (proj2 (Nat.ltb_ge 10 (S n))) by lia. rewrite Nat.min_l by lia.
  simpl str_drop. rewrite str_take_app by (rewrite digits_fixed_length; lia).
  rewrite atoi_digits_fixed by lia. rewrite Z.mod_small by lia.
  rewrite (proj2 (Z.ltb_ge _ _)) by lia.
  unfold nano_step. rewrite str_drop_app by apply digits_fixed_length.
  reflexivity.
Qed.

Lemma norm_small (hi lo base : Z) : 0 <= lo < base -> norm hi lo base = (hi, lo).
Proof.
  intros H. unfold norm.
  rewrite (proj2 (Z.ltb_ge lo 0)) by lia. rewrite (proj2 (Z.leb_gt base lo)) by lia. done.
Qed.

Lemma Date_fields (y mo d h mi s ns : Z) (loc : Location) :
  1 <= mo <= 12 -> 0 <= h < 24 -> 0 <= mi < 60 -> 0 <= s < 60 -> 0 <= ns < 1000000000 ->
  Date y mo d h mi s ns loc =
  mkTime (days_of_civil y mo d * 86400 + (h * 3600 + mi * 60 + s) - zone_offset loc) ns loc.
Proof.
  intros Hmo Hh Hmi Hs Hns. unfold Date.
  rewrite (norm_small y) by lia. rewrite (norm_small s) by lia.
  rewrite (norm_small mi) by lia. rewrite (norm_small h) by lia.
  rewrite (norm_small d) by lia. cbv beta iota. replace (mo - 1 + 1) with mo by lia. reflexivity.
Qed.

Lemma clock_spec (abs : Z) :
  let '(h, mi, s) := clock abs in
  0 <= h < 24 /\ 0 <= mi < 60 /\ 0 <= s < 60 /\ abs mod 86400 = h * 3600 + mi * 60 + s.
Proof. unfold clock. Z.div_mod_to_equations. lia. Qed.

Lemma str_take_digits_fixed (k j : nat) (u : Z) :
  str_take k (digits_fixed (k + j) u) = digits_fixed k (u / 10 ^ Z.of_nat j).
Proof.
  induction k as [|k IH]; [done|].
  rewrite Nat.add_succ_l, !digits_fixed_S. simpl. rewrite IH. do 3 f_equal.
  pose proof (pow10_pos j). pose proof (pow10_pos k).
  rewrite Z.div_div by lia.
  rewrite <- Z.pow_add_r by lia.
  replace (Z.of_nat (k + j)) with (Z.of_nat j + Z.of_nat k) by lia. reflexivity.
Qed.

Lemma formatNano_digits (ns : Z) (sep : ascii) (n : nat) :
  0 <= ns < 1000000000 -> (n <= 9)%nat ->
  formatNano ns sep n = String sep (digits_fixed n (ns / 10 ^ Z.of_nat (9 - n))).
Proof.
  intros Hns Hn. unfold formatNano. rewrite appendInt_fits by (simpl; lia).
  replace 9%nat with (n + (9 - n))%nat at 1 by lia.
  by rewrite str_take_digits_fixed.
Qed.

(** ** Termination of the loops

    [skip] and the fraction scan of [stdZeroSecond] are [for] loops in Go;
    here they carry a fuel bound. The lemmas below show the bound is never
    what stops them: [skip] consumes at least one byte of the prefix per
    step, and the scan at least one byte of the value. *)

Lemma cutspace_cons (c : ascii) (r : string) :
  cutspace (String c r) = if Ascii.eqb c " " then cutspace r else String c r.
Proof. destruct c as [[] [] [] [] [] [] [] []]; reflexivity. Qed.

Lemma cutspace_length (s : string) : (String.length (cutspace s) <= String.length s)%nat.
Proof.
  induction s as [|c s IH]; [done|]. rewrite cutspace_cons.
  destruct (Ascii.eqb c " "); simpl; lia.
Qed.

(** [skip] terminates: its loop needs no more steps than the literal
    prefix has bytes, so any two bounds at least that long give the same
    result, that of [skip] itself. *)
Lemma skip_fuel_stable (f g : nat) (value prefix : string) :
  (String.length prefix <= f)%nat -> (String.length prefix <= g)%nat ->
  skip_fuel f value prefix = skip_fuel g value prefix.
Proof.
  revert g value prefix. induction f as [|f IH]; intros g value [|c p] Hf Hg;
    simpl in Hf, Hg; try lia; try (destruct g; done).
  destruct g as [|g]; [lia|]. cbn [skip_fuel].
  destruct (Ascii.eqb c " ") eqn:Ec.
  - apply Ascii.eqb_eq in Ec as ->. pose proof (cutspace_length p).
    assert (Hc : (String.length (cutspace (String " " p)) <= length p)%nat)
      by (rewrite cutspace_cons; simpl; lia).
    destruct value as [|v vr]; [|destruct (Ascii.eqb v " ")]; try done; apply IH; lia.
  - destruct value as [|v vr]; [done|]. destruct (Ascii.eqb v c); [apply IH; lia|done].
Qed.

Lemma isDigit_past_end (s : string) (i : nat) :
  (String.length s <= i)%nat -> isDigit s i = false.
Proof.
  intros H. unfold isDigit.
  revert i H. induction s as [|c s IH]; intros i H; [done|].
  destruct i as [|i]; simpl in *; [lia|]. apply IH. lia.
Qed.

(** ** Errors *)

(** Every error of the loop carries the layout and the value it was given. *)
Lemma parse_loop_err_fields (al av trail : string) (cs : list (string * std))
    (v : string) (st : pstate) (e : ParseError) :
  parse_loop al av cs trail v st = Err e -> pe_Layout e = al /\ pe_Value e = av.
Proof.
  revert v st. induction cs as [|[p sd] cs IH]; intros v st; simpl.
  - destruct (skip v trail) as [[|c r]|x]; intros H; invc H; done.
  - destruct (skip v p) as [v'|x]; [|intros H; invc H; done].
    destruct (parse_std sd (next_std cs) v' st); [apply IH| |]; intros H; invc H; done.
Qed.

Lemma parse_err_fields (l : layout) (value : string) (e : ParseError) :
  parse l value = Err e -> pe_Layout e = layout_string l /\ pe_Value e = value.
Proof.
  unfold parse. destruct (parse_loop _ _ _ _ _ _) as [[v st]|e'] eqn:E.
  - destruct (_ || _); [intros H; invc H; done|].
    destruct (p_z st); [done|]. by destruct (_ =? _).
  - intros H. invc H. exact (parse_loop_err_fields _ _ _ _ _ _ _ E).
Qed.

(** The fraction scan of [stdZeroSecond] ([for ; n < len(value) &&
    isDigit(value, n); n++]) started inside the value ends within the
    value's length: every byte it passes is a digit, and it stops at the
    first non-digit or at the end of the value. *)
Lemma digits_from_terminates (s : string) (i f : nat) :
  (i <= String.length s)%nat -> (String.length s <= i + f)%nat ->
  let n := digits_from s i f in
  (i <= n <= String.length s)%nat /\
  (forall j, (i <= j < n)%nat -> isDigit s j = true) /\ isDigit s n = false.
Proof.
  intros Hi Hf n. subst n. revert i Hi Hf. induction f as [|f IH]; intros i Hi Hf; simpl.
  - repeat split; try lia. apply isDigit_past_end. lia.
  - destruct (isDigit s i) eqn:Ed.
    + assert (Hlt : (i < String.length s)%nat)
        by (destruct (Nat.lt_ge_cases i (String.length s)) as [|Hge]; [done|];
            by rewrite isDigit_past_end in Ed).
      destruct (IH (S i)) as (Hb & Hall & Hend); [lia|lia|].
      repeat split; [lia|lia| |done]. intros j Hj.
      destruct (Nat.eq_dec j i) as [->|]; [done|]. apply Hall. lia.
    + repeat split; try lia. done.
Qed.

End GoTime.
