(* ===== verification/TimeWf.v ===== *)
(** * Well-formed times and the invariant of Go's [parse] loop

    [time_wf t]: the nanoseconds of [t] are in [0, 10^9) and its year in
    the zone it carries is in 0..9999, the hypotheses under which [Format]
    prints [timeLayout] as four-digit fields (Timestamp.v).

    [pstate_ok] is the invariant of the variables of [parse] (GoTime.v):
    year 0..9999, month unset or 1..12, hour, minute and second in range,
    nanoseconds in [0, 10^9). Every arm of [parse_std] preserves it
    ([parse_std_ok]), so the loop does ([parse_loop_ok]), and with the final
    day check of [parse] every time [parse] returns is well formed
    ([parse_wf]), whatever the layout and the value. *)
From S2P Require Import Prelude GoStrings Calendar GoTime.

Open Scope string_scope.
Open Scope Z_scope.

Module TimeWf.
Import GoStrings Calendar GoTime.

Definition time_wf (t : Time) : Prop :=
  0 <= t_nsec t < 1000000000 /\ 0 <= Year t <= 9999.

Definition pstate_ok (st : pstate) : Prop :=
  0 <= p_year st <= 9999 /\ (p_month st = -1 \/ 1 <= p_month st <= 12) /\
  0 <= p_hour st < 24 /\ 0 <= p_min st < 60 /\ 0 <= p_sec st < 60 /\
  0 <= p_nsec st < 1000000000.

(** Closes [pstate_ok] of an updated state from the old one's bounds. *)
Ltac pstate_solve := unfold pstate_ok; simpl; repeat split; (lia || tauto).

(** ** Bounds of the field readers *)

Lemma str_take_length (n : nat) (s : string) : (String.length (str_take n s) <= n)%nat.
Proof.
  revert s. induction n as [|n IH]; intros [|c s]; simpl; try lia.
  specialize (IH s). lia.
Qed.

Lemma str_take_length_eq (n : nat) (s : string) :
  (n <= String.length s)%nat -> String.length (str_take n s) = n.
Proof.
  revert s. induction n as [|n IH]; intros [|c s] Hn; simpl in *; try lia.
  rewrite IH; lia.
Qed.

Lemma getnum_bound (s : string) (fixed : bool) (v : Z) (r : string) :
  getnum s fixed = Ok (v, r) -> 0 <= v < 100.
Proof.
  unfold getnum. destruct s as [|c0 s]; [discriminate|].
  destruct (is_digit_char c0) eqn:H0; [|discriminate].
  pose proof (digit_val_bound c0 H0) as B0.
  destruct s as [|c1 s]; [destruct fixed; intros H; invc H; lia|].
  destruct (is_digit_char c1) eqn:H1.
  - pose proof (digit_val_bound c1 H1) as B1. intros H. invc H. lia.
  - destruct fixed; intros H; invc H. lia.
Qed.

Lemma parseNanoseconds_bound (value : string) (n : nat) (ns : Z) :
  parseNanoseconds value n = NanoOk ns -> 0 <= ns < 1000000000.
Proof.
  unfold parseNanoseconds. destruct value as [|c v]; [discriminate|].
  destruct (negb (commaOrPeriod c)); [discriminate|]. cbv zeta.
  set (body := str_take (Nat.min n 10 - 1) _).
  destruct (atoi body) as [x|] eqn:E; [|discriminate].
  assert (Hb : (String.length body <= Nat.min n 10 - 1)%nat) by apply str_take_length.
  destruct (atoi_bound body x ltac:(lia) E) as [Hx _].
  destruct (x <? 0) eqn:Hneg; [discriminate|]. apply Z.ltb_ge in Hneg.
  intros H. invc H.
  assert (Hp : 10 ^ Z.of_nat (String.length body) <= 10 ^ Z.of_nat (Nat.min n 10 - 1))
    by (apply Z.pow_le_mono_r; lia).
  pose proof (pow10_pos (10 - Nat.min n 10)).
  split; [nia|].
  destruct (Nat.min n 10) as [|k] eqn:Ek.
  - assert (Hl : String.length body = 0%nat) by lia. rewrite Hl in Hx. simpl in Hx.
    assert (x = 0) by lia. subst. lia.
  - replace 1000000000 with (10 ^ Z.of_nat (S k - 1) * 10 ^ Z.of_nat (10 - S k))
      by (rewrite <- Z.pow_add_r by lia;
          replace (Z.of_nat (S k - 1) + Z.of_nat (10 - S k)) with 9 by lia; reflexivity).
    apply Z.mul_lt_mono_pos_r; lia.
Qed.

(** ** The loop invariant *)

Lemma nano_step_ok (st : pstate) (rest v' : string) (r : nano_result) (st' : pstate) :
  pstate_ok st -> (forall ns, r = NanoOk ns -> 0 <= ns < 1000000000) ->
  nano_step st rest r = StepOk v' st' -> pstate_ok st'.
Proof.
  intros Hst Hr. unfold nano_step. destruct r as [ns| |]; try discriminate.
  intros H. invc H. specialize (Hr ns eq_refl). unfold pstate_ok in *. simpl. tauto.
Qed.

Lemma parse_tz_state (v : string) (st : pstate) (v' : string) (st' : pstate) :
  parse_tz v st = StepOk v' st' -> st' = set_z st UTC \/ exists o, st' = set_zoneOffset st o.
Proof.
  unfold parse_tz. cbv zeta.
  repeat case_match; intros Hr; invc Hr; eauto.
Qed.

Lemma parse_std_ok (s : std) (next : option std) (v v' : string) (st st' : pstate) :
  pstate_ok st -> parse_std s next v st = StepOk v' st' -> pstate_ok st'.
Proof.
  intros Hst. destruct Hst as (Hy & Hmo & Hh & Hmi & Hs & Hns).
  destruct s; cbn [parse_std].
  - destruct (_ || _)%bool eqn:Hc; [discriminate|].
    apply orb_false_iff in Hc as [Hl Hd]. apply negb_false_iff in Hd.
    destruct (atoi (str_take 4 v)) as [y|] eqn:E; [|discriminate].
    intros H. invc H.
    assert (Hlen : String.length (str_take 4 v) = 4%nat).
    { apply Nat.ltb_ge in Hl. by apply str_take_length_eq. }
    destruct (atoi_bound (str_take 4 v) y ltac:(lia) E) as [Hb Hpos].
    rewrite Hlen in Hb. destruct v as [|c v]; [discriminate|].
    assert (0 <= y) by (apply (Hpos c (str_take 3 v)); [done|exact Hd]).
    pstate_solve.
  - destruct (getnum v true) as [[m r]|] eqn:E; [|discriminate].
    destruct (_ || _)%bool eqn:Hc; [discriminate|]. intros H. invc H.
    apply orb_false_iff in Hc as [H1 H2]. apply Z.leb_gt in H1. apply Z.ltb_ge in H2.
    pstate_solve.
  - destruct (getnum v true) as [[d r]|]; [|discriminate]. intros H. invc H.
    pstate_solve.
  - destruct (getnum v false) as [[h r]|]; [|discriminate].
    destruct (_ || _)%bool eqn:Hc; [discriminate|]. intros H. invc H.
    apply orb_false_iff in Hc as [H1 H2]. apply Z.ltb_ge in H1. apply Z.leb_gt in H2.
    pstate_solve.
  - destruct (getnum v true) as [[m r]|]; [|discriminate].
    destruct (_ || _)%bool eqn:Hc; [discriminate|]. intros H. invc H.
    apply orb_false_iff in Hc as [H1 H2]. apply Z.ltb_ge in H1. apply Z.leb_gt in H2.
    pstate_solve.
  - destruct (getnum v true) as [[sc r]|]; [|discriminate].
    destruct (_ || _)%bool eqn:Hc; [discriminate|].
    apply orb_false_iff in Hc as [H1 H2]. apply Z.ltb_ge in H1. apply Z.leb_gt in H2.
    assert (Hst1 : pstate_ok (set_sec st sc)) by (pstate_solve).
    cbv zeta. destruct (negb _).
    + intros H. invc H. exact Hst1.
    + destruct next as [[]|]; try (intros H; invc H; exact Hst1);
        apply nano_step_ok; try exact Hst1; intros ns Hn; exact (parseNanoseconds_bound _ _ _ Hn).
  - destruct (_ <? _)%nat; [discriminate|].
    apply nano_step_ok; [pstate_solve|].
    intros ns Hn. exact (parseNanoseconds_bound _ _ _ Hn).
  - intros H. destruct (parse_tz_state _ _ _ _ H) as [->|[o ->]];
      pstate_solve.
Qed.

Lemma parse_loop_ok (al av trail : string) (cs : list (string * std)) (v : string)
    (st : pstate) (v' : string) (st' : pstate) :
  pstate_ok st -> parse_loop al av cs trail v st = Ok (v', st') -> pstate_ok st'.
Proof.
  revert v st. induction cs as [|[p sd] cs IH]; intros v st Hst; simpl.
  - destruct (skip v trail) as [[|c r]|x]; intros H; invc H; done.
  - destruct (skip v p) as [v1|x]; [|discriminate].
    destruct (parse_std sd (next_std cs) v1 st) as [v2 st2| |] eqn:E; try discriminate.
    apply IH. exact (parse_std_ok _ _ _ _ _ _ Hst E).
Qed.

(** ** Well-formed results *)

Lemma Year_abs (t : Time) (y mo d sec : Z) :
  valid_date y mo d -> 0 <= sec < 86400 ->
  abs_local t = days_of_civil y mo d * 86400 + sec -> Year t = y.
Proof.
  intros Hv Hs Habs. unfold Year. rewrite Habs.
  replace (days_of_civil y mo d * 86400 + sec) with (86400 * days_of_civil y mo d + sec) by lia.
  rewrite Z_div_mul_add by lia. by rewrite civil_of_days_of_civil.
Qed.

Lemma Date_wf (y mo d h mi s ns : Z) (loc : Location) :
  valid_date y mo d -> 0 <= y <= 9999 -> 0 <= h < 24 -> 0 <= mi < 60 -> 0 <= s < 60 ->
  0 <= ns < 1000000000 ->
  time_wf (Date y mo d h mi s ns loc) /\
  t_sec (Date y mo d h mi s ns loc) =
    days_of_civil y mo d * 86400 + (h * 3600 + mi * 60 + s) - zone_offset loc.
Proof.
  intros Hv Hy Hh Hmi Hs Hns.
  rewrite Date_fields by (destruct Hv; lia). split; [|reflexivity]. split; [simpl; lia|].
  rewrite (Year_abs _ y mo d (h * 3600 + mi * 60 + s)); [lia|exact Hv|lia|].
  unfold abs_local. simpl. lia.
Qed.

Lemma Time_zero_wf : time_wf Time_zero.
Proof. split; [simpl; lia|]. vm_compute. split; discriminate. Qed.

Lemma parse_wf (l : layout) (value : string) (t : Time) :
  parse l value = Ok t -> time_wf t.
Proof.
  unfold parse. destruct (parse_loop _ _ _ _ _ _) as [[v st]|e] eqn:E; [|discriminate].
  pose proof (parse_loop_ok _ _ _ _ _ pstate0 _ _ ltac:(pstate_solve) E)
    as (Hy & Hmo & Hh & Hmi & Hs & Hns).
  set (mo := if p_month st <? 0 then 1 else p_month st).
  set (d := if p_day st <? 0 then 1 else p_day st).
  assert (Hmo' : 1 <= mo <= 12) by (unfold mo; destruct (Z.ltb_spec (p_month st) 0); lia).
  destruct (_ || _)%bool eqn:Hc; [discriminate|].
  apply orb_false_iff in Hc as [H1 H2]. apply Z.ltb_ge in H1, H2.
  assert (Hv : valid_date (p_year st) mo d) by (split; lia).
  destruct (Date_wf (p_year st) mo d (p_hour st) (p_min st) (p_sec st) (p_nsec st) UTC)
    as [Hwf Habs]; try assumption.
  destruct (p_z st) as [z|].
  - intros H. invc H. apply Date_wf; assumption.
  - destruct (_ =? _); intros H; invc H; [exact Hwf|].
    destruct Hwf as [Hn Hyr]. split; [exact Hn|].
    rewrite (Year_abs _ (p_year st) mo d (p_hour st * 3600 + p_min st * 60 + p_sec st));
      [exact Hy|exact Hv|clear -Hh Hmi Hs; lia|].
    unfold abs_local. cbn [t_sec t_loc zone_offset] in *. lia.
Qed.

End TimeWf.
