(* ===== verification/Timestamp.v ===== *)
(** * The flexible timestamp codec (src/pkg/types/response.go, lines 17-47)

    [type Time time.Time] with its JSON hooks:
    - [UnmarshalJSON] trims the quote bytes, maps ["null"] to the zero
      time, parses with [time.RFC3339] when the text contains ["Z"] and with
      [timeLayout] otherwise, and stores the parsed time (the zero time on
      error) into the receiver. The model returns the receiver's new value
      and the error.
    - [String] formats with [timeLayout] and quotes with [%q];
      [MarshalJSON] returns that text and a nil error.

    Theorems: the decode of an encoded time gives its wall-clock reading in
    UTC (exactly the time, for a UTC time); re-encoding a decoded encoding
    reproduces it for years 0..9999; every decoded value is well formed (TimeWf.v), so for
    every input the encoding is 28 bytes and stable after one decode; an
    RFC 3339 UTC text, with whole seconds or a fraction
    of one to nine digits, decodes to its instant, and a text in the fixed
    layout with a numeric offset is rejected; the error path resets the
    receiver, and every error names the text and the layout attempted. The texts are built from [stamp_text],
    the date and clock digits the two layouts share, and the shared
    parsing of those digits is [parse_loop_stamp]. *)
From S2P Require Import Prelude GoStrings Calendar GoTime TimeWf.

Open Scope string_scope.
Open Scope Z_scope.

Module Timestamp.
Import GoStrings Calendar GoTime TimeWf.

(** [type Time time.Time] *)
Definition Time := GoTime.Time.

(** [const timeLayout = "2006-01-02T15:04:05.000000"] *)
Definition timeLayout : layout :=
  mkLayout [("", stdLongYear); ("-", stdZeroMonth); ("-", stdZeroDay);
            ("T", stdHour); (":", stdZeroMinute); (":", stdZeroSecond);
            ("", stdFracSecond0 "." 6)] "".

(** [func (t *Time) UnmarshalJSON(b []byte) (err error)]: the new value of
    [*t] and [err]. *)
Definition UnmarshalJSON (t : Time) (b : string) : Time * option ParseError :=
  let s := Trim b (String dquote EmptyString) in
  if String.eqb s "null" then (Time_zero, None)
  else
    let '(nt, err) :=
      if Contains s "Z" then Parse RFC3339 s else Parse timeLayout s in
    (nt, err).

(** [func (t *Time) String() string] *)
Definition String_ (t : Time) : string := Quote (Format t timeLayout).

(** [func (t Time) MarshalJSON() ([]byte, error)]: the error is always nil. *)
Definition MarshalJSON (t : Time) : string * option ParseError := (String_ t, None).

(** The date and clock digits shared by the two layouts, then [tail]. *)
Definition stamp_text (y mo d h mi s : Z) (tail : string) : string :=
  digits_fixed 4 y ++ "-" ++ digits_fixed 2 mo ++ "-" ++ digits_fixed 2 d ++ "T" ++
  digits_fixed 2 h ++ ":" ++ digits_fixed 2 mi ++ ":" ++ digits_fixed 2 s ++ tail.

(** The text of [timeLayout] for given fields, as [Format] prints it. *)
Definition canonical (y mo d h mi s u : Z) : string :=
  stamp_text y mo d h mi s (String "." (digits_fixed 6 u)).

(** An RFC 3339 UTC timestamp with whole seconds, such as
    ["2024-01-16T23:40:53Z"]. *)
Definition rfc3339_utc (y mo d h mi s : Z) : string := stamp_text y mo d h mi s "Z".

(** A JSON string token: the text between quote bytes. *)
Definition quoted (s : string) : string := String dquote (s ++ String dquote EmptyString).

(** A numeric zone offset such as ["+01:00"]. *)
Definition offset_text (sign : ascii) (oh om : Z) : string :=
  String sign (digits_fixed 2 oh ++ ":" ++ digits_fixed 2 om).

(** An RFC 3339 UTC timestamp with an [n]-digit fraction, such as
    ["2024-01-16T23:40:53.123Z"]. *)
Definition rfc3339_frac_utc (y mo d h mi s : Z) (n : nat) (u : Z) : string :=
  stamp_text y mo d h mi s (String "." (digits_fixed n u ++ "Z")).

(** The month and day checks at the end of [parse], for a valid date. *)
Ltac day_checks y mo d :=
  rewrite (proj2 (Z.ltb_ge d 0)), (proj2 (Z.ltb_ge mo 0)) by lia;
  rewrite (proj2 (Z.ltb_ge d 1)), (proj2 (Z.ltb_ge (daysIn mo y) d)) by lia.

(** ** The text [Format] produces for [timeLayout] *)

Lemma Format_timeLayout (t : Time) :
  0 <= t_nsec t < 1000000000 -> 0 <= Year t <= 9999 ->
  exists y mo d h mi s,
    civil_of_days (abs_local t / 86400) = (y, mo, d) /\ clock (abs_local t) = (h, mi, s) /\
    valid_date y mo d /\ days_of_civil y mo d = abs_local t / 86400 /\
    0 <= h < 24 /\ 0 <= mi < 60 /\ 0 <= s < 60 /\
    abs_local t mod 86400 = h * 3600 + mi * 60 + s /\
    Format t timeLayout =
      digits_fixed 4 y ++ "-" ++ digits_fixed 2 mo ++ "-" ++ digits_fixed 2 d ++ "T" ++
      digits_fixed 2 h ++ ":" ++ digits_fixed 2 mi ++ ":" ++ digits_fixed 2 s ++
      String "." (digits_fixed 6 (t_nsec t / 1000)).
Proof.
  intros Hns Hy. unfold Year in Hy.
  pose proof (days_of_civil_of_days (abs_local t / 86400)) as Hc.
  pose proof (clock_spec (abs_local t)) as Hcl.
  destruct (civil_of_days _) as [[y mo] d] eqn:Ec.
  destruct (clock _) as [[h mi] s] eqn:Ecl.
  simpl in Hy. destruct Hc as [[Hmo Hd] Hdays]. pose proof (daysIn_bounds mo y Hmo).
  exists y, mo, d, h, mi, s.
  split; [done|]. split; [done|]. split; [split; done|]. split; [done|].
  split; [lia|]. split; [lia|]. split; [lia|]. split; [lia|].
  unfold Format. rewrite Ec, Ecl. simpl.
  rewrite !appendInt_fits by (simpl; lia).
  rewrite formatNano_digits by lia. simpl. by rewrite !str_app_nil_r, !str_app_nil_l.
Qed.

(** ** Decoding the canonical text *)

Lemma skip_nil (v : string) : skip v "" = Ok v.
Proof. reflexivity. Qed.

Lemma stamp_bytes (P : ascii -> bool) (y mo d h mi s : Z) (tail : string) :
  forallb (fun d => P (digit_char d)) (Z_range 0 10) = true ->
  P "-"%char = true -> P "T"%char = true -> P ":"%char = true ->
  forallb P (list_ascii_of_string tail) = true ->
  forallb P (list_ascii_of_string (stamp_text y mo d h mi s tail)) = true.
Proof.
  intros Hd H1 H2 H3 Ht. unfold stamp_text. rewrite !forallb_str_app.
  pose proof (fun w u => forallb_digits_fixed P w u Hd) as A.
  rewrite !A, Ht. cbn [list_ascii_of_string forallb]. rewrite H1, H2, H3. done.
Qed.

Lemma canonical_bytes (P : ascii -> bool) (y mo d h mi s u : Z) :
  forallb (fun d => P (digit_char d)) (Z_range 0 10) = true ->
  P "-"%char = true -> P "T"%char = true -> P ":"%char = true -> P "."%char = true ->
  forallb P (list_ascii_of_string (canonical y mo d h mi s u)) = true.
Proof.
  intros Hd H1 H2 H3 H4. unfold canonical.
  apply stamp_bytes; try done. cbn [list_ascii_of_string forallb]. rewrite H4.
  by apply forallb_digits_fixed.
Qed.

Lemma parse_loop_stamp (al av trail tail : string) (rest : list (string * std)) (st : pstate)
    (y mo d h mi s : Z) :
  0 <= y <= 9999 -> 1 <= mo <= 12 -> 0 <= d < 100 -> 0 <= h < 24 -> 0 <= mi < 60 ->
  parse_loop al av
    (("", stdLongYear) :: ("-", stdZeroMonth) :: ("-", stdZeroDay) :: ("T", stdHour) ::
     (":", stdZeroMinute) :: rest) trail (stamp_text y mo d h mi s tail) st =
  parse_loop al av rest trail (":" ++ digits_fixed 2 s ++ tail)
    (set_min (set_hour (set_day (set_month (set_year st y) mo) d) h) mi).
Proof.
  intros Hy Hmo Hd Hh Hmi. unfold stamp_text. cbn [parse_loop next_std].
  rewrite skip_nil, parse_year by lia. cbn iota beta.
  rewrite skip_literal, parse_month by (reflexivity || lia). cbn iota beta.
  rewrite skip_literal, parse_day by (reflexivity || lia). cbn iota beta.
  rewrite skip_literal, parse_hour by (reflexivity || lia). cbn iota beta.
  rewrite skip_literal, parse_minute by (reflexivity || lia). reflexivity.
Qed.

Lemma parse_timeLayout_fields (y mo d h mi s u : Z) :
  valid_date y mo d -> 0 <= y <= 9999 -> 0 <= h < 24 -> 0 <= mi < 60 -> 0 <= s < 60 ->
  0 <= u < 1000000 ->
  parse timeLayout (canonical y mo d h mi s u) =
  Ok (Date y mo d h mi s (u * 1000) UTC).
Proof.
  intros [Hmo Hd] Hy Hh Hmi Hs Hu. pose proof (daysIn_bounds mo y Hmo).
  unfold parse, canonical. cbn [timeLayout chunks trailer].
  rewrite parse_loop_stamp by lia. cbn [parse_loop next_std].
  rewrite skip_literal, parse_second_before_frac by (reflexivity || lia). cbn iota beta.
  rewrite skip_nil, <- (str_app_nil_r (digits_fixed 6 u)).
  rewrite parse_frac by (reflexivity || lia || (simpl; lia)). cbn iota beta.
  rewrite skip_nil. cbn.
  day_checks y mo d. reflexivity.
Qed.

Lemma stamp_text_app (y mo d h mi s : Z) (tail : string) :
  stamp_text y mo d h mi s tail = stamp_text y mo d h mi s "" ++ tail.
Proof. unfold stamp_text. by rewrite !str_app_assoc, str_app_nil_l. Qed.

Lemma not_null_of_bytes (s : string) :
  forallb (fun x => negb (Ascii.eqb x "n")) (list_ascii_of_string s) = true ->
  String.eqb s "null" = false.
Proof. intros Hn. apply String.eqb_neq. intros ->. discriminate. Qed.

Lemma canonical_safe (y mo d h mi s u : Z) :
  forallb safe_byte (list_ascii_of_string (canonical y mo d h mi s u)) = true /\
  no_byte dquote (canonical y mo d h mi s u) /\
  Contains (canonical y mo d h mi s u) "Z" = false /\
  String.eqb (canonical y mo d h mi s u) "null" = false.
Proof.
  split; [apply canonical_bytes; vm_compute; reflexivity|].
  split; [unfold no_byte; apply canonical_bytes; vm_compute; reflexivity|].
  split; [apply Contains_byte_absent, canonical_bytes; vm_compute; reflexivity|].
  apply not_null_of_bytes, canonical_bytes; vm_compute; reflexivity.
Qed.

Lemma parse_rfc3339_frac_fields (y mo d h mi s : Z) (n : nat) (u : Z) :
  valid_date y mo d -> 0 <= y <= 9999 -> 0 <= h < 24 -> 0 <= mi < 60 -> 0 <= s < 60 ->
  (1 <= n <= 9)%nat -> 0 <= u < 10 ^ Z.of_nat n ->
  parse RFC3339 (rfc3339_frac_utc y mo d h mi s n u) =
  Ok (Date y mo d h mi s (u * 10 ^ Z.of_nat (9 - n)) UTC).
Proof.
  intros [Hmo Hd] Hy Hh Hmi Hs Hn Hu. pose proof (daysIn_bounds mo y Hmo).
  unfold parse, rfc3339_frac_utc. cbn [RFC3339 chunks trailer].
  rewrite parse_loop_stamp by lia. cbn [parse_loop next_std].
  rewrite skip_literal, parse_second_frac_tz by (reflexivity || lia). cbn iota beta.
  rewrite skip_nil, parse_tz_Z. cbn iota beta.
  rewrite skip_nil. cbn. day_checks y mo d. reflexivity.
Qed.

Lemma rfc3339_frac_utc_safe (y mo d h mi s : Z) (n : nat) (u : Z) :
  no_byte dquote (rfc3339_frac_utc y mo d h mi s n u) /\
  Contains (rfc3339_frac_utc y mo d h mi s n u) "Z" = true /\
  String.eqb (rfc3339_frac_utc y mo d h mi s n u) "null" = false.
Proof.
  assert (B : forall P : ascii -> bool,
    forallb (fun d => P (digit_char d)) (Z_range 0 10) = true ->
    P "-"%char = true -> P "T"%char = true -> P ":"%char = true -> P "."%char = true ->
    P "Z"%char = true ->
    forallb P (list_ascii_of_string (rfc3339_frac_utc y mo d h mi s n u)) = true).
  { intros P Hd H1 H2 H3 H4 H5.
    apply (stamp_bytes P y mo d h mi s (String "." (digits_fixed n u ++ "Z"))); try done.
    cbn [list_ascii_of_string forallb]. rewrite H4, forallb_str_app, forallb_digits_fixed by done.
    cbn. by rewrite H5. }
  unfold no_byte. split; [|split].
  - apply B; vm_compute; reflexivity.
  - unfold rfc3339_frac_utc. rewrite stamp_text_app. apply Contains_app_r.
    cbn [Contains]. apply orb_true_iff. right. by apply Contains_app_r.
  - apply not_null_of_bytes, B; vm_compute; reflexivity.
Qed.

Lemma offset_frac_cases (frac : string) :
  (frac = "" \/ exists u, 0 <= u < 1000000 /\ frac = String "." (digits_fixed 6 u)) ->
  forall P : ascii -> bool,
  forallb (fun d => P (digit_char d)) (Z_range 0 10) = true -> P "."%char = true ->
  forallb P (list_ascii_of_string frac) = true.
Proof.
  intros [->|(u & _ & ->)] P Hd Hp; [done|]. cbn [list_ascii_of_string forallb].
  rewrite Hp. by apply forallb_digits_fixed.
Qed.

Lemma offset_bytes (P : ascii -> bool) (frac : string) (sign : ascii) (oh om : Z) :
  (frac = "" \/ exists u, 0 <= u < 1000000 /\ frac = String "." (digits_fixed 6 u)) ->
  forallb (fun d => P (digit_char d)) (Z_range 0 10) = true ->
  P "."%char = true -> P ":"%char = true -> P sign = true ->
  forallb P (list_ascii_of_string (frac ++ offset_text sign oh om)) = true.
Proof.
  intros Hf Hd Hp Hc Hs. rewrite forallb_str_app, (offset_frac_cases frac Hf P Hd Hp).
  unfold offset_text. cbn [list_ascii_of_string forallb]. rewrite Hs, !forallb_str_app.
  cbn [list_ascii_of_string forallb]. rewrite Hc, !forallb_digits_fixed by done. done.
Qed.

Lemma parse_timeLayout_offset (y mo d h mi s : Z) (frac : string) (sign : ascii) (oh om : Z) :
  valid_date y mo d -> 0 <= y <= 9999 -> 0 <= h < 24 -> 0 <= mi < 60 -> 0 <= s < 60 ->
  (sign = "+"%char \/ sign = "-"%char) ->
  (frac = "" \/ exists u, 0 <= u < 1000000 /\ frac = String "." (digits_fixed 6 u)) ->
  exists e, parse timeLayout (stamp_text y mo d h mi s (frac ++ offset_text sign oh om)) = Err e.
Proof.
  intros [Hmo Hd] Hy Hh Hmi Hs Hsign Hf. pose proof (daysIn_bounds mo y Hmo).
  unfold parse. cbn [timeLayout chunks trailer].
  rewrite parse_loop_stamp by lia. cbn [parse_loop next_std].
  rewrite skip_literal, parse_second_before_frac by (reflexivity || lia). cbn iota beta.
  rewrite skip_nil.
  destruct Hf as [->|(u & Hu & ->)].
  - rewrite str_app_nil_l. unfold offset_text. cbn [parse_std].
    destruct (_ <? _)%nat; [eexists; reflexivity|].
    destruct Hsign as [-> | ->]; eexists; reflexivity.
  - rewrite str_app_cons, parse_frac by (reflexivity || lia || (simpl; lia)). cbn iota beta.
    rewrite skip_nil. unfold offset_text. eexists; reflexivity.
Qed.

Lemma offset_stamp_bytes (P : ascii -> bool) (y mo d h mi s : Z) (frac : string)
    (sign : ascii) (oh om : Z) :
  (sign = "+"%char \/ sign = "-"%char) ->
  (frac = "" \/ exists u, 0 <= u < 1000000 /\ frac = String "." (digits_fixed 6 u)) ->
  forallb (fun d => P (digit_char d)) (Z_range 0 10) = true ->
  P "-"%char = true -> P "T"%char = true -> P ":"%char = true -> P "."%char = true ->
  P "+"%char = true ->
  forallb P (list_ascii_of_string (stamp_text y mo d h mi s (frac ++ offset_text sign oh om))) = true.
Proof.
  intros Hsign Hf Hd H1 H2 H3 H4 H5.
  apply (stamp_bytes P y mo d h mi s (frac ++ offset_text sign oh om)); try done.
  apply offset_bytes; try done. by destruct Hsign as [-> | ->].
Qed.

Lemma parse_rfc3339_fields (y mo d h mi s : Z) :
  valid_date y mo d -> 0 <= y <= 9999 -> 0 <= h < 24 -> 0 <= mi < 60 -> 0 <= s < 60 ->
  parse RFC3339 (rfc3339_utc y mo d h mi s) = Ok (Date y mo d h mi s 0 UTC).
Proof.
  intros [Hmo Hd] Hy Hh Hmi Hs. pose proof (daysIn_bounds mo y Hmo).
  unfold parse, rfc3339_utc. cbn [RFC3339 chunks trailer].
  rewrite parse_loop_stamp by lia. cbn [parse_loop next_std].
  rewrite skip_literal, parse_second_plain by (reflexivity || lia). cbn iota beta.
  rewrite skip_nil, parse_tz_Z. cbn iota beta.
  rewrite skip_nil. cbn.
  day_checks y mo d. reflexivity.
Qed.

Lemma rfc3339_utc_safe (y mo d h mi s : Z) :
  no_byte dquote (rfc3339_utc y mo d h mi s) /\
  Contains (rfc3339_utc y mo d h mi s) "Z" = true /\
  String.eqb (rfc3339_utc y mo d h mi s) "null" = false.
Proof.
  unfold no_byte. split; [|split].
  - apply (stamp_bytes _ y mo d h mi s "Z"); vm_compute; reflexivity.
  - unfold rfc3339_utc. rewrite stamp_text_app. by apply Contains_app_r.
  - apply not_null_of_bytes, (stamp_bytes _ y mo d h mi s "Z"); vm_compute; reflexivity.
Qed.

Lemma MarshalJSON_canonical (t : Time) :
  0 <= t_nsec t < 1000000000 -> 0 <= Year t <= 9999 ->
  exists y mo d h mi s,
    valid_date y mo d /\ 0 <= y <= 9999 /\ 0 <= h < 24 /\ 0 <= mi < 60 /\ 0 <= s < 60 /\
    days_of_civil y mo d * 86400 + (h * 3600 + mi * 60 + s) = abs_local t /\
    Format t timeLayout = canonical y mo d h mi s (t_nsec t / 1000) /\
    (MarshalJSON t).1 = String dquote (canonical y mo d h mi s (t_nsec t / 1000) ++ String dquote EmptyString).
Proof.
  intros Hns Hy.
  destruct (Format_timeLayout t Hns Hy) as (y & mo & d & h & mi & s & Ec & Ecl & Hv & Hdays & Hh & Hmi & Hs & Hmod & Hf).
  assert (Hy' : Year t = y) by (unfold Year; rewrite Ec; done).
  exists y, mo, d, h, mi, s. do 5 (split; [done || lia|]).
  split; [rewrite Hdays; pose proof (Z.div_mod (abs_local t) 86400); lia|].
  split; [exact Hf|]. simpl. unfold String_. rewrite Hf.
  apply Quote_safe, canonical_safe.
Qed.

Lemma unmarshal_canonical (t0 : Time) (y mo d h mi s u : Z) :
  valid_date y mo d -> 0 <= y <= 9999 -> 0 <= h < 24 -> 0 <= mi < 60 -> 0 <= s < 60 ->
  0 <= u < 1000000 ->
  UnmarshalJSON t0 (String dquote (canonical y mo d h mi s u ++ String dquote EmptyString)) =
  (mkTime (days_of_civil y mo d * 86400 + (h * 3600 + mi * 60 + s)) (u * 1000) UTC, None).
Proof.
  intros Hv Hy Hh Hmi Hs Hu.
  destruct (canonical_safe y mo d h mi s u) as (_ & Hq & Hz & Hn).
  unfold UnmarshalJSON. rewrite Trim_quoted by done. rewrite Hn, Hz.
  unfold Parse. rewrite parse_timeLayout_fields by done.
  rewrite Date_fields by (destruct Hv; lia). simpl. by rewrite Z.sub_0_r.
Qed.

Lemma unmarshal_marshal (t0 t : Time) :
  0 <= t_nsec t < 1000000000 -> 0 <= Year t <= 9999 ->
  UnmarshalJSON t0 (MarshalJSON t).1 = (mkTime (abs_local t) (t_nsec t / 1000 * 1000) UTC, None).
Proof.
  intros Hns Hy.
  destruct (MarshalJSON_canonical t Hns Hy) as (y & mo & d & h & mi & s & Hv & Hy' & Hh & Hmi & Hs & Habs & _ & Hm).
  rewrite Hm, unmarshal_canonical by (done || lia || (split; [apply Z.div_pos|apply Z.div_lt_upper_bound]; lia)).
  by rewrite Habs.
Qed.

Lemma Format_civil_time (y mo d h mi s ns : Z) :
  valid_date y mo d -> 0 <= y <= 9999 -> 0 <= h < 24 -> 0 <= mi < 60 -> 0 <= s < 60 ->
  0 <= ns < 1000000000 ->
  Format (mkTime (days_of_civil y mo d * 86400 + (h * 3600 + mi * 60 + s)) ns UTC) timeLayout =
  canonical y mo d h mi s (ns / 1000).
Proof.
  intros Hv Hy Hh Hmi Hs Hns.
  set (T := mkTime (days_of_civil y mo d * 86400 + (h * 3600 + mi * 60 + s)) ns UTC).
  assert (Habs : abs_local T = 86400 * days_of_civil y mo d + (h * 3600 + mi * 60 + s))
    by (unfold T, abs_local; simpl; lia).
  assert (Hday : abs_local T / 86400 = days_of_civil y mo d)
    by (rewrite Habs; apply Z_div_mul_add; lia).
  assert (Hsec : abs_local T mod 86400 = h * 3600 + mi * 60 + s)
    by (rewrite Habs; apply Z_mod_mul_add; lia).
  assert (HY : Year T = y) by (unfold Year; rewrite Hday, civil_of_days_of_civil by done; done).
  destruct (Format_timeLayout T) as (y' & mo' & d' & h' & mi' & s' & Ec & Ecl & _ & _ & ? & ? & ? & Hm & ->);
    [done|lia|].
  rewrite Hday, civil_of_days_of_civil in Ec by done. simplify_eq.
  assert (h' = h /\ mi' = mi /\ s' = s) as (-> & -> & ->) by lia.
  reflexivity.
Qed.

Lemma Year_mkTime_UTC (t : Time) (ns : Z) : Year (mkTime (abs_local t) ns UTC) = Year t.
Proof. unfold Year, abs_local. simpl. by rewrite Z.add_0_r. Qed.

Lemma marshal_unmarshal_marshal (t0 t : Time) :
  time_wf t -> MarshalJSON (UnmarshalJSON t0 (MarshalJSON t).1).1 = MarshalJSON t.
Proof.
  intros [Hns Hy]. rewrite unmarshal_marshal by done. simpl.
  set (t' := mkTime (abs_local t) (t_nsec t / 1000 * 1000) UTC).
  assert (Hns' : 0 <= t_nsec t' < 1000000000)
    by (simpl; split; [apply Z.mul_nonneg_nonneg; [apply Z.div_pos|]|]; Z.div_mod_to_equations; lia).
  assert (Hy' : 0 <= Year t' <= 9999) by (unfold t'; rewrite Year_mkTime_UTC; lia).
  destruct (Format_timeLayout t Hns Hy) as (y & mo & d & h & mi & s & Ec & Ecl & _ & _ & _ & _ & _ & _ & Hf).
  destruct (Format_timeLayout t' Hns' Hy') as (y' & mo' & d' & h' & mi' & s' & Ec' & Ecl' & _ & _ & _ & _ & _ & _ & Hf').
  assert (Habs : abs_local t' = abs_local t) by (unfold t', abs_local; simpl; lia).
  rewrite Habs, Ec in Ec'. rewrite Habs, Ecl in Ecl'. simplify_eq.
  unfold MarshalJSON, String_. rewrite Hf, Hf'. unfold t'. simpl t_nsec.
  by rewrite Z.div_mul.
Qed.

Lemma MarshalJSON_length (t : Time) : time_wf t -> String.length (MarshalJSON t).1 = 28%nat.
Proof.
  intros [Hns Hy].
  destruct (MarshalJSON_canonical t Hns Hy) as (y & mo & d & h & mi & s & _ & _ & _ & _ & _ & _ & _ & ->).
  unfold canonical, stamp_text. cbn [String.length].
  rewrite !str_length_app, !digits_fixed_length. reflexivity.
Qed.

Lemma UnmarshalJSON_result_wf (t0 : Time) (b : string) : time_wf (UnmarshalJSON t0 b).1.
Proof.
  unfold UnmarshalJSON. destruct (String.eqb _ _); [apply Time_zero_wf|].
  destruct (Contains _ _); unfold Parse; destruct (parse _ _) as [t|e] eqn:E; simpl;
    try apply Time_zero_wf; exact (parse_wf _ _ _ E).
Qed.

(** C1: decoding what [MarshalJSON] encodes gives the time's wall-clock
    reading, truncated to the microsecond, as a UTC instant: the zone
    offset and the sub-microsecond digits are lost. *)
Theorem UnmarshalJSON_MarshalJSON (t0 t : Time) :
  0 <= t_nsec t < 1000000000 -> 0 <= Year t <= 9999 ->
  UnmarshalJSON t0 (MarshalJSON t).1 =
  (mkTime (t_sec t + zone_offset (t_loc t)) (t_nsec t / 1000 * 1000) UTC, None).
Proof. intros Hns Hy. exact (unmarshal_marshal t0 t Hns Hy). Qed.

Lemma UnmarshalJSON_MarshalJSON_witness :
  let t := mkTime 63842326853 123456789 (FixedZone "CET" 3600) in
  (0 <= t_nsec t < 1000000000 /\ 0 <= Year t <= 9999) /\
  UnmarshalJSON Time_zero (MarshalJSON t).1 =
  (mkTime (t_sec t + zone_offset (t_loc t)) (t_nsec t / 1000 * 1000) UTC, None).
Proof.
  intros t. assert (Hy : 0 <= Year t <= 9999) by (vm_compute; split; discriminate).
  assert (Hns : 0 <= t_nsec t < 1000000000) by (simpl; lia).
  split; [split; assumption|]. exact (UnmarshalJSON_MarshalJSON Time_zero t Hns Hy).
Defined.

(** C2: a UTC time with whole microseconds and a four-digit year survives
    the JSON round trip exactly, whatever the receiver held before. *)
Theorem UnmarshalJSON_MarshalJSON_utc (t0 t : Time) :
  t_loc t = UTC -> 0 <= t_nsec t < 1000000000 -> t_nsec t mod 1000 = 0 ->
  0 <= Year t <= 9999 ->
  UnmarshalJSON t0 (MarshalJSON t).1 = (t, None).
Proof.
  intros Hloc Hns Hmod Hy. rewrite unmarshal_marshal by done.
  destruct t as [sec ns loc]. simpl in *. subst loc. unfold abs_local. simpl.
  do 2 f_equal; [lia|]. pose proof (Z.div_mod ns 1000). lia.
Qed.

Lemma UnmarshalJSON_MarshalJSON_utc_witness :
  let t := mkTime 63842326853 123456000 UTC in
  (t_loc t = UTC /\ 0 <= t_nsec t < 1000000000 /\ t_nsec t mod 1000 = 0 /\
   0 <= Year t <= 9999) /\
  UnmarshalJSON Time_zero (MarshalJSON t).1 = (t, None).
Proof.
  intros t. assert (Hy : 0 <= Year t <= 9999) by (vm_compute; split; discriminate).
  assert (Hns : 0 <= t_nsec t < 1000000000) by (simpl; lia).
  assert (Hm : t_nsec t mod 1000 = 0) by reflexivity.
  split; [repeat split; (reflexivity || lia || apply Hy)|].
  exact (UnmarshalJSON_MarshalJSON_utc Time_zero t eq_refl Hns Hm Hy).
Defined.


(** C15: for a time in any zone whose year, in that zone, is in 0..9999 and
    whose nanoseconds are in range, decoding its encoding and encoding again
    reproduces the encoding exactly. The year bound is needed: a time of
    year 10000 encodes with five year digits, which [timeLayout] does not
    parse back, so the decode stores the zero time and re-encodes as
    0001-01-01. *)
Theorem MarshalJSON_idempotent (t0 t : Time) :
  0 <= t_nsec t < 1000000000 -> 0 <= Year t <= 9999 ->
  MarshalJSON (UnmarshalJSON t0 (MarshalJSON t).1).1 = MarshalJSON t.
Proof.
  intros Hns Hy. apply marshal_unmarshal_marshal. split; assumption.
Qed.



Lemma MarshalJSON_idempotent_witness :
  let t := mkTime 63842326853 123456789 (FixedZone "CET" 3600) in
  (0 <= t_nsec t < 1000000000 /\ 0 <= Year t <= 9999) /\
  MarshalJSON (UnmarshalJSON Time_zero (MarshalJSON t).1).1 = MarshalJSON t.
Proof.
  intros t. assert (Hy : 0 <= Year t <= 9999) by (vm_compute; split; discriminate).
  assert (Hns : 0 <= t_nsec t < 1000000000) by (simpl; lia).
  split; [split; assumption|]. exact (MarshalJSON_idempotent Time_zero t Hns Hy).
Defined.

(** C5: an RFC 3339 UTC timestamp with whole seconds, the form the
    service sends (["2024-01-16T23:40:53Z"]), decodes to that instant in
    UTC, and re-encodes in the fixed layout with six zero fraction digits. *)
Theorem UnmarshalJSON_RFC3339_utc (t0 : Time) (y mo d h mi s : Z) :
  valid_date y mo d -> 0 <= y <= 9999 -> 0 <= h < 24 -> 0 <= mi < 60 -> 0 <= s < 60 ->
  UnmarshalJSON t0 (quoted (rfc3339_utc y mo d h mi s)) =
    (mkTime (days_of_civil y mo d * 86400 + (h * 3600 + mi * 60 + s)) 0 UTC, None) /\
  (MarshalJSON (mkTime (days_of_civil y mo d * 86400 + (h * 3600 + mi * 60 + s)) 0 UTC)).1 =
    quoted (canonical y mo d h mi s 0).
Proof.
  intros Hv Hy Hh Hmi Hs.
  destruct (rfc3339_utc_safe y mo d h mi s) as (Hq & Hz & Hn). split.
  - unfold UnmarshalJSON, quoted. rewrite Trim_quoted by done. rewrite Hn, Hz.
    unfold Parse. rewrite parse_rfc3339_fields by done.
    rewrite Date_fields by (destruct Hv; lia). simpl. by rewrite Z.sub_0_r.
  - unfold MarshalJSON, String_, quoted. simpl. rewrite Format_civil_time by (done || lia).
    apply Quote_safe, canonical_safe.
Qed.

Lemma UnmarshalJSON_RFC3339_utc_witness :
  (valid_date 2024 1 16 /\ 0 <= 2024 <= 9999 /\ 0 <= 23 < 24 /\ 0 <= 40 < 60 /\ 0 <= 53 < 60) /\
  UnmarshalJSON Time_zero (quoted (rfc3339_utc 2024 1 16 23 40 53)) =
    (mkTime (days_of_civil 2024 1 16 * 86400 + (23 * 3600 + 40 * 60 + 53)) 0 UTC, None) /\
  (MarshalJSON (mkTime (days_of_civil 2024 1 16 * 86400 + (23 * 3600 + 40 * 60 + 53)) 0 UTC)).1 =
    quoted (canonical 2024 1 16 23 40 53 0).
Proof.
  assert (Hv : valid_date 2024 1 16)
    by (assert (daysIn 1 2024 = 31) by reflexivity; split; lia).
  split; [split; [exact Hv|lia]|].
  apply (UnmarshalJSON_RFC3339_utc Time_zero 2024 1 16 23 40 53); (exact Hv || lia).
Defined.

(** C6: an RFC 3339 UTC timestamp with a fraction of one to nine digits
    decodes to that instant with the fraction scaled to nanoseconds, and
    re-encodes with the fraction truncated to six digits. *)
Theorem UnmarshalJSON_RFC3339_frac (t0 : Time) (y mo d h mi s : Z) (n : nat) (u : Z) :
  valid_date y mo d -> 0 <= y <= 9999 -> 0 <= h < 24 -> 0 <= mi < 60 -> 0 <= s < 60 ->
  (1 <= n <= 9)%nat -> 0 <= u < 10 ^ Z.of_nat n ->
  UnmarshalJSON t0 (quoted (rfc3339_frac_utc y mo d h mi s n u)) =
    (mkTime (days_of_civil y mo d * 86400 + (h * 3600 + mi * 60 + s))
            (u * 10 ^ Z.of_nat (9 - n)) UTC, None) /\
  (MarshalJSON (mkTime (days_of_civil y mo d * 86400 + (h * 3600 + mi * 60 + s))
                       (u * 10 ^ Z.of_nat (9 - n)) UTC)).1 =
    quoted (canonical y mo d h mi s (u * 10 ^ Z.of_nat (9 - n) / 1000)).
Proof.
  intros Hv Hy Hh Hmi Hs Hn Hu.
  assert (Hns : 0 <= u * 10 ^ Z.of_nat (9 - n) < 1000000000).
  { split; [apply Z.mul_nonneg_nonneg; [lia|apply Z.lt_le_incl, pow10_pos]|].
    replace 1000000000 with (10 ^ Z.of_nat n * 10 ^ Z.of_nat (9 - n))
      by (rewrite <- Z.pow_add_r by lia;
          replace (Z.of_nat n + Z.of_nat (9 - n)) with 9 by lia; reflexivity).
    apply Z.mul_lt_mono_pos_r; [apply pow10_pos|lia]. }
  destruct (rfc3339_frac_utc_safe y mo d h mi s n u) as (Hq & Hz & Hn'). split.
  - unfold UnmarshalJSON, quoted. rewrite Trim_quoted by done. rewrite Hn', Hz.
    unfold Parse. rewrite parse_rfc3339_frac_fields by done.
    rewrite Date_fields by (destruct Hv; lia). simpl. by rewrite Z.sub_0_r.
  - unfold MarshalJSON, String_, quoted. simpl. rewrite Format_civil_time by (done || lia).
    apply Quote_safe, canonical_safe.
Qed.

Lemma UnmarshalJSON_RFC3339_frac_witness :
  (valid_date 2024 1 16 /\ 0 <= 2024 <= 9999 /\ 0 <= 23 < 24 /\ 0 <= 40 < 60 /\ 0 <= 53 < 60 /\
   (1 <= 3 <= 9)%nat /\ 0 <= 123 < 10 ^ Z.of_nat 3) /\
  UnmarshalJSON Time_zero (quoted (rfc3339_frac_utc 2024 1 16 23 40 53 3 123)) =
    (mkTime (days_of_civil 2024 1 16 * 86400 + (23 * 3600 + 40 * 60 + 53))
            (123 * 10 ^ Z.of_nat (9 - 3)) UTC, None) /\
  (MarshalJSON (mkTime (days_of_civil 2024 1 16 * 86400 + (23 * 3600 + 40 * 60 + 53))
                       (123 * 10 ^ Z.of_nat (9 - 3)) UTC)).1 =
    quoted (canonical 2024 1 16 23 40 53 (123 * 10 ^ Z.of_nat (9 - 3) / 1000)).
Proof.
  assert (Hv : valid_date 2024 1 16)
    by (assert (daysIn 1 2024 = 31) by reflexivity; split; lia).
  assert (Hu : 0 <= 123 < 10 ^ Z.of_nat 3) by (simpl; lia).
  split; [split; [exact Hv|]; repeat split; (lia || exact Hu)|].
  apply (UnmarshalJSON_RFC3339_frac Time_zero 2024 1 16 23 40 53 3 123);
    (exact Hv || exact Hu || lia).
Defined.

(** C7: a timestamp in the fixed layout, with or without its six fraction
    digits, followed by a numeric zone offset such as ["+01:00"] (valid
    RFC 3339) is rejected: the text has no ["Z"], so [timeLayout] is tried,
    and it has no zone element; the receiver is reset to the zero time. *)
Theorem UnmarshalJSON_offset_rejected (t0 : Time) (y mo d h mi s : Z) (frac : string)
    (sign : ascii) (oh om : Z) :
  valid_date y mo d -> 0 <= y <= 9999 -> 0 <= h < 24 -> 0 <= mi < 60 -> 0 <= s < 60 ->
  (sign = "+"%char \/ sign = "-"%char) ->
  (frac = "" \/ exists u, 0 <= u < 1000000 /\ frac = String "." (digits_fixed 6 u)) ->
  (UnmarshalJSON t0 (quoted (stamp_text y mo d h mi s (frac ++ offset_text sign oh om)))).1 = Time_zero /\
  (UnmarshalJSON t0 (quoted (stamp_text y mo d h mi s (frac ++ offset_text sign oh om)))).2 <> None.
Proof.
  intros Hv Hy Hh Hmi Hs Hsign Hf.
  assert (Hq : no_byte dquote (stamp_text y mo d h mi s (frac ++ offset_text sign oh om)))
    by (apply offset_stamp_bytes; try done; vm_compute; reflexivity).
  assert (Hz : Contains (stamp_text y mo d h mi s (frac ++ offset_text sign oh om)) "Z" = false)
    by (apply Contains_byte_absent, offset_stamp_bytes; try done; vm_compute; reflexivity).
  assert (Hn : String.eqb (stamp_text y mo d h mi s (frac ++ offset_text sign oh om)) "null" = false)
    by (apply not_null_of_bytes, offset_stamp_bytes; try done; vm_compute; reflexivity).
  destruct (parse_timeLayout_offset y mo d h mi s frac sign oh om) as [e He]; try done.
  unfold UnmarshalJSON, quoted. rewrite Trim_quoted by done. rewrite Hn, Hz.
  unfold Parse. rewrite He. split; [done|discriminate].
Qed.

Lemma UnmarshalJSON_offset_rejected_witness :
  (valid_date 2024 1 16 /\ 0 <= 2024 <= 9999 /\ 0 <= 23 < 24 /\ 0 <= 40 < 60 /\ 0 <= 53 < 60 /\
   ("+"%char = "+"%char \/ "+"%char = "-"%char) /\
   ("" = "" \/ exists u, 0 <= u < 1000000 /\ "" = String "." (digits_fixed 6 u))) /\
  (UnmarshalJSON Time_zero (quoted (stamp_text 2024 1 16 23 40 53 ("" ++ offset_text "+" 1 0)))).1 = Time_zero /\
  (UnmarshalJSON Time_zero (quoted (stamp_text 2024 1 16 23 40 53 ("" ++ offset_text "+" 1 0)))).2 <> None.
Proof.
  assert (Hv : valid_date 2024 1 16)
    by (assert (daysIn 1 2024 = 31) by reflexivity; split; lia).
  assert (Hsg : "+"%char = "+"%char \/ "+"%char = "-"%char) by (left; reflexivity).
  assert (Hf : "" = "" \/ exists u, 0 <= u < 1000000 /\ "" = String "." (digits_fixed 6 u))
    by (left; reflexivity).
  split; [split; [exact Hv|]; split; [lia|]; split; [lia|]; split; [lia|]; split; [lia|];
          split; [exact Hsg|exact Hf]|].
  apply (UnmarshalJSON_offset_rejected Time_zero 2024 1 16 23 40 53 "" "+" 1 0);
    (exact Hv || exact Hsg || exact Hf || lia).
Defined.

(** C21: every decoding error carries the trimmed text it was given and
    the layout that was attempted ([time.RFC3339] when the text contains
    ["Z"], [timeLayout] otherwise), as the error taxonomy of the
    specification requires. *)
Theorem UnmarshalJSON_error_fields (t : Time) (b : string) (e : ParseError) :
  (UnmarshalJSON t b).2 = Some e ->
  pe_Value e = Trim b (String dquote EmptyString) /\
  pe_Layout e = layout_string (if Contains (Trim b (String dquote EmptyString)) "Z"
                               then RFC3339 else timeLayout).
Proof.
  unfold UnmarshalJSON. destruct (String.eqb _ _); [done|].
  destruct (Contains _ _); unfold Parse; destruct (parse _ _) eqn:E; simpl; intros H; invc H;
    destruct (parse_err_fields _ _ _ E); done.
Qed.

Lemma UnmarshalJSON_error_fields_witness :
  (UnmarshalJSON (mkTime 42 7 UTC) (quoted "not-a-date")).2 =
    Some (mkParseError "2006-01-02T15:04:05.000000" "not-a-date" "2006" "not-a-date" "") /\
  pe_Value (mkParseError "2006-01-02T15:04:05.000000" "not-a-date" "2006" "not-a-date" "") =
    Trim (quoted "not-a-date") (String dquote EmptyString) /\
  pe_Layout (mkParseError "2006-01-02T15:04:05.000000" "not-a-date" "2006" "not-a-date" "") =
    layout_string (if Contains (Trim (quoted "not-a-date") (String dquote EmptyString)) "Z"
                   then RFC3339 else timeLayout).
Proof.
  assert (H : (UnmarshalJSON (mkTime 42 7 UTC) (quoted "not-a-date")).2 =
    Some (mkParseError "2006-01-02T15:04:05.000000" "not-a-date" "2006" "not-a-date" ""))
    by (vm_compute; reflexivity).
  split; [exact H|]. exact (UnmarshalJSON_error_fields _ _ _ H).
Defined.

(** C4: every value [UnmarshalJSON] stores, on success or on error, is a
    well-formed time: nanoseconds in [0, 10^9) and a year in 0..9999, since
    Go's [parse] reads a four-digit year, range-checks every field and
    normalises through [Date]. *)
Theorem UnmarshalJSON_wf (t0 : Time) (b : string) : time_wf (UnmarshalJSON t0 b).1.
Proof. apply UnmarshalJSON_result_wf. Qed.

(** C3: for every input, decoding the encoding of the decoded value and
    encoding again gives the same text: the canonical form is reached after
    one decode, whatever was decoded and whatever the receivers held. *)
Theorem UnmarshalJSON_reencode_stable (t0 t1 : Time) (b : string) :
  MarshalJSON (UnmarshalJSON t1 (MarshalJSON (UnmarshalJSON t0 b).1).1).1 =
  MarshalJSON (UnmarshalJSON t0 b).1.
Proof. apply marshal_unmarshal_marshal, UnmarshalJSON_result_wf. Qed.

(** C16: the encoding of any decoded value is exactly 28 bytes: the 26
    bytes of [timeLayout] with a four-digit year, between two quotes. *)
Theorem MarshalJSON_decoded_length (t0 : Time) (b : string) :
  String.length (MarshalJSON (UnmarshalJSON t0 b).1).1 = 28%nat.
Proof. apply MarshalJSON_length, UnmarshalJSON_result_wf. Qed.

(** C20: when decoding fails, the receiver is overwritten with the zero time
    (Go's [time.Parse] returns [Time{}] with its error and the code stores it). *)
Theorem UnmarshalJSON_error_resets (t : Time) (b : string) :
  (UnmarshalJSON t b).2 <> None -> (UnmarshalJSON t b).1 = Time_zero.
Proof.
  unfold UnmarshalJSON. destruct (String.eqb _ _); [done|].
  destruct (Contains _ _); unfold Parse; destruct (parse _ _); simpl; done.
Qed.

Lemma UnmarshalJSON_error_resets_witness :
  (UnmarshalJSON (mkTime 42 7 UTC) (quoted "not-a-date")).2 <> None /\
  (UnmarshalJSON (mkTime 42 7 UTC) (quoted "not-a-date")).1 = Time_zero.
Proof.
  assert (H : (UnmarshalJSON (mkTime 42 7 UTC) (quoted "not-a-date")).2 <> None)
    by (vm_compute; discriminate).
  split; [exact H|]. exact (UnmarshalJSON_error_resets _ _ H).
Defined.

End Timestamp.
