(* ===== verification/Types.v ===== *)
(** * Package ecosystems and dependencies (src/pkg/types/types.go)

    [Ecosystem] is a Go [int32]; its values are integers ([Z]) and the five
    named constants. [Ecosystems] is the package-level map from constant
    names to values, modelled as a [gmap string Z]. [AsString] is the
    display-name switch with its empty-string default. [Dependency] is the
    struct the dependency helpers (Differ.v) consume. *)
From S2P Require Import Prelude.

Open Scope string_scope.

Module Types.

(** [type Ecosystem int32] *)
Definition Ecosystem := Z.

Definition int32_min : Z := - 2 ^ 31.
Definition int32_max : Z := 2 ^ 31 - 1.

(** [type Dependency struct { Name, Version string; Ecosystem Ecosystem }] *)
Record Dependency := mkDependency {
  Name : string;
  Version : string;
  DepEcosystem : Ecosystem
}.

Definition EcosystemNpm : Ecosystem := 1%Z.
Definition EcosystemGo : Ecosystem := 2%Z.
Definition EcosystemPypi : Ecosystem := 3%Z.
Definition EcosystemMaven : Ecosystem := 4%Z.
Definition EcosystemCrates : Ecosystem := 5%Z.

(** [var Ecosystems = map[string]Ecosystem{...}] *)
Definition Ecosystems : gmap string Ecosystem :=
  list_to_map [("EcosystemNpm", EcosystemNpm); ("EcosystemGo", EcosystemGo);
               ("EcosystemPypi", EcosystemPypi); ("EcosystemMaven", EcosystemMaven);
               ("EcosystemCrates", EcosystemCrates)].

(** [func (ecosystem Ecosystem) AsString() string]: the cases are tried in
    order, and any other value falls to the [default] arm. *)
Definition AsString (ecosystem : Ecosystem) : string :=
  if Z.eqb ecosystem EcosystemNpm then "npm"
  else if Z.eqb ecosystem EcosystemGo then "Go"
  else if Z.eqb ecosystem EcosystemPypi then "PyPI"
  else if Z.eqb ecosystem EcosystemMaven then "Maven"
  else if Z.eqb ecosystem EcosystemCrates then "crates"
  else "".

(** ** Lemmas *)

Definition known_ecosystems : list Ecosystem :=
  [EcosystemNpm; EcosystemGo; EcosystemPypi; EcosystemMaven; EcosystemCrates].

Lemma AsString_cases (e : Ecosystem) :
  ((e ∈ known_ecosystems) /\ AsString e <> "") \/
  ((e ∉ known_ecosystems) /\ AsString e = "").
Proof.
  unfold AsString, known_ecosystems, EcosystemNpm, EcosystemGo, EcosystemPypi,
    EcosystemMaven, EcosystemCrates.
  destruct (Z.eqb_spec e 1) as [->|H1]; [left; split; [set_solver|done]|].
  destruct (Z.eqb_spec e 2) as [->|H2]; [left; split; [set_solver|done]|].
  destruct (Z.eqb_spec e 3) as [->|H3]; [left; split; [set_solver|done]|].
  destruct (Z.eqb_spec e 4) as [->|H4]; [left; split; [set_solver|done]|].
  destruct (Z.eqb_spec e 5) as [->|H5]; [left; split; [set_solver|done]|].
  right. split; [|done]. rewrite !elem_of_cons, elem_of_nil. naive_solver.
Qed.

Lemma Ecosystems_lookup (name : string) (e : Ecosystem) :
  Ecosystems !! name = Some e -> e ∈ known_ecosystems.
Proof.
  unfold Ecosystems. intros H%elem_of_list_to_map_2. unfold known_ecosystems.
  apply list_elem_of_In in H. apply list_elem_of_In. simpl in H |- *.
  naive_solver.
Qed.

Lemma Ecosystems_complete (e : Ecosystem) :
  e ∈ known_ecosystems -> exists name, Ecosystems !! name = Some e.
Proof.
  unfold known_ecosystems. rewrite !elem_of_cons, elem_of_nil.
  intros [->|[->|[->|[->|[->|[]]]]]];
    [exists "EcosystemNpm" | exists "EcosystemGo" | exists "EcosystemPypi"
    | exists "EcosystemMaven" | exists "EcosystemCrates"]; reflexivity.
Qed.

(** C19: [AsString] names exactly the ecosystems that the [Ecosystems] table
    enumerates; every other value gets the empty string, not an error. *)
Theorem AsString_empty_iff_unlisted (e : Ecosystem) :
  AsString e = "" <-> forall name, Ecosystems !! name <> Some e.
Proof.
  destruct (AsString_cases e) as [[Hin Hs]|[Hout Hs]]; split; intros H.
  - done.
  - destruct (Ecosystems_complete e Hin) as [name Hn]. by destruct (H name).
  - intros name Hn. by apply Hout, (Ecosystems_lookup name).
  - done.
Qed.

Lemma known_ecosystems_cases (e : Ecosystem) :
  e ∈ known_ecosystems -> e = 1%Z \/ e = 2%Z \/ e = 3%Z \/ e = 4%Z \/ e = 5%Z.
Proof. intros H%list_elem_of_In. simpl in H. naive_solver. Qed.

(** C23: two ecosystems with the same non-empty display name are the same
    ecosystem: [AsString] is injective where it does not fall back to [""]. *)
Theorem AsString_injective (e1 e2 : Ecosystem) :
  AsString e1 = AsString e2 -> AsString e1 <> "" -> e1 = e2.
Proof.
  intros Heq Hne.
  destruct (AsString_cases e1) as [[Hin1 _]|[_ Hs1]]; [|done].
  destruct (AsString_cases e2) as [[Hin2 _]|[_ Hs2]]; [|by rewrite Hs2 in Heq].
  apply known_ecosystems_cases in Hin1, Hin2.
  destruct Hin1 as [-> | [-> | [-> | [-> | -> ] ] ] ];
    destruct Hin2 as [-> | [-> | [-> | [-> | -> ] ] ] ];
    done.
Qed.

Lemma AsString_injective_witness :
  AsString 3%Z = AsString 3%Z /\ AsString 3%Z <> "" /\ (3 = 3)%Z.
Proof.
  split; [reflexivity|]. split; [discriminate|].
  apply (AsString_injective 3%Z 3%Z); [reflexivity|discriminate].
Defined.

(** The display names the spec lists: [3] is ["PyPI"], [99] is [""]. *)
Example AsString_examples : AsString 3%Z = "PyPI" /\ AsString 99%Z = "".
Proof. split; reflexivity. Qed.

End Types.
