(* ===== verification/Differ.v ===== *)
(** * Dependency set differ (src/pkg/types/types.go, lines 73-91)

    [ConvertDepsToMap] folds a dependency slice into a Go
    [map[string]string] ([gmap string string]), last write winning.
    [DiffDependencies] ranges over [newDeps] and copies the entries whose
    name is absent from [oldDeps]. Go visits a map in an unspecified order,
    so the loop is modelled for an arbitrary enumeration [order] of the map
    ([DiffDependencies_loop]), and [DiffDependencies] runs it in
    [map_to_list] order; [DiffDependencies_any_order] shows the order does
    not matter.

    The contract the two helpers promise their clients is the class
    [DependencyDifferLaws]; the clients' theorems (section [Clients]) are
    proved from the contract alone, and the instance [go_differ_laws]
    discharges it for the Go code. *)
From S2P Require Import Prelude Types.

Open Scope string_scope.

Module Differ.
Import Types.

(** ** The code *)

(** [func ConvertDepsToMap(deps []Dependency) map[string]string] *)
Definition ConvertDepsToMap (deps : list Dependency) : gmap string string :=
  foldl (fun depMap dep => <[Name dep := Version dep]> depMap) ∅ deps.

(** One iteration of [for dep, version := range newDeps]. *)
Definition diff_step (oldDeps addedDeps : gmap string string)
    (entry : string * string) : gmap string string :=
  let '(dep, version) := entry in
  match oldDeps !! dep with
  | Some _ => addedDeps
  | None => <[dep := version]> addedDeps
  end.

(** The loop, visiting the entries of [newDeps] in the order [order]. *)
Definition DiffDependencies_loop (oldDeps : gmap string string)
    (order : list (string * string)) : gmap string string :=
  foldl (diff_step oldDeps) ∅ order.

(** [func DiffDependencies(oldDeps, newDeps map[string]string) map[string]string] *)
Definition DiffDependencies (oldDeps newDeps : gmap string string) : gmap string string :=
  DiffDependencies_loop oldDeps (map_to_list newDeps).

(** ** The contract *)

(** The version a dependency list gives a name: that of its last entry
    with the name. *)
Definition last_version (deps : list Dependency) (k : string) : option string :=
  Version <$> last (filter (fun d => Name d = k) deps).

(** The entries of [newDeps] whose name [oldDeps] lacks. *)
Definition added_entries (oldDeps newDeps : gmap string string) : gmap string string :=
  filter (fun kv => oldDeps !! kv.1 = None) newDeps.

Class DependencyDiffer := {
  dd_mapping : list Dependency -> gmap string string;
  dd_added : gmap string string -> gmap string string -> gmap string string
}.

Class DependencyDifferLaws `{DependencyDiffer} := {
  dd_mapping_lookup deps k : dd_mapping deps !! k = last_version deps k;
  dd_added_spec oldDeps newDeps : dd_added oldDeps newDeps = added_entries oldDeps newDeps
}.

(** ** Lemmas on the code *)

Lemma ConvertDepsToMap_fold_lookup (deps : list Dependency) (m : gmap string string) (k : string) :
  foldl (fun depMap dep => <[Name dep := Version dep]> depMap) m deps !! k =
  match last (filter (fun d => Name d = k) deps) with
  | Some d => Some (Version d)
  | None => m !! k
  end.
Proof.
  induction deps as [|d deps IH] using rev_ind; [done|].
  rewrite foldl_app, filter_app. cbn [foldl].
  destruct (decide (Name d = k)) as [<-|Hne].
  - rewrite filter_cons_True, filter_nil, last_snoc by done.
    by rewrite lookup_insert_eq.
  - rewrite filter_cons_False, filter_nil, app_nil_r by done.
    by rewrite lookup_insert_ne.
Qed.

Lemma diff_loop_lookup (oldDeps acc : gmap string string) (l : list (string * string)) (k : string) :
  NoDup l.*1 ->
  foldl (diff_step oldDeps) acc l !! k =
  match (list_to_map l : gmap string string) !! k with
  | Some v => if oldDeps !! k is Some _ then acc !! k else Some v
  | None => acc !! k
  end.
Proof.
  revert acc. induction l as [|[k' v'] l IH]; intros acc Hnd; [done|].
  simpl in Hnd. apply NoDup_cons in Hnd as [Hk' Hnd].
  simpl. rewrite IH by done. unfold diff_step.
  destruct (decide (k = k')) as [->|Hne].
  - rewrite lookup_insert_eq.
    rewrite (proj1 (not_elem_of_list_to_map l k') Hk').
    destruct (oldDeps !! k'); [done|]. by rewrite lookup_insert_eq.
  - rewrite lookup_insert_ne by congruence.
    destruct (oldDeps !! k'); [done|].
    rewrite !(lookup_insert_ne _ k' k) by congruence. done.
Qed.

#[export] Hint Resolve NoDup_fst_map_to_list : trusty.

Lemma diff_loop_perm_lookup (oldDeps newDeps : gmap string string)
    (order : list (string * string)) (k : string) :
  order ≡ₚ map_to_list newDeps ->
  DiffDependencies_loop oldDeps order !! k = added_entries oldDeps newDeps !! k.
Proof.
  intros Hperm.
  assert (Hnd : NoDup order.*1)
    by (rewrite Hperm; apply NoDup_fst_map_to_list).
  unfold DiffDependencies_loop. rewrite diff_loop_lookup by done.
  rewrite (list_to_map_proper order (map_to_list newDeps)) by done.
  rewrite list_to_map_to_list. unfold added_entries. rewrite map_lookup_filter.
  destruct (newDeps !! k) as [v|]; simpl; [|done].
  destruct (oldDeps !! k); simpl; [apply lookup_empty|done].
Qed.

#[export] Instance go_differ : DependencyDiffer := {|
  dd_mapping := ConvertDepsToMap;
  dd_added := DiffDependencies
|}.

#[export] Instance go_differ_laws : DependencyDifferLaws.
Proof.
  constructor.
  - intros deps k. change (ConvertDepsToMap deps !! k = last_version deps k).
    unfold ConvertDepsToMap, last_version.
    rewrite ConvertDepsToMap_fold_lookup. by destruct (last _).
  - intros oldDeps newDeps. apply map_eq. intros k. by apply diff_loop_perm_lookup.
Qed.

(** ** Refinement of the contract *)

(** C14: whatever order Go's [range] visits [newDeps] in, the loop of
    [DiffDependencies] returns exactly the entries of [newDeps] whose name is
    absent from [oldDeps]. *)
Theorem DiffDependencies_any_order (oldDeps newDeps : gmap string string)
    (order : list (string * string)) :
  order ≡ₚ map_to_list newDeps ->
  DiffDependencies_loop oldDeps order = added_entries oldDeps newDeps.
Proof. intros Hperm. apply map_eq. intros k. by apply diff_loop_perm_lookup. Qed.

Lemma DiffDependencies_any_order_witness :
  let old : gmap string string := {[ "a" := "1" ]} in
  let new : gmap string string := {[ "a" := "2"; "b" := "1" ]} in
  map_to_list new ≡ₚ map_to_list new /\
  DiffDependencies_loop old (map_to_list new) = added_entries old new.
Proof.
  intros old new. split; [reflexivity|].
  apply (DiffDependencies_any_order old new). reflexivity.
Defined.

(** C13: [ConvertDepsToMap] maps each name to the version of the last
    dependency with that name (last write wins) and has no other keys. *)
Theorem ConvertDepsToMap_lookup (deps : list Dependency) (k : string) :
  ConvertDepsToMap deps !! k = last_version deps k.
Proof.
  unfold ConvertDepsToMap, last_version. rewrite ConvertDepsToMap_fold_lookup.
  by destruct (last _).
Qed.

(** ** Clients of the contract *)

Section Clients.
Context `{DependencyDifferLaws}.

Lemma dd_added_lookup (oldDeps newDeps : gmap string string) (k : string) :
  dd_added oldDeps newDeps !! k =
  match oldDeps !! k with Some _ => None | None => newDeps !! k end.
Proof.
  rewrite dd_added_spec. unfold added_entries.
  destruct (oldDeps !! k) eqn:Eo.
  - apply map_lookup_filter_None. right. intros x _ Hx. simpl in Hx. congruence.
  - destruct (newDeps !! k) eqn:En.
    + by apply map_lookup_filter_Some.
    + apply map_lookup_filter_None. by left.
Qed.

Lemma dd_new_dependency (before after : list Dependency) (k v : string) :
  dd_added (dd_mapping before) (dd_mapping after) !! k = Some v <->
  last_version before k = None /\ last_version after k = Some v.
Proof.
  rewrite dd_added_lookup, !dd_mapping_lookup.
  destruct (last_version before k); naive_solver.
Qed.

End Clients.

(** ** Properties of the Go helpers *)

(** C12: a name is in [DiffDependencies oldDeps newDeps] iff it is absent from
    [oldDeps], with its [newDeps] version; a name present in both maps is not
    reported, whatever its versions. *)
Theorem DiffDependencies_lookup (oldDeps newDeps : gmap string string) (k : string) :
  DiffDependencies oldDeps newDeps !! k =
  match oldDeps !! k with Some _ => None | None => newDeps !! k end.
Proof. exact (dd_added_lookup oldDeps newDeps k). Qed.

(** C18: diffing the maps of two dependency snapshots reports a name with
    version [v] exactly when no dependency of [before] has the name and the
    last dependency of [after] with the name has version [v]. *)
Theorem new_dependency_reported (before after : list Dependency) (k v : string) :
  DiffDependencies (ConvertDepsToMap before) (ConvertDepsToMap after) !! k = Some v <->
  last_version before k = None /\ last_version after k = Some v.
Proof. exact (dd_new_dependency before after k v). Qed.

(** C24: [ConvertDepsToMap] ignores the ecosystem: dependencies of different
    ecosystems with one name collide on one key. *)
Theorem ConvertDepsToMap_ecosystem_blind (deps : list Dependency) (eco : list Ecosystem) :
  List.length eco = List.length deps ->
  ConvertDepsToMap (zip_with (fun d e => mkDependency (Name d) (Version d) e) deps eco) =
  ConvertDepsToMap deps.
Proof.
  unfold ConvertDepsToMap. generalize (∅ : gmap string string) as m.
  revert eco. induction deps as [|d deps IH]; intros [|e eco] Hlen m; try done.
  simpl in *. apply IH. lia.
Qed.

Lemma ConvertDepsToMap_ecosystem_blind_witness :
  List.length [1%Z; 2%Z] = List.length [mkDependency "a" "1" 1; mkDependency "a" "2" 3] /\
  ConvertDepsToMap (zip_with (fun d e => mkDependency (Name d) (Version d) e)
    [mkDependency "a" "1" 1; mkDependency "a" "2" 3] [1%Z; 2%Z]) =
  ConvertDepsToMap [mkDependency "a" "1" 1; mkDependency "a" "2" 3].
Proof.
  split; [reflexivity|]. apply ConvertDepsToMap_ecosystem_blind. reflexivity.
Defined.

End Differ.
