(* ===== verification/Schema.v ===== *)
(** * The response schema (src/pkg/types/response.go, lines 49-256)

    The structs of the package-report reply as records, field by field in
    the source's order: a Go [string] is a [string], [int] is [Z], [bool] is
    [bool], [float64] is an IEEE-754 value ([spec_float]), a pointer [*T] is
    [option T] (nil is [None]), a slice is a [list], [map[string]any] is an
    association list of decoded JSON values, and [*Time] is an optional
    timestamp of Timestamp.v. Each struct's JSON keys, read from its tags,
    are listed beside it ([PackageNameURL] has no tag, so encoding/json uses
    the field name). The named string constants are definitions. *)
From Stdlib Require Import SpecFloat.
From S2P Require Import Prelude Timestamp.

Open Scope string_scope.

Module Schema.

(** [float64] *)
Definition float64 := spec_float.

(** [any], as encoding/json decodes it into an interface value. *)
Inductive any :=
| AnyNull
| AnyBool (b : bool)
| AnyNumber (f : float64)
| AnyString (s : string)
| AnyArray (xs : list any)
| AnyObject (kvs : list (string * any)).

(** [Status*] constants *)
Definition StatusPending : string := "pending".
Definition StatusInProgress : string := "in_progress".
Definition StatusComplete : string := "complete".

Record ActivityDescription := mkActivityDescription {
  ad_Repository : float64;
  ad_User : float64
}.

Record Activity := mkActivity {
  act_Score : float64;
  act_Description : ActivityDescription;
  act_UpdatedAt : option Timestamp.Time
}.

Record TyposquattingDescription := mkTyposquattingDescription {
  td_TotalSimilarNames : Z
}.

Record Typosquatting := mkTyposquatting {
  ty_Score : float64;
  ty_Description : TyposquattingDescription;
  ty_UpdatedAt : option Timestamp.Time
}.

Record HistoricalProvenance := mkHistoricalProvenance {
  hp_Tags : float64;
  hp_Common : float64;
  hp_Overlap : float64;
  hp_Versions : float64;
  hp_OverTime : list (string * any)
}.

Record SigstoreProvenance := mkSigstoreProvenance {
  sp_Issuer : string;
  sp_Workflow : string;
  sp_SourceRepository : string;
  sp_TokenIssuer : string;
  sp_Transparency : string
}.

Record ProvenanceDescription := mkProvenanceDescription {
  pd_Historical : HistoricalProvenance;
  pd_Sigstore : SigstoreProvenance
}.

Record Provenance := mkProvenance {
  pr_Score : float64;
  pr_Description : ProvenanceDescription;
  pr_UpdatedAt : option Timestamp.Time
}.

Record Alternative := mkAlternative {
  alt_ID : string;
  alt_IsMalicious : bool;
  alt_PackageName : string;
  alt_PackageType : string;
  alt_PackageVersion : string;
  alt_Score : float64;
  alt_PackageNameURL : string;
  alt_RepoDescription : string;
  alt_Provenance : option Provenance
}.

Record AlternativesList := mkAlternativesList {
  al_Status : string;
  al_Packages : list Alternative
}.

Record ScoreSummary := mkScoreSummary {
  ss_Score : option float64;
  ss_Description : list (string * any);
  ss_UpdatedAt : option Timestamp.Time
}.

(** [SummaryKey*] constants: the keys of [ScoreSummary.Description]. *)
Definition SummaryKeyActivity : string := "activity".
Definition SummaryKeyActivityRepo : string := "activity_repo".
Definition SummaryKeyActivityUser : string := "activity_user".
Definition SummaryKeyFrom : string := "from".
Definition SummaryKeyMalicious : string := "malicious".
Definition SummaryKeyProvenance : string := "provenance".
Definition SummaryKeyTrustSummary : string := "trust-summary".
Definition SummaryKeyTyposquatting : string := "typosquatting".

Record ScoreSummaryDescription := mkScoreSummaryDescription {
  ssd_Activity : float64;
  ssd_ActivityRepo : float64;
  ssd_ActivityUser : float64;
  ssd_From : string;
  ssd_Malicious : bool;
  ssd_Provenance : float64;
  ssd_TrustSummary : float64;
  ssd_Typosquatting : float64
}.

Record User := mkUser {
  u_Author : string;
  u_AuthorEmail : string;
  u_AvatarURL : string;
  u_Blog : option string;
  u_Company : option string;
  u_Email : string;
  u_Followers : Z;
  u_Following : Z;
  u_GravatarID : string;
  u_Hireable : bool;
  u_HtmlURL : option string;
  u_ID : string;
  u_Location : option string;
  u_Login : string;
  u_PublicGists : option Z;
  u_PublicRepos : Z;
  u_Scores : list (string * any);
  u_TwitterUsername : option string;
  u_URL : string
}.

Record MaliciousData := mkMaliciousData {
  md_Summary : string;
  md_Details : string;
  md_Published : option Timestamp.Time;
  md_Modified : option Timestamp.Time;
  md_Source : string
}.

Record PackageData := mkPackageData {
  pkg_Archived : bool;
  pkg_Author : string;
  pkg_AuthorEmail : string;
  pkg_ContributorCount : Z;
  pkg_Contributors : list User;
  pkg_DefaultBranch : string;
  pkg_Disabled : bool;
  pkg_Followers : Z;
  pkg_Following : Z;
  pkg_ForksCount : Z;
  pkg_HasDownloads : bool;
  pkg_HasIssues : bool;
  pkg_HasProjects : bool;
  pkg_HomePage : option string;
  pkg_ID : string;
  pkg_Deprecated : bool;
  pkg_LastUpdate : option Timestamp.Time;
  pkg_Malicious : option MaliciousData;
  pkg_Name : string;
  pkg_OpenIssuesCount : Z;
  pkg_Origin : string;
  pkg_Owner : User;
  pkg_PackageDescription : string;
  pkg_PublicGists : Z;
  pkg_PublicRepos : Z;
  pkg_RepoDescription : string;
  pkg_RepositoryID : string;
  pkg_RepositoryName : string;
  pkg_Scores : list (string * any);
  pkg_StargazersCount : Z;
  pkg_Status : string;
  pkg_StatusCode : option string;
  pkg_Type : string;
  pkg_Version : string;
  pkg_VersionDate : option Timestamp.Time;
  pkg_Visibility : string;
  pkg_WatchersCount : Z
}.

Definition OriginOK : string := "ok".
Definition VisibilityPublic : string := "public".
Definition VisibilityPrivate : string := "private".

Record Reply := mkReply {
  r_PackageName : string;
  r_PackageType : string;
  r_PackageVersion : string;
  r_Status : string;
  r_Summary : ScoreSummary;
  r_Provenance : option Provenance;
  r_Activity : option Activity;
  r_Typosquatting : option Typosquatting;
  r_Alternatives : AlternativesList;
  r_PackageData : PackageData;
  r_SameOriginPackagesCount : Z;
  r_SimilarPackageNames : list Alternative
}.

(** ** JSON keys, from the struct tags *)

Definition Reply_keys : list string :=
  ["package_name"; "package_type"; "package_version"; "status"; "summary"; "provenance";
   "activity"; "typosquatting"; "alternatives"; "package_data";
   "same_origin_packages_count"; "similar_package_names"].
Definition Activity_keys : list string := ["score"; "description"; "updated_at"].
Definition ActivityDescription_keys : list string := ["repo"; "user"].
Definition Typosquatting_keys : list string := ["score"; "description"; "updated_at"].
Definition TyposquattingDescription_keys : list string := ["total_similar_names"].
Definition Alternative_keys : list string :=
  ["id"; "is_malicious"; "package_name"; "package_type"; "package_version"; "score";
   "PackageNameURL"; "repo_description"; "provenance"].
Definition AlternativesList_keys : list string := ["status"; "packages"].
Definition ScoreSummary_keys : list string := ["score"; "description"; "updated_at"].
Definition ScoreSummaryDescription_keys : list string :=
  ["activity"; "activity_repo"; "activity_user"; "from"; "malicious"; "provenance";
   "trust-summary"; "typosquatting"].
Definition PackageData_keys : list string :=
  ["archived"; "author"; "author_email"; "contributor_count"; "contributors";
   "default_branch"; "disabled"; "followers"; "following"; "forks_count"; "has_downloads";
   "has_issues"; "has_projects"; "home_page"; "id"; "is_deprecated"; "last_update";
   "malicious"; "name"; "open_issues_count"; "origin"; "owner"; "package_description";
   "public_gists"; "public_repos"; "repo_description"; "repository_id"; "repository_name";
   "scores"; "stargazers_count"; "status"; "status_code"; "type"; "version";
   "version_date"; "visibility"; "watchers_count"].
Definition User_keys : list string :=
  ["author"; "author_email"; "avatar_url"; "blog"; "company"; "email"; "followers";
   "following"; "gravatar_id"; "hireable"; "html_url"; "id"; "location"; "login";
   "public_gists"; "public_repos"; "scores"; "twitter_username"; "url"].
Definition MaliciousData_keys : list string :=
  ["summary"; "details"; "published"; "modified"; "source"].
Definition Provenance_keys : list string := ["score"; "description"; "updated_at"].
Definition ProvenanceDescription_keys : list string := ["hp"; "sigstore"].
Definition HistoricalProvenance_keys : list string :=
  ["tags"; "common"; "overlap"; "versions"; "over_time"].
Definition SigstoreProvenance_keys : list string :=
  ["issuer"; "workflow"; "source_repo"; "token_issuer"; "transparency"].

End Schema.
