(* ===== verification/JsonDecode.v ===== *)
(** * encoding/json filling the schema's timestamp fields

    Every timestamp of the response schema is a [*Time] field, so the codec
    of response.go lines 17-47 is only ever called by encoding/json's
    decoder. This file models that composition for [MaliciousData]
    (response.go lines 216-223: two strings, two [*Time], a string), the
    struct whose every field is a string or a timestamp:
    - [json]: a JSON value as the decoder scans it, with [json_text] its
      compact text, the bytes an [Unmarshaler] receives;
    - [Unmarshaler]: the [json.Unmarshaler] interface as a class, with the
      codec's [UnmarshalJSON] as the instance for [Time];
    - [decode_ptr]: a pointer field whose element type implements
      [Unmarshaler] (json's [indirect] and [literalStore]): [null] sets the
      pointer to nil without calling the method; any other value allocates
      the element if the pointer is nil and calls [UnmarshalJSON] on it
      with the value's text;
    - [decode_string]: a string field: a string sets it, [null] leaves it,
      another value is an [UnmarshalTypeError] that is saved while decoding
      goes on;
    - [lookup_field]: the field a key selects, by exact name and then by
      ASCII case folding ([foldName]);
    - [MaliciousData_member], [decode_members], [Unmarshal_MaliciousData]:
      json's [object] loop over the members in order; an error of an
      [Unmarshaler] aborts it at once, the first saved error is returned
      at the end;
    - [Marshal_MaliciousData]: [json.Marshal] of the struct, fields in
      order under their tags, a nil pointer as [null], a string coerced to
      valid UTF-8 ([utf8_coerce]: each byte that starts no valid sequence
      becomes U+FFFD);
    - [MaliciousData_spec]: the abstract contract of the member loop, each
      field decided by the last member selecting it ([last_member]), which
      [decode_members] refines ([decode_members_refines]).

    A [JString] holds a string as the decoder hands it over, after its
    unquoting (which itself coerces invalid UTF-8), so the text of a string
    value is the string between quotes: exact for strings without a quote,
    a backslash or a control byte, which covers every timestamp the codec
    prints or accepts. Keys are folded byte by byte (ASCII); the
    Unicode folds of [foldName] are not modelled. The receiver's two
    pointers are taken to be distinct objects (nil, or allocated apart), as
    in a freshly declared struct; the theorems state it where they need it. *)
From S2P Require Import Prelude GoStrings Calendar GoTime TimeWf Timestamp Schema.

Open Scope string_scope.

Module JsonDecode.
Import GoStrings GoTime TimeWf Timestamp Schema.

(** ** JSON values *)

Inductive json :=
| JNull
| JBool (b : bool)
| JNumber (text : string)
| JString (s : string)
| JArray (xs : list json)
| JObject (kvs : list (string * json)).

(** The compact text of a value: the bytes encoding/json passes to an
    [Unmarshaler] (strings without characters to escape). *)
Fixpoint json_text (v : json) : string :=
  match v with
  | JNull => "null"
  | JBool b => if b then "true" else "false"
  | JNumber t => t
  | JString s => quoted s
  | JArray xs => "[" ++ String.concat "," (List.map json_text xs) ++ "]"
  | JObject kvs =>
      "{" ++ String.concat "," (List.map (fun kv => quoted kv.1 ++ ":" ++ json_text kv.2) kvs)
      ++ "}"
  end.

(** ** The [json.Unmarshaler] interface *)

Class Unmarshaler (T E : Type) := unmarshalJSON : T -> string -> T * option E.

(** [func (t *Time) UnmarshalJSON(b []byte) (err error)] implements it. *)
#[export] Instance Time_Unmarshaler : Unmarshaler Time ParseError := UnmarshalJSON.

(** The errors [json.Unmarshal] returns here. *)
Inductive decode_error :=
| UnmarshalerError (e : ParseError)
| UnmarshalTypeError (field : string).

(** The decoder after one member: going on with the saved error, or
    stopped by an error. *)
Inductive step_out :=
| Continue (saved : option decode_error)
| Abort (e : decode_error).

(** [d.saveError]: keep the first error only. *)
Definition save_error (saved : option decode_error) (e : decode_error) : option decode_error :=
  match saved with
  | Some _ => saved
  | None => Some e
  end.

Section Pointer.
Context {T E : Type} `{Unmarshaler T E}.

(** A [*T] field, [T] an [Unmarshaler]; [zero] is [T]'s zero value,
    which [reflect.New] allocates. *)
Definition decode_ptr (zero : T) (cur : option T) (v : json) : option T * option E :=
  match v with
  | JNull => (None, None)
  | _ =>
      let '(t, err) := unmarshalJSON (default zero cur) (json_text v) in
      (Some t, err)
  end.

End Pointer.

(** A [string] field: the new value, and whether it is a type error. *)
Definition decode_string (cur : string) (v : json) : string * bool :=
  match v with
  | JString s => (s, false)
  | JNull => (cur, false)
  | _ => (cur, true)
  end.

(** ** Field lookup *)

(** [foldName] on ASCII: lower-case letters to upper case. *)
Definition ascii_upper (c : ascii) : ascii :=
  let n := nat_of_ascii c in
  if (97 <=? n)%nat && (n <=? 122)%nat then ascii_of_nat (n - 32) else c.

Definition fold_name (s : string) : string :=
  string_of_list_ascii (List.map ascii_upper (list_ascii_of_string s)).

Fixpoint index_of (p : string -> bool) (ks : list string) : option nat :=
  match ks with
  | [] => None
  | k :: ks => if p k then Some 0%nat else option_map S (index_of p ks)
  end.

(** [fields.byExactName[key]], else [fields.byFoldedName[foldName(key)]]
    (the first field with that folded name). *)
Definition lookup_field (keys : list string) (key : string) : option nat :=
  match index_of (String.eqb key) keys with
  | Some i => Some i
  | None => index_of (fun k => String.eqb (fold_name k) (fold_name key)) keys
  end.

(** ** Decoding [MaliciousData] *)

(** One member of the object: the field its key selects, decoded. *)
Definition MaliciousData_member (md : MaliciousData) (saved : option decode_error)
    (key : string) (v : json) : MaliciousData * step_out :=
  let str_out (bad : bool) (f : string) := Continue (if bad then save_error saved (UnmarshalTypeError f) else saved) in
  let ptr_out (err : option ParseError) :=
    match err with Some e => Abort (UnmarshalerError e) | None => Continue saved end in
  match lookup_field MaliciousData_keys key with
  | Some 0%nat =>
      let '(s, bad) := decode_string (md_Summary md) v in
      (mkMaliciousData s (md_Details md) (md_Published md) (md_Modified md) (md_Source md),
       str_out bad "summary")
  | Some 1%nat =>
      let '(s, bad) := decode_string (md_Details md) v in
      (mkMaliciousData (md_Summary md) s (md_Published md) (md_Modified md) (md_Source md),
       str_out bad "details")
  | Some 2%nat =>
      let '(p, err) := decode_ptr Time_zero (md_Published md) v in
      (mkMaliciousData (md_Summary md) (md_Details md) p (md_Modified md) (md_Source md),
       ptr_out err)
  | Some 3%nat =>
      let '(p, err) := decode_ptr Time_zero (md_Modified md) v in
      (mkMaliciousData (md_Summary md) (md_Details md) (md_Published md) p (md_Source md),
       ptr_out err)
  | Some 4%nat =>
      let '(s, bad) := decode_string (md_Source md) v in
      (mkMaliciousData (md_Summary md) (md_Details md) (md_Published md) (md_Modified md) s,
       str_out bad "source")
  | _ => (md, Continue saved)
  end.

(** json's [object] loop: members in order; an abort ends it. *)
Fixpoint decode_members (md : MaliciousData) (saved : option decode_error)
    (kvs : list (string * json)) : MaliciousData * step_out :=
  match kvs with
  | [] => (md, Continue saved)
  | (k, v) :: rest =>
      match MaliciousData_member md saved k v with
      | (md', Continue saved') => decode_members md' saved' rest
      | (md', Abort e) => (md', Abort e)
      end
  end.

(** [json.Unmarshal(data, &md)]: the struct as the decoder leaves it, and
    the error returned: the aborting error, else the first saved one. A
    [null] document leaves the struct; another non-object is a type error. *)
Definition Unmarshal_MaliciousData (doc : json) (md : MaliciousData)
    : MaliciousData * option decode_error :=
  match doc with
  | JObject kvs =>
      match decode_members md None kvs with
      | (md', Continue saved) => (md', saved)
      | (md', Abort e) => (md', Some e)
      end
  | JNull => (md, None)
  | _ => (md, Some (UnmarshalTypeError ""))
  end.

(** [json.Marshal] of a [*Time]: [null], or the value [MarshalJSON]
    prints, a JSON string holding [Format t timeLayout]. *)
Definition marshal_time (p : option Time) : json :=
  match p with
  | None => JNull
  | Some t => JString (Format t timeLayout)
  end.

(** ** Strings in [json.Marshal]: invalid UTF-8 becomes U+FFFD

    [appendString] walks a string with [utf8.DecodeRuneInString]; a byte
    that does not start a valid sequence ([RuneError] of size 1) is
    written as the escape [\ufffd], which decodes to the bytes EF BF BD. *)
Definition byte_in (c : ascii) (lo hi : nat) : bool :=
  let n := nat_of_ascii c in (lo <=? n)%nat && (n <=? hi)%nat.

(** The size of the valid UTF-8 sequence [s] starts with, as
    [utf8.DecodeRuneInString] accepts it: no overlong form, no surrogate,
    nothing above U+10FFFF. *)
Definition utf8_rune_len (s : string) : option nat :=
  match s with
  | EmptyString => None
  | String c0 r =>
      let b0 := nat_of_ascii c0 in
      if (b0 <? 128)%nat then Some 1%nat
      else
        match r with
        | EmptyString => None
        | String c1 r1 =>
            if byte_in c0 194 223 then (if byte_in c1 128 191 then Some 2%nat else None)
            else if byte_in c0 224 239 then
              let lo := if (b0 =? 224)%nat then 160%nat else 128%nat in
              let hi := if (b0 =? 237)%nat then 159%nat else 191%nat in
              match r1 with
              | String c2 _ =>
                  if byte_in c1 lo hi && byte_in c2 128 191 then Some 3%nat else None
              | EmptyString => None
              end
            else if byte_in c0 240 244 then
              let lo := if (b0 =? 240)%nat then 144%nat else 128%nat in
              let hi := if (b0 =? 244)%nat then 143%nat else 191%nat in
              match r1 with
              | String c2 (String c3 _) =>
                  if byte_in c1 lo hi && byte_in c2 128 191 && byte_in c3 128 191
                  then Some 4%nat else None
              | _ => None
              end
            else None
        end
  end.

(** U+FFFD in UTF-8. *)
Definition replacement_char : string :=
  String (ascii_of_nat 239) (String (ascii_of_nat 191) (String (ascii_of_nat 189) EmptyString)).

(** The loop of [appendString], with its bytes as they decode: a valid
    sequence is kept, an invalid byte replaced. [fuel] bounds the loop by
    the string's length ([utf8_coerce_fuel_stable]). *)
Fixpoint utf8_coerce_fuel (fuel : nat) (s : string) : string :=
  match fuel, s with
  | O, _ | _, EmptyString => s
  | S f, String _ r =>
      match utf8_rune_len s with
      | Some n => str_take n s ++ utf8_coerce_fuel f (str_drop n s)
      | None => replacement_char ++ utf8_coerce_fuel f r
      end
  end.

Definition utf8_coerce (s : string) : string := utf8_coerce_fuel (String.length s) s.

(** [json.Marshal(md)]: the fields in order, under their tags. *)
Definition Marshal_MaliciousData (md : MaliciousData) : json :=
  JObject [("summary", JString (utf8_coerce (md_Summary md)));
           ("details", JString (utf8_coerce (md_Details md)));
           ("published", marshal_time (md_Published md));
           ("modified", marshal_time (md_Modified md));
           ("source", JString (utf8_coerce (md_Source md)))].

(** The struct with its [i]-th field, a [*Time], set to [p]. *)
Definition set_time_field (i : nat) (md : MaliciousData) (p : option Time) : MaliciousData :=
  match i with
  | 2%nat => mkMaliciousData (md_Summary md) (md_Details md) p (md_Modified md) (md_Source md)
  | 3%nat => mkMaliciousData (md_Summary md) (md_Details md) (md_Published md) p (md_Source md)
  | _ => md
  end.


(** ** The abstract contract of the member loop

    For each field, the last member that selects it and carries a value
    the field takes decides it: a string for a string field, any value for
    a [*Time] field; with none, the receiver's value stays. *)
Definition last_member (take : json -> bool) (i : nat) (kvs : list (string * json)) : option json :=
  fold_left (fun acc kv =>
    if bool_decide (lookup_field MaliciousData_keys kv.1 = Some i) && take kv.2
    then Some kv.2 else acc) kvs None.

Definition is_jstring (v : json) : bool := match v with JString _ => true | _ => false end.

Definition spec_string (cur : string) (i : nat) (kvs : list (string * json)) : string :=
  match last_member is_jstring i kvs with Some (JString s) => s | _ => cur end.

Definition spec_time (cur : option Time) (i : nat) (kvs : list (string * json)) : option Time :=
  match last_member (fun _ => true) i kvs with
  | Some v => (decode_ptr Time_zero None v).1
  | None => cur
  end.

Definition MaliciousData_spec (md : MaliciousData) (kvs : list (string * json)) : MaliciousData :=
  mkMaliciousData (spec_string (md_Summary md) 0 kvs) (spec_string (md_Details md) 1 kvs)
    (spec_time (md_Published md) 2 kvs) (spec_time (md_Modified md) 3 kvs)
    (spec_string (md_Source md) 4 kvs).

(** ** Lemmas *)

(** The codec's method ignores its receiver: it overwrites it. *)
Lemma UnmarshalJSON_receiver (t t' : Time) (b : string) : UnmarshalJSON t b = UnmarshalJSON t' b.
Proof. reflexivity. Qed.

(** On an error the method leaves the zero time in its receiver. *)
Lemma UnmarshalJSON_err_zero (t : Time) (b : string) (e : ParseError) :
  (UnmarshalJSON t b).2 = Some e -> UnmarshalJSON t b = (Time_zero, Some e).
Proof.
  unfold UnmarshalJSON. destruct (String.eqb _ _); [done|].
  destruct (Contains _ _); unfold Parse; destruct (parse _ _); simpl; congruence.
Qed.

Lemma decode_ptr_nonnull (cur : option Time) (v : json) :
  v <> JNull ->
  decode_ptr Time_zero cur v =
  (Some (UnmarshalJSON Time_zero (json_text v)).1, (UnmarshalJSON Time_zero (json_text v)).2).
Proof.
  intros Hv. assert (Hd : decode_ptr Time_zero cur v =
    let '(t, err) := UnmarshalJSON Time_zero (json_text v) in (Some t, err))
    by (destruct v; done).
  rewrite Hd. by destruct (UnmarshalJSON Time_zero (json_text v)).
Qed.

Lemma decode_members_app (md : MaliciousData) (s : option decode_error)
    (l1 l2 : list (string * json)) :
  decode_members md s (l1 ++ l2) =
  match decode_members md s l1 with
  | (md', Continue s') => decode_members md' s' l2
  | (md', Abort e) => (md', Abort e)
  end.
Proof.
  revert md s. induction l1 as [|[k v] l1 IH]; intros md s; [done|]. simpl.
  destruct (MaliciousData_member md s k v) as [md' [s'|e]]; [apply IH|done].
Qed.

(** The [*Time] field a key selects is nil. *)
Definition time_unset (i : option nat) (md : MaliciousData) : Prop :=
  match i with
  | Some 2%nat => md_Published md = None
  | Some 3%nat => md_Modified md = None
  | _ => True
  end.

Lemma member_null_unset (md : MaliciousData) (s : option decode_error) (k : string) :
  time_unset (lookup_field MaliciousData_keys k) md ->
  MaliciousData_member md s k JNull = (md, Continue s).
Proof.
  unfold MaliciousData_member, time_unset.
  destruct (lookup_field _ k) as [[|[|[|[|[|]]]]]|]; intros H; destruct md; simpl in *;
    subst; reflexivity.
Qed.

Lemma member_keeps_unset (md : MaliciousData) (s : option decode_error) (k : string)
    (v : json) (i : option nat) :
  lookup_field MaliciousData_keys k <> i -> time_unset i md ->
  time_unset i (MaliciousData_member md s k v).1.
Proof.
  unfold MaliciousData_member, time_unset. intros Hne H.
  destruct (lookup_field _ k) as [[|[|[|[|[|]]]]]|];
    repeat case_match; simplify_eq/=; done.
Qed.

Lemma decode_members_keeps_unset (md md' : MaliciousData) (s : option decode_error)
    (l : list (string * json)) (out : step_out) (i : option nat) :
  Forall (fun kv => lookup_field MaliciousData_keys kv.1 <> i) l -> time_unset i md ->
  decode_members md s l = (md', out) -> time_unset i md'.
Proof.
  revert md s. induction l as [|[k v] l IH]; intros md s Hl Hi; simpl; [by intros [= <- _]|].
  apply Forall_cons in Hl as [Hk Hl].
  pose proof (member_keeps_unset md s k v i Hk Hi) as Hi'.
  destruct (MaliciousData_member md s k v) as [md1 [s1|e]]; [by apply IH|by intros [= <- _]].
Qed.

(** The JSON string [json.Marshal] embeds for a well-formed time is the
    text [MarshalJSON] prints. *)
Lemma marshal_time_text (t : Time) :
  time_wf t -> json_text (JString (Format t timeLayout)) = (MarshalJSON t).1.
Proof.
  intros [Hns Hy].
  destruct (MarshalJSON_canonical t Hns Hy) as (y & mo & d & h & mi & s & _ & _ & _ & _ & _ & _ & Hf & Hm).
  rewrite Hm. simpl. by rewrite Hf.
Qed.

Definition opt_time_wf (p : option Time) : Prop :=
  match p with Some t => time_wf t | None => True end.

(** A marshalled well-formed [*Time] decodes, without error, to what
    [UnmarshalJSON] reads back from the text [MarshalJSON] prints. *)
Lemma decode_marshal_time (cur p : option Time) :
  opt_time_wf p ->
  decode_ptr Time_zero cur (marshal_time p) =
  (option_map (fun t => (UnmarshalJSON Time_zero (MarshalJSON t).1).1) p, None).
Proof.
  destruct p as [t|]; [|done]. intros Ht. cbn [marshal_time].
  rewrite decode_ptr_nonnull by done. rewrite (marshal_time_text t Ht).
  destruct Ht as [Hns Hy]. pose proof (unmarshal_marshal Time_zero t Hns Hy) as Hu.
  rewrite Hu. cbn [option_map]. by rewrite Hu.
Qed.

(** Each step of [utf8_coerce_fuel] consumes at least one byte. *)
Lemma utf8_rune_len_bound (s : string) (n : nat) :
  utf8_rune_len s = Some n -> (1 <= n <= String.length s)%nat.
Proof.
  unfold utf8_rune_len. destruct s as [|c0 r]; [done|].
  repeat case_match; intros Hn; simplify_eq/=; lia.
Qed.

Lemma str_drop_length (n : nat) (s : string) :
  String.length (str_drop n s) = (String.length s - n)%nat.
Proof.
  revert s. induction n as [|n IH]; intros [|c s]; simpl; try lia. apply IH.
Qed.

(** The loop of [appendString] terminates within the string's length:
    any two bounds at least that long give the same result. *)
Lemma utf8_coerce_fuel_stable (f g : nat) (s : string) :
  (String.length s <= f)%nat -> (String.length s <= g)%nat ->
  utf8_coerce_fuel f s = utf8_coerce_fuel g s.
Proof.
  revert g s. induction f as [|f IH]; intros g [|c r] Hf Hg; simpl in Hf;
    try lia; destruct g as [|g]; simpl in Hg; try lia; try done.
  cbn [utf8_coerce_fuel]. destruct (utf8_rune_len (String c r)) as [n|] eqn:E.
  - apply utf8_rune_len_bound in E. simpl in E. f_equal. apply IH;
      rewrite str_drop_length; simpl; lia.
  - f_equal. apply IH; lia.
Qed.

(** A member's effect on the struct does not depend on the saved error;
    once an error is saved, a member keeps it or aborts with the error of a
    timestamp. *)
Lemma member_saved (md : MaliciousData) (s1 s2 : option decode_error) (k : string) (v : json) :
  (MaliciousData_member md s1 k v).1 = (MaliciousData_member md s2 k v).1 /\
  ((exists e, (MaliciousData_member md s1 k v).2 = Abort (UnmarshalerError e) /\
              (MaliciousData_member md s2 k v).2 = Abort (UnmarshalerError e)) \/
   (exists s1' s2', (MaliciousData_member md s1 k v).2 = Continue s1' /\
                    (MaliciousData_member md s2 k v).2 = Continue s2' /\
                    (forall x, s1 = Some x -> s1' = Some x))).
Proof.
  unfold MaliciousData_member.
  destruct (lookup_field _ k) as [[|[|[|[|[|]]]]]|]; repeat case_match; simplify_eq/=;
    split; try done; try (left; eexists; done);
    right; do 2 eexists; (split; [done|split; [done|]]); intros x ->; simpl; by repeat case_match.
Qed.

Lemma decode_members_saved (md : MaliciousData) (s1 s2 : option decode_error)
    (l : list (string * json)) :
  (decode_members md s1 l).1 = (decode_members md s2 l).1 /\
  ((exists e, (decode_members md s1 l).2 = Abort (UnmarshalerError e)) \/
   (exists s1', (decode_members md s1 l).2 = Continue s1' /\
                (forall x, s1 = Some x -> s1' = Some x))).
Proof.
  revert md s1 s2. induction l as [|[k v] l IH]; intros md s1 s2; simpl.
  - split; [done|]. right. by eexists.
  - destruct (member_saved md s1 s2 k v) as [H1 H2].
    destruct (MaliciousData_member md s1 k v) as [m1 o1].
    destruct (MaliciousData_member md s2 k v) as [m2 o2]. simpl in H1, H2. subst m2.
    destruct H2 as [(e & -> & ->)|(s1' & s2' & -> & -> & Hs)].
    + split; [done|]. left. by eexists.
    + destruct (IH m1 s1' s2') as [Hf [Ha|(s1'' & E & Hs')]]; split; try done.
      * by left.
      * right. exists s1''. split; [done|]. auto.
Qed.

(** A mistyped value for a string field leaves the struct and saves an
    error naming the field. *)
Lemma member_type_error (md : MaliciousData) (s : option decode_error) (k : string)
    (i : nat) (v : json) :
  lookup_field MaliciousData_keys k = Some i -> (i = 0 \/ i = 1 \/ i = 4)%nat ->
  is_jstring v = false -> v <> JNull ->
  MaliciousData_member md s k v =
  (md, Continue (save_error s (UnmarshalTypeError (nth i MaliciousData_keys "")))).
Proof.
  intros Hk Hi Hs Hn. unfold MaliciousData_member. rewrite Hk.
  destruct Hi as [-> | [-> | ->]]; destruct v; simplify_eq/=; by destruct md.
Qed.

Lemma last_member_snoc (take : json -> bool) (i : nat) (kvs : list (string * json))
    (k : string) (v : json) :
  last_member take i (kvs ++ [(k, v)]) =
  if bool_decide (lookup_field MaliciousData_keys k = Some i) && take v
  then Some v else last_member take i kvs.
Proof. unfold last_member. by rewrite fold_left_app. Qed.

(** The result of a [*Time] field does not depend on its old value. *)
Lemma decode_ptr_cur (cur : option Time) (v : json) :
  (decode_ptr Time_zero cur v).1 = (decode_ptr Time_zero None v).1.
Proof. destruct v; [done|..]; by rewrite !decode_ptr_nonnull. Qed.

(** One more member moves the contract's struct the way the member step
    moves the decoder's. *)
Lemma member_spec (md : MaliciousData) (kvs : list (string * json)) (s s' : option decode_error)
    (k : string) (v : json) (md' : MaliciousData) :
  MaliciousData_member (MaliciousData_spec md kvs) s k v = (md', Continue s') ->
  md' = MaliciousData_spec md (kvs ++ [(k, v)]).
Proof.
  unfold MaliciousData_spec, spec_string, spec_time. rewrite !last_member_snoc.
  unfold MaliciousData_member.
  destruct (lookup_field _ k) as [[|[|[|[|[|i]]]]]|] eqn:Hk;
    rewrite ?bool_decide_true, ?bool_decide_false by congruence; simpl.
  1,2,5: destruct v; simpl; intros [= <- _]; reflexivity.
  1,2: destruct (decode_ptr Time_zero _ v) as [p e] eqn:D; intros H;
    pose proof (f_equal fst D) as Hp; rewrite decode_ptr_cur in Hp; simpl in Hp; subst p;
    destruct e; injection H as <- _; reflexivity.
  all: intros [= <- _]; reflexivity.
Qed.

(** ** Properties *)

(** C8: one timestamp that fails to parse aborts the whole decode (spec
    section 7), whichever of the two [*Time] fields it is for: whatever the
    members before it decoded and whatever error they saved,
    [json.Unmarshal] returns the codec's [ParseError], ignores every later
    member, and leaves that field pointing at the zero time (not nil). *)
Theorem Unmarshal_timestamp_error_aborts (pre post : list (string * json)) (k : string)
    (i : nat) (v : json) (md0 md1 : MaliciousData) (saved : option decode_error)
    (e : ParseError) :
  decode_members md0 None pre = (md1, Continue saved) ->
  lookup_field MaliciousData_keys k = Some i -> (i = 2 \/ i = 3)%nat ->
  v <> JNull ->
  (UnmarshalJSON Time_zero (json_text v)).2 = Some e ->
  Unmarshal_MaliciousData (JObject (pre ++ (k, v) :: post)) md0 =
  (set_time_field i md1 (Some Time_zero), Some (UnmarshalerError e)).
Proof.
  intros Hpre Hk Hi Hv He. unfold Unmarshal_MaliciousData. rewrite decode_members_app, Hpre.
  cbn [decode_members]. unfold MaliciousData_member. rewrite Hk.
  destruct Hi as [-> | ->]; rewrite decode_ptr_nonnull by done;
    by rewrite (UnmarshalJSON_err_zero _ _ _ He).
Qed.

Lemma Unmarshal_timestamp_error_aborts_witness :
  let pre := [("summary", JString "typosquat"); ("source", JNumber "7");
              ("published", JString "2024-01-16T23:40:53Z")] in
  let md0 := mkMaliciousData "" "" None None "" in
  exists md1 e,
  Unmarshal_MaliciousData
    (JObject (pre ++ ("Modified", JString "2024-01-18") :: [("details", JString "x")])) md0 =
  (set_time_field 3 md1 (Some Time_zero), Some (UnmarshalerError e)).
Proof.
  intros pre md0.
  destruct (decode_members md0 None pre) as [md1 [saved|a]] eqn:Epre;
    [|vm_compute in Epre; discriminate].
  destruct (UnmarshalJSON Time_zero (json_text (JString "2024-01-18"))) as [t [e|]] eqn:E;
    [|vm_compute in E; discriminate].
  exists md1, e.
  exact (Unmarshal_timestamp_error_aborts pre [("details", JString "x")] "Modified" 3
           (JString "2024-01-18") md0 md1 saved e Epre ltac:(vm_compute; reflexivity)
           ltac:(right; reflexivity) ltac:(discriminate) ltac:(rewrite E; reflexivity)).
Defined.

(** C9: a member whose value is [null] decodes as if it were absent (spec
    section 6), into a struct whose timestamps are nil, when no earlier
    member named the same field: a string field ignores [null], and a
    [*Time] field is set to nil, which it already is. *)
Theorem Unmarshal_null_is_absent (pre post : list (string * json)) (k : string)
    (md0 : MaliciousData) :
  md_Published md0 = None -> md_Modified md0 = None ->
  Forall (fun kv => lookup_field MaliciousData_keys kv.1 <> lookup_field MaliciousData_keys k) pre ->
  Unmarshal_MaliciousData (JObject (pre ++ (k, JNull) :: post)) md0 =
  Unmarshal_MaliciousData (JObject (pre ++ post)) md0.
Proof.
  intros Hp Hm Hpre. unfold Unmarshal_MaliciousData. rewrite !decode_members_app.
  destruct (decode_members md0 None pre) as [md1 [s|e]] eqn:E; [|done].
  cbn [decode_members]. rewrite member_null_unset; [done|].
  eapply decode_members_keeps_unset; [exact Hpre| |exact E].
  unfold time_unset. by repeat case_match.
Qed.

Lemma Unmarshal_null_is_absent_witness :
  let pre := [("summary", JString "s"); ("published", JString "2024-01-16T23:40:53Z")] in
  let post := [("source", JString "osv")] in
  let md0 := mkMaliciousData "" "" None None "" in
  md_Published md0 = None /\ md_Modified md0 = None /\
  Unmarshal_MaliciousData (JObject (pre ++ ("modified", JNull) :: post)) md0 =
  Unmarshal_MaliciousData (JObject (pre ++ post)) md0.
Proof.
  intros pre post md0. split; [done|]. split; [done|].
  apply Unmarshal_null_is_absent; [done|done|].
  repeat constructor; vm_compute; discriminate.
Defined.

(** C10: [json.Marshal] then [json.Unmarshal] of a [MaliciousData] whose
    timestamps are well formed succeeds into any struct with nil
    timestamps, and gives back each string coerced to valid UTF-8 (every
    byte that starts no valid sequence replaced by U+FFFD, the rest kept)
    and each timestamp as the value [UnmarshalJSON] reads back from the
    text [MarshalJSON] prints for it. *)
Theorem Unmarshal_Marshal_MaliciousData (md md0 : MaliciousData) :
  md_Published md0 = None -> md_Modified md0 = None ->
  opt_time_wf (md_Published md) -> opt_time_wf (md_Modified md) ->
  let reread t := (UnmarshalJSON Time_zero (MarshalJSON t).1).1 in
  Unmarshal_MaliciousData (Marshal_MaliciousData md) md0 =
  (mkMaliciousData (utf8_coerce (md_Summary md)) (utf8_coerce (md_Details md))
     (option_map reread (md_Published md)) (option_map reread (md_Modified md))
     (utf8_coerce (md_Source md)), None).
Proof.
  intros Hp0 Hm0 Hp Hm reread.
  unfold Unmarshal_MaliciousData, Marshal_MaliciousData. cbn [decode_members].
  unfold MaliciousData_member. simpl.
  rewrite Hp0, (decode_marshal_time None _ Hp). simpl.
  rewrite Hm0, (decode_marshal_time None _ Hm). reflexivity.
Qed.

Lemma Unmarshal_Marshal_MaliciousData_witness :
  let md := mkMaliciousData (String (ascii_of_nat 255) "lodash") "details"
              (Some (mkTime 63842326853 0 UTC)) None "osv" in
  let md0 := mkMaliciousData "" "" None None "" in
  (md_Published md0 = None /\ md_Modified md0 = None /\
   opt_time_wf (md_Published md) /\ opt_time_wf (md_Modified md)) /\
  (Unmarshal_MaliciousData (Marshal_MaliciousData md) md0).1 =
  mkMaliciousData (replacement_char ++ "lodash") "details" (Some (mkTime 63842326853 0 UTC))
    None "osv".
Proof.
  intros md md0.
  assert (Hwf : opt_time_wf (md_Published md))
    by (split; [simpl; lia|]; vm_compute; split; discriminate).
  split; [split; [done|split; [done|split; [exact Hwf|done]]]|].
  rewrite (Unmarshal_Marshal_MaliciousData md md0 eq_refl eq_refl Hwf I).
  vm_compute. reflexivity.
Defined.

(** C17: a string field ([summary], [details] or [source]) given a
    number, a boolean, an array or an object does not stop the decode: the
    field is left as it was, the rest of the document decodes as if the
    member were absent, and the error returned is the first one saved,
    this [UnmarshalTypeError] naming the field unless an earlier member
    saved one, except that a failing timestamp later still aborts with its
    own error. *)
Theorem Unmarshal_type_error_continues (pre post : list (string * json)) (k : string)
    (i : nat) (v : json) (md0 md1 : MaliciousData) (saved : option decode_error) :
  decode_members md0 None pre = (md1, Continue saved) ->
  lookup_field MaliciousData_keys k = Some i -> (i = 0 \/ i = 1 \/ i = 4)%nat ->
  is_jstring v = false -> v <> JNull ->
  let r := Unmarshal_MaliciousData (JObject (pre ++ (k, v) :: post)) md0 in
  r.1 = (Unmarshal_MaliciousData (JObject post) md1).1 /\
  (r.2 = save_error saved (UnmarshalTypeError (nth i MaliciousData_keys "")) \/
   exists e, r.2 = Some (UnmarshalerError e)).
Proof.
  intros Hpre Hk Hi Hs Hn. cbv zeta. unfold Unmarshal_MaliciousData.
  rewrite decode_members_app, Hpre. cbn [decode_members].
  rewrite (member_type_error md1 saved k i v Hk Hi Hs Hn).
  set (s := save_error saved _).
  assert (Hsome : exists x, s = Some x) by (subst s; destruct saved; by eexists).
  destruct Hsome as [x Hx].
  destruct (decode_members_saved md1 s None post) as [Hf [(e & Ha)|(s' & Hc & Hs')]];
    destruct (decode_members md1 s post) as [m1 o1];
    destruct (decode_members md1 None post) as [m2 o2]; simpl in *; subst.
  - split; [by destruct o2|]. right. by eexists.
  - split; [by destruct o2|]. left. rewrite Hx. by rewrite (Hs' x Hx).
Qed.

Lemma Unmarshal_type_error_continues_witness :
  let md0 := mkMaliciousData "" "" None None "" in
  let pre := [("summary", JString "s")] in
  let post := [("source", JString "osv")] in
  Unmarshal_MaliciousData (JObject (pre ++ ("DETAILS", JBool true) :: post)) md0 =
  (mkMaliciousData "s" "" None None "osv", Some (UnmarshalTypeError "details")).
Proof.
  intros md0 pre post.
  destruct (Unmarshal_type_error_continues pre post "DETAILS" 1 (JBool true) md0
              (mkMaliciousData "s" "" None None "") None eq_refl
              ltac:(vm_compute; reflexivity) ltac:(right; left; reflexivity)
              eq_refl ltac:(discriminate))
    as [H1 [H2|[e H2]]]; [|discriminate H2].
  destruct (Unmarshal_MaliciousData _ md0) as [m r]. simpl in H1, H2. subst. done.
Defined.

(** C22: a JSON [null] and the JSON string ["null"] decode differently
    into either [*Time] field, whatever the struct and the saved error:
    [null] sets the pointer to nil without calling [UnmarshalJSON]; the
    string ["null"] is passed to it, is trimmed to [null] there, and stores
    the zero time without an error. *)
Theorem member_null_vs_quoted_null (md : MaliciousData) (s : option decode_error)
    (k : string) (i : nat) :
  lookup_field MaliciousData_keys k = Some i -> (i = 2 \/ i = 3)%nat ->
  MaliciousData_member md s k JNull = (set_time_field i md None, Continue s) /\
  MaliciousData_member md s k (JString "null") =
  (set_time_field i md (Some Time_zero), Continue s).
Proof.
  intros Hk Hi. unfold MaliciousData_member. rewrite Hk.
  destruct Hi as [-> | ->]; split; reflexivity.
Qed.

Lemma member_null_vs_quoted_null_witness :
  let md := mkMaliciousData "s" "" (Some (mkTime 63842326853 0 UTC)) None "" in
  (lookup_field MaliciousData_keys "Published" = Some 2%nat /\ (2 = 2 \/ 2 = 3)%nat) /\
  MaliciousData_member md None "Published" JNull = (set_time_field 2 md None, Continue None).
Proof.
  intros md. split; [split; [vm_compute; reflexivity|left; reflexivity]|].
  exact (proj1 (member_null_vs_quoted_null md None "Published" 2
                  ltac:(vm_compute; reflexivity) ltac:(left; reflexivity))).
Defined.

(** C11: refinement: when the decode is not aborted, the struct json's
    member loop leaves is the one the contract describes, field by field:
    the last member selecting a string field with a string value, and the
    last member selecting a [*Time] field, decide it; duplicate keys and
    keys differing only in case are resolved by position, the later one
    winning; fields no member selects keep the receiver's value. *)
Theorem decode_members_refines (md md' : MaliciousData) (kvs : list (string * json))
    (s s' : option decode_error) :
  decode_members md s kvs = (md', Continue s') -> md' = MaliciousData_spec md kvs.
Proof.
  revert md' s'. induction kvs as [|[k v] kvs IH] using rev_ind; intros md' s'.
  - intros [= <- _]. by destruct md.
  - rewrite decode_members_app.
    destruct (decode_members md s kvs) as [m1 [s1|e]] eqn:E; [|done].
    rewrite (IH m1 s1 eq_refl). cbn [decode_members].
    destruct (MaliciousData_member _ s1 k v) as [m2 [s2|e]] eqn:M; [|done].
    intros [= <- _]. exact (member_spec md kvs s1 s2 k v m2 M).
Qed.

Lemma decode_members_refines_witness :
  let md0 := mkMaliciousData "" "" None None "" in
  let kvs := [("summary", JString "a"); ("SUMMARY", JString "b"); ("summary", JNull);
              ("Published", JString "2024-01-16T23:40:53Z"); ("published", JNull)] in
  exists s', decode_members md0 None kvs = (MaliciousData_spec md0 kvs, Continue s') /\
  MaliciousData_spec md0 kvs = mkMaliciousData "b" "" None None "".
Proof.
  intros md0 kvs. exists None.
  assert (E : decode_members md0 None kvs = (mkMaliciousData "b" "" None None "", Continue None))
    by (vm_compute; reflexivity).
  rewrite <- (decode_members_refines md0 _ kvs None None E). split; [exact E|reflexivity].
Defined.

End JsonDecode.
